(** * BasePlot: configuration assembly, layout and lifecycle

    A shallow embedding of [src/Base/plot.ts] (the abstract class [BasePlot]
    of G2Plot) together with the properties of its natural-language
    specification.

    JavaScript numbers are idealised as rationals, objects are finite maps
    from property names to values, and a property holding [undefined] is the
    same as an absent property.  Methods of [BasePlot] become functions on an
    explicit instance state; a thrown exception is the [Err] outcome. *)

From Stdlib Require Import Ascii String QArith Qminmax Lqa.
From stdpp Require Import base option list strings gmap.

Set Warnings "-register-all".
#[local] Set Default Proof Using "Type".

(** ** Outcomes of a method call *)

Inductive error : Type :=
| TypeError (what : string)   (* the exception JavaScript raises on [undefined.x] and the like *)
| IllTyped (what : string)    (* a value outside the TypeScript type where a number is needed *)
| OutOfFuel.                  (* the bound on nested re-initialisations was reached *)

Inductive result (A : Type) : Type :=
| Ok (a : A)
| Err (e : error).
Arguments Ok {A} a.
Arguments Err {A} e.

#[global] Instance result_ret : MRet result := fun A a => Ok a.
#[global] Instance result_bind : MBind result := fun A B f r =>
  match r with Ok a => f a | Err e => Err e end.
#[global] Instance result_fmap : FMap result := fun A B f r =>
  match r with Ok a => Ok (f a) | Err e => Err e end.

Definition is_Ok {A} (r : result A) : Prop := exists a, r = Ok a.

(** An outcome other than running out of fuel. *)
Definition proper {A} (r : result A) : Prop := r <> Err OutOfFuel.

(** ** JavaScript values and the helpers of [@antv/util] used by the class *)

Module JS.

(** A function value carries its [name] (read by the event binder) and an
    identity, so that two handlers with the same name stay distinct. *)
Record Fn : Type := { fn_name : string; fn_id : nat }.

#[global] Instance Fn_eq_dec : EqDecision Fn.
Proof. solve_decision. Defined.

Inductive value : Type :=
| VNull
| VBool (b : bool)
| VNum (q : Q)
| VStr (s : string)
| VFun (f : Fn)
| VArr (l : list value)
| VObj (m : gmap string value).

Abbreviation obj := (gmap string value).

(** [if (v)]: [undefined], [null], [false], [0] and [''] are falsy. *)
Definition truthy (v : option value) : bool :=
  match v with
  | None | Some VNull => false
  | Some (VBool b) => b
  | Some (VNum q) => negb (Qeq_bool q 0)
  | Some (VStr s) => negb (String.eqb s "")
  | Some (VFun _) | Some (VArr _) | Some (VObj _) => true
  end.

(** [v === 'auto'] *)
Definition is_str (s : string) (v : option value) : bool :=
  match v with Some (VStr s') => String.eqb s' s | _ => false end.

(** [v === false] *)
Definition is_false (v : option value) : bool :=
  match v with Some (VBool false) => true | _ => false end.

(** [v.k]: reading a property of [undefined] or [null] throws; a primitive
    has no own properties. *)
Definition member (v : option value) (k : string) : result (option value) :=
  match v with
  | None | Some VNull =>
      Err (TypeError ("Cannot read property '" +:+ k +:+ "' of undefined"))
  | Some (VObj m) => Ok (m !! k)
  | Some _ => Ok None
  end.

(** [v[k]] where [v] is already known to be truthy (no exception). *)
Definition field (v : option value) (k : string) : option value :=
  match v with Some (VObj m) => m !! k | _ => None end.

(** ['a.b.c'.split('.')] *)
Fixpoint split_dot (s : string) : list string :=
  match s with
  | EmptyString => [""]
  | String c s' =>
      if Ascii.eqb c "."%char then "" :: split_dot s'
      else match split_dot s' with
           | w :: ws => String c w :: ws
           | [] => [String c ""]
           end
  end.

(** A string without a dot. *)
Definition undotted (f : string) : Prop :=
  forall c, In c (list_ascii_of_string f) -> c <> "."%char.

(** [_.get(obj, key)]:
    [while (obj && p < keyArr.length) obj = obj[keyArr[p++]];
     return (obj === undefined || p < keyArr.length) ? undefined : obj] *)
Fixpoint get_keys (o : option value) (keys : list string) : option value :=
  match keys with
  | [] => o
  | k :: ks => if truthy o then get_keys (field o k) ks else None
  end.
Definition get (o : option value) (key : string) : option value :=
  get_keys o (split_dot key).

(** [_mix(dist, obj)]: every own property of [obj] other than
    ['constructor'] whose value is defined overwrites that of [dist]. *)
Definition mixable (src : obj) : obj :=
  filter (fun kv => kv.1 <> "constructor") src.
Definition mix (dist src : obj) : obj := mixable src ∪ dist.

(** [_.mix(dist, src)] with a source that may be absent:
    [if (src) _mix(dist, src)]. *)
Definition mix_opt (dist : obj) (src : option value) : obj :=
  match src with Some (VObj m) => mix dist m | _ => dist end.

(** [_.assign({}, a, b)] ([assign] is [mix]). *)
Definition assign3 (a b : obj) : obj := mix (mix ∅ a) b.

(** [_.assign(dist, src)] on a config section: writing a property on a
    primitive (a section switched off with [false]) throws in strict mode;
    with nothing to write the call leaves [dist] alone. *)
Definition assign (dist : value) (src : obj) : result value :=
  match dist with
  | VObj m => Ok (VObj (mix m src))
  | _ => if decide (mixable src = ∅) then Ok dist
         else Err (TypeError "Cannot create property on a primitive")
  end.

(** [{ k: v }] where [v] may be [undefined]. *)
Definition obj1 (k : string) (v : option value) : obj :=
  match v with Some x => {[ k := x ]} | None => ∅ end.

(** [_deepMix(dist, src, level, maxLevel)], by recursion on
    [maxLevel - level]: a plain object is merged into the plain object of
    [dist] (or into a new one), and assigned as it is once the level bound
    is reached; an array is copied; any other defined value is assigned. *)
Definition MAX_MIX_LEVEL : nat := 5.

Definition deepMix_entry (rec : option (obj -> obj -> obj))
    (d s : option value) : option value :=
  match s with
  | None => d
  | Some (VObj sm) =>
      match rec with
      | Some deeper =>
          Some (VObj (deeper (match d with Some (VObj dm) => dm | _ => ∅ end) sm))
      | None => Some (VObj sm)
      end
  | Some (VArr l) => Some (VArr ([] ++ l))
  | Some v => Some v
  end.

Fixpoint deepMix_at (levels : nat) (dist src : obj) : obj :=
  merge (deepMix_entry (match levels with
                        | O => None
                        | S n => Some (deepMix_at n)
                        end)) dist src.

(** [_.deepMix(dist, src)] and [_.deepMix({}, a, b)]. *)
Definition deepMix (dist src : obj) : obj := deepMix_at MAX_MIX_LEVEL dist src.
Definition deepMix3 (a b : obj) : obj := deepMix (deepMix ∅ a) b.

(** [_.deepMix(dist, src)] with a source known to be truthy. *)
Definition deepMix_opt (dist : obj) (src : option value) : obj :=
  match src with Some (VObj m) => deepMix dist m | _ => dist end.

(** [_.mapValues(object, func)] *)
Definition mapValues (f : value -> string -> value) (o : obj) : obj :=
  map_imap (fun k v => Some (f v k)) o.

(** [_.isEmpty(value)] *)
Definition isEmpty (v : option value) : bool :=
  match v with
  | None | Some VNull => true
  | Some (VArr l) => match l with [] => true | _ => false end
  | Some (VStr s) => String.eqb s ""
  | Some (VObj m) => bool_decide (m = ∅)
  | Some _ => true
  end.

End JS.

Export JS.

(** ** Geometry: numbers with infinities, bounding boxes, view margins *)

Module Geometry.

(** The accumulators of [_getViewMargin] start at [Infinity] and
    [-Infinity]. *)
Inductive num : Type :=
| NegInf
| Fin (q : Q)
| PosInf.

(** [Math.min(box.minX, minX)] and [Math.max(box.maxX, maxX)] *)
Definition num_min (a : Q) (b : num) : num :=
  match b with
  | NegInf => NegInf
  | Fin q => Fin (Qmin a q)
  | PosInf => Fin a
  end.
Definition num_max (a : Q) (b : num) : num :=
  match b with
  | NegInf => Fin a
  | Fin q => Fin (Qmax a q)
  | PosInf => PosInf
  end.

(** [x += q] *)
Definition num_add (x : num) (q : Q) : num :=
  match x with
  | Fin a => Fin (a + q)
  | inf => inf
  end.

(** [x >= h] *)
Definition num_geb (x : num) (h : Q) : bool :=
  match x with
  | NegInf => false
  | Fin a => Qle_bool h a
  | PosInf => true
  end.

(** [x < h], as a proposition *)
Definition num_lt (x : num) (h : Q) : Prop :=
  match x with
  | NegInf => True
  | Fin a => (a < h)%Q
  | PosInf => False
  end.

(** [BBox] of [@antv/g]: [new BBox(x, y, width, height)]. *)
Module BBox.
Record t : Type := mk {
  minX : Q; minY : Q; maxX : Q; maxY : Q; width : Q; height : Q
}.
Definition new (x y w h : Q) : t :=
  {| minX := x; minY := y; maxX := (x + w)%Q; maxY := (y + h)%Q;
     width := w; height := h |}.
End BBox.

(** The object literal [{ minX, maxX, minY, maxY }] that [_getViewMargin]
    returns. *)
Module Margin.
Record t : Type := mk { minX : num; maxX : num; minY : num; maxY : num }.
Definition zero : t :=
  {| minX := Fin 0; maxX := Fin 0; minY := Fin 0; maxY := Fin 0 |}.
Definition set_maxY (y : num) (m : t) : t :=
  {| minX := minX m; maxX := maxX m; minY := minY m; maxY := y |}.
End Margin.

(** The clamp constant of [_getViewMargin]. *)
Definition clamp_epsilon : Q := 1 # 10.

End Geometry.

Export Geometry.

(** ** The data of an instance *)

(** The resolved theme.  The blocks [title], [description] and [tooltip]
    are objects that the class overrides in place. *)
Module Theme.
Record t : Type := mk {
  defaultLegendPosition : option value;
  backgroundStyle : option value;
  title : obj;
  description : obj;
  tooltip : obj;
  padding : option value;
  defaultPadding : option value
}.
Definition set_title (x : obj) (th : t) : t :=
  mk (defaultLegendPosition th) (backgroundStyle th) x (description th)
     (tooltip th) (padding th) (defaultPadding th).
Definition set_description (x : obj) (th : t) : t :=
  mk (defaultLegendPosition th) (backgroundStyle th) (title th) x
     (tooltip th) (padding th) (defaultPadding th).
Definition set_tooltip (x : obj) (th : t) : t :=
  mk (defaultLegendPosition th) (backgroundStyle th) (title th)
     (description th) x (padding th) (defaultPadding th).
End Theme.

(** [G2Config].  Its [theme] entry is a reference to the theme object of
    the theme controller; that object is kept once, in the instance state
    (field [theme] of [BasePlot]), so that an override written through
    [this._config.theme] is the override of the shared object. *)
Module G2Config.
Record t : Type := mk {
  scales : value;
  legends : value;
  tooltip : value;
  axes : value;
  coord : value;
  elements : list value;
  annotations : value;
  interactions : value;
  panelRange : option BBox.t
}.

(** The keys [_setConfig] is called with. *)
Inductive key : Type :=
| Kscales | Klegends | Ktooltip | Kaxes | Kcoord | Kannotations
| Kinteractions | Kelement.

Definition section (k : key) (c : t) : value :=
  match k with
  | Kscales => scales c
  | Klegends => legends c
  | Ktooltip => tooltip c
  | Kaxes => axes c
  | Kcoord => coord c
  | Kannotations => annotations c
  | Kinteractions => interactions c
  | Kelement => VArr (elements c)
  end.

Definition set_section (k : key) (v : value) (c : t) : t :=
  match k with
  | Kscales => mk v (legends c) (tooltip c) (axes c) (coord c) (elements c)
                  (annotations c) (interactions c) (panelRange c)
  | Klegends => mk (scales c) v (tooltip c) (axes c) (coord c) (elements c)
                   (annotations c) (interactions c) (panelRange c)
  | Ktooltip => mk (scales c) (legends c) v (axes c) (coord c) (elements c)
                   (annotations c) (interactions c) (panelRange c)
  | Kaxes => mk (scales c) (legends c) (tooltip c) v (coord c) (elements c)
                (annotations c) (interactions c) (panelRange c)
  | Kcoord => mk (scales c) (legends c) (tooltip c) (axes c) v (elements c)
                 (annotations c) (interactions c) (panelRange c)
  | Kannotations => mk (scales c) (legends c) (tooltip c) (axes c) (coord c)
                       (elements c) v (interactions c) (panelRange c)
  | Kinteractions => mk (scales c) (legends c) (tooltip c) (axes c) (coord c)
                        (elements c) (annotations c) v (panelRange c)
  | Kelement => c
  end.

Definition set_elements (l : list value) (c : t) : t :=
  mk (scales c) (legends c) (tooltip c) (axes c) (coord c) l
     (annotations c) (interactions c) (panelRange c).

Definition set_panelRange (r : BBox.t) (c : t) : t :=
  mk (scales c) (legends c) (tooltip c) (axes c) (coord c) (elements c)
     (annotations c) (interactions c) (Some r).
End G2Config.

(** The drawable view of the rendering engine ([G2.View]), as far as the
    class uses it: the options it is constructed with, its listeners, the
    calls to [render] it has received, and whether it has been destroyed. *)
Module View.
Record t : Type := mk {
  width : Q;
  height : Q;
  padding : option value;
  data : option value;
  theme : Theme.t;
  options : G2Config.t;
  start_y : num;
  listeners : list (string * Fn);
  renders : list (option bool);
  destroyed : bool
}.

Definition set_listeners (l : list (string * Fn)) (v : t) : t :=
  mk (width v) (height v) (padding v) (data v) (theme v) (options v)
     (start_y v) l (renders v) (destroyed v).

(** [view.on(type, handler)] *)
Definition on (type : string) (handler : Fn) (v : t) : t :=
  set_listeners (listeners v ++ [(type, handler)]) v.

(** [view.off(type, handler)]: one registration of the handler under that
    event is removed, if there is one. *)
Fixpoint remove_first (x : string * Fn) (l : list (string * Fn)) :=
  match l with
  | [] => []
  | y :: l' => if decide (x = y) then l' else y :: remove_first x l'
  end.
Definition off (type : string) (handler : Fn) (v : t) : t :=
  set_listeners (remove_first (type, handler) (listeners v)) v.

(** [view.render(arg)]; recorded is the argument of the call, [None] for
    [view.render()]. *)
Definition render (arg : option bool) (v : t) : t :=
  mk (width v) (height v) (padding v) (data v) (theme v) (options v)
     (start_y v) (listeners v) (renders v ++ [arg]) (destroyed v).

(** [view.changeData(data)] *)
Definition changeData (d : option value) (v : t) : t :=
  mk (width v) (height v) (padding v) d (theme v) (options v)
     (start_y v) (listeners v) (renders v) (destroyed v).

(** [view.destroy()] *)
Definition destroy (v : t) : t :=
  mk (width v) (height v) (padding v) (data v) (theme v) (options v)
     (start_y v) (listeners v) (renders v) true.
End View.

(** The canvas controller: pixel size of the canvas, the background colour
    of its DOM element, whether that element still has a parent node, and
    whether the controller has been released. *)
Module CanvasController.
Record t : Type := mk {
  width : Q;
  height : Q;
  backgroundColor : option value;
  attached : bool;
  destroyed : bool
}.
Definition set_size (wh : Q * Q) (c : t) : t :=
  mk wh.1 wh.2 (backgroundColor c) (attached c) (destroyed c).
Definition set_backgroundColor (x : option value) (c : t) : t :=
  mk (width c) (height c) x (attached c) (destroyed c).
(** [canvasController.destory()] *)
Definition destory (c : t) : t :=
  mk (width c) (height c) (backgroundColor c) (attached c) true.
(** [canvasDOM.parentNode.removeChild(canvasDOM)]: a detached element has
    no parent node. *)
Definition removeFromParent (c : t) : result t :=
  if attached c
  then Ok (mk (width c) (height c) (backgroundColor c) false (destroyed c))
  else Err (TypeError "Cannot read property 'removeChild' of null").
End CanvasController.

(** A title or description block ([TextDescription]): the options it is
    created with, and whether it has been disposed. *)
Module TextDescription.
Record t : Type := mk {
  leftMargin : Q;
  topMargin : Q;
  text : option value;
  style : obj;
  wrapperWidth : Q;
  alignWithAxis : option value;
  destroyed : bool
}.
Definition destory (d : t) : t :=
  mk (leftMargin d) (topMargin d) (text d) (style d) (wrapperWidth d)
     (alignWithAxis d) true.
End TextDescription.

(** An entry of [eventHandlers]: [{ type, handler }]. *)
Record HandlerRecord : Type := { type : string; handler : Fn }.

Definition binding (r : HandlerRecord) : string * Fn := (type r, handler r).

(** The instance.  [theme] is [themeController.theme]; [retired] is not a
    field of the class: it keeps, for the statements below, every view at
    the moment [updateConfig] destroyed it. *)
Record BasePlot : Type := mkPlot {
  destroyed : bool;
  _initialProps : obj;
  _originalProps : obj;
  _config : G2Config.t;
  eventHandlers : list HandlerRecord;
  paddingComponents : list value;
  title : option TextDescription.t;
  description : option TextDescription.t;
  plot : option View.t;
  canvasController : CanvasController.t;
  theme : Theme.t;
  retired : list View.t
}.

Definition set_destroyed (x : bool) (s : BasePlot) : BasePlot :=
  mkPlot x (_initialProps s) (_originalProps s) (_config s) (eventHandlers s)
    (paddingComponents s) (title s) (description s) (plot s)
    (canvasController s) (theme s) (retired s).
Definition set_initialProps (x : obj) (s : BasePlot) : BasePlot :=
  mkPlot (destroyed s) x (_originalProps s) (_config s) (eventHandlers s)
    (paddingComponents s) (title s) (description s) (plot s)
    (canvasController s) (theme s) (retired s).
Definition set_config (x : G2Config.t) (s : BasePlot) : BasePlot :=
  mkPlot (destroyed s) (_initialProps s) (_originalProps s) x (eventHandlers s)
    (paddingComponents s) (title s) (description s) (plot s)
    (canvasController s) (theme s) (retired s).
Definition set_eventHandlers (x : list HandlerRecord) (s : BasePlot) : BasePlot :=
  mkPlot (destroyed s) (_initialProps s) (_originalProps s) (_config s) x
    (paddingComponents s) (title s) (description s) (plot s)
    (canvasController s) (theme s) (retired s).
Definition set_paddingComponents (x : list value) (s : BasePlot) : BasePlot :=
  mkPlot (destroyed s) (_initialProps s) (_originalProps s) (_config s)
    (eventHandlers s) x (title s) (description s) (plot s)
    (canvasController s) (theme s) (retired s).
Definition set_title (x : option TextDescription.t) (s : BasePlot) : BasePlot :=
  mkPlot (destroyed s) (_initialProps s) (_originalProps s) (_config s)
    (eventHandlers s) (paddingComponents s) x (description s) (plot s)
    (canvasController s) (theme s) (retired s).
Definition set_description (x : option TextDescription.t) (s : BasePlot) : BasePlot :=
  mkPlot (destroyed s) (_initialProps s) (_originalProps s) (_config s)
    (eventHandlers s) (paddingComponents s) (title s) x (plot s)
    (canvasController s) (theme s) (retired s).
Definition set_plot (x : option View.t) (s : BasePlot) : BasePlot :=
  mkPlot (destroyed s) (_initialProps s) (_originalProps s) (_config s)
    (eventHandlers s) (paddingComponents s) (title s) (description s) x
    (canvasController s) (theme s) (retired s).
Definition set_canvasController (x : CanvasController.t) (s : BasePlot) : BasePlot :=
  mkPlot (destroyed s) (_initialProps s) (_originalProps s) (_config s)
    (eventHandlers s) (paddingComponents s) (title s) (description s) (plot s)
    x (theme s) (retired s).
Definition set_theme (x : Theme.t) (s : BasePlot) : BasePlot :=
  mkPlot (destroyed s) (_initialProps s) (_originalProps s) (_config s)
    (eventHandlers s) (paddingComponents s) (title s) (description s) (plot s)
    (canvasController s) x (retired s).
Definition set_retired (x : list View.t) (s : BasePlot) : BasePlot :=
  mkPlot (destroyed s) (_initialProps s) (_originalProps s) (_config s)
    (eventHandlers s) (paddingComponents s) (title s) (description s) (plot s)
    (canvasController s) (theme s) x.

(** ** Collaborators and extension points *)

(** Modelled from the spec: the collaborators of the class that live in
    other files of the repository ([util/event], [util/padding],
    [components/description], [controller/canvas]), at their interface.
    [EVENT_MAP] is the table from handler names to event names;
    [getAutoPadding] measures a provisionally rendered view together with the
    registered padding participants and the theme's default padding and
    returns a concrete padding tuple; [getBBox] is the measured bounding box
    of a title or description block; [canvasSize] is the pixel size the
    canvas controller resolves for a working configuration. *)
Class Collaborators : Type := {
  EVENT_MAP : gmap string string;
  getAutoPadding : View.t -> list value -> option value -> Q * Q * Q * Q;
  getBBox : TextDescription.t -> BBox.t;
  canvasSize : obj -> Q * Q
}.

(** Modelled from the spec: the abstract methods that a chart variant
    supplies.  Each reads the working configuration and the theme and may
    only write its own section of the rendering configuration;
    [_setDefaultG2Config] runs first and may prepare any section, and the
    animation options live in the element configurations. *)
Class Variant : Type := {
  _setDefaultG2Config : obj -> Theme.t -> G2Config.t -> G2Config.t;
  _scale : obj -> Theme.t -> value -> value;
  _axis : obj -> Theme.t -> value -> value;
  _coord : obj -> Theme.t -> value -> value;
  _annotation : obj -> Theme.t -> value -> value;
  _addElements : obj -> Theme.t -> list value -> list value;
  _animation : obj -> Theme.t -> list value -> list value;
  _interactions : obj -> Theme.t -> value -> value
}.

(** ** The methods of [BasePlot] *)

(** Reading a number out of a theme block or a padding array. *)
Definition num_prop (m : obj) (k : string) : result Q :=
  match m !! k with
  | Some (VNum q) => Ok q
  | _ => Err (IllTyped k)
  end.

Definition padding_at (padding : option value) (i : nat) : result Q :=
  match padding with
  | None | Some VNull => Err (TypeError "Cannot read property of undefined")
  | Some (VArr l) =>
      match l !! i with
      | Some (VNum q) => Ok q
      | _ => Err (IllTyped "padding")
      end
  | Some _ => Err (IllTyped "padding")
  end.

Definition padding_tuple (p : Q * Q * Q * Q) : value :=
  let '(t, r, b, l) := p in VArr [VNum t; VNum r; VNum b; VNum l].

(** [props.padding ? props.padding : this._config.theme.padding] *)
Definition effective_padding (props : obj) (th : Theme.t) : option value :=
  if truthy (props !! "padding") then props !! "padding" else Theme.padding th.

(** [_getPadding()] *)
Definition _getPadding (s : BasePlot) : option value :=
  let props := _initialProps s in
  let padding := effective_padding props (theme s) in
  if is_str "auto" padding then Some (padding_tuple (0, 0, 0, 0)%Q) else padding.

(** [_getPanelRange()] *)
Definition _getPanelRange (s : BasePlot) : result BBox.t :=
  let padding := _getPadding s in
  let width := CanvasController.width (canvasController s) in
  let height := CanvasController.height (canvasController s) in
  top ← padding_at padding 0;
  right ← padding_at padding 1;
  bottom ← padding_at padding 2;
  left ← padding_at padding 3;
  Ok (BBox.new left top (width - left - right)%Q (height - top - bottom)%Q).

(** The callback of [_.each(boxes, ...)] in [_getViewMargin]. *)
Definition union_box (acc : Margin.t) (box : BBox.t) : Margin.t :=
  {| Margin.minX := num_min (BBox.minX box) (Margin.minX acc);
     Margin.maxX := num_max (BBox.maxX box) (Margin.maxX acc);
     Margin.minY := num_min (BBox.minY box) (Margin.minY acc);
     Margin.maxY := num_max (BBox.maxY box) (Margin.maxY acc) |}.

(** [_getViewMargin()], given what it reads from the instance: the boxes of
    the title and of the description where they exist,
    [theme.description.bottom_margin] and the height of the canvas. *)
Definition _getViewMargin (titleBox descriptionBox : option BBox.t)
    (bottom_margin canvasHeight : Q) : Margin.t :=
  let boxes := option_list titleBox ++ option_list descriptionBox in
  match boxes with
  | [] => Margin.zero
  | _ =>
      let bbox := foldl union_box
                    {| Margin.minX := PosInf; Margin.maxX := NegInf;
                       Margin.minY := PosInf; Margin.maxY := NegInf |} boxes in
      let bbox := match descriptionBox with
                  | Some _ => Margin.set_maxY (num_add (Margin.maxY bbox) bottom_margin) bbox
                  | None => bbox
                  end in
      if num_geb (Margin.maxY bbox) canvasHeight
      then Margin.set_maxY (Fin (canvasHeight - clamp_epsilon)%Q) bbox
      else bbox
  end.

(** [_setConfig(key, config)] *)
Definition _setConfig (key : G2Config.key) (config : value) (c : G2Config.t)
    : result G2Config.t :=
  match key with
  | G2Config.Kelement => Ok (G2Config.set_elements (G2Config.elements c ++ [config]) c)
  | _ =>
      if is_false (Some config) then Ok (G2Config.set_section key (VBool false) c)
      else
        v ← assign (G2Config.section key c)
                   (match config with VObj m => m | _ => ∅ end);
        Ok (G2Config.set_section key v c)
  end.

Section Methods.
Context {collaborators : Collaborators} {variant : Variant}.

(** [_title(panelRange)].  [_.mix(a, b)] on the two [alignWithAxis] flags
    returns its first argument, a flag having no own properties to copy;
    [_.mix(theme.title, props.title.style)] writes into [theme.title]. *)
Definition _title (panelRange : BBox.t) (s : BasePlot) : result BasePlot :=
  let props := _initialProps s in
  let s := set_title None s in
  if truthy (props !! "title") then
    let th := theme s in
    let alignWithAxis := field (props !! "title") "alignWithAxis" in
    top_margin ← num_prop (Theme.title th) "top_margin";
    let style := mix_opt (Theme.title th) (field (props !! "title") "style") in
    let title :=
      {| TextDescription.leftMargin := BBox.minX panelRange;
         TextDescription.topMargin := top_margin;
         TextDescription.text := field (props !! "title") "text";
         TextDescription.style := style;
         TextDescription.wrapperWidth := BBox.width panelRange;
         TextDescription.alignWithAxis := alignWithAxis;
         TextDescription.destroyed := false |} in
    Ok (set_title (Some title) (set_theme (Theme.set_title style th) s))
  else Ok s.

(** [_description(panelRange)]: [props.title.alignWithAxis] is read whether
    or not a title was configured. *)
Definition _description (panelRange : BBox.t) (s : BasePlot) : result BasePlot :=
  let props := _initialProps s in
  let s := set_description None s in
  if truthy (props !! "description") then
    let topMargin :=
      match title s with
      | Some t => let titleBBox := getBBox t in
                  (BBox.minY titleBBox + BBox.height titleBBox)%Q
      | None => 0%Q
      end in
    let th := theme s in
    alignWithAxis ← member (props !! "title") "alignWithAxis";
    top_margin ← num_prop (Theme.description th) "top_margin";
    let style := mix_opt (Theme.description th) (field (props !! "description") "style") in
    let description :=
      {| TextDescription.leftMargin := BBox.minX panelRange;
         TextDescription.topMargin := (topMargin + top_margin)%Q;
         TextDescription.text := field (props !! "description") "text";
         TextDescription.style := style;
         TextDescription.wrapperWidth := BBox.width panelRange;
         TextDescription.alignWithAxis := alignWithAxis;
         TextDescription.destroyed := false |} in
    Ok (set_description (Some description)
          (set_theme (Theme.set_description style th) s))
  else Ok s.

(** The call [this._getViewMargin()] on the instance. *)
Definition viewMargin_of (s : BasePlot) : result Margin.t :=
  bottom_margin ← match description s with
                  | Some _ => num_prop (Theme.description (theme s)) "bottom_margin"
                  | None => Ok 0%Q
                  end;
  Ok (_getViewMargin (getBBox <$> title s) (getBBox <$> description s)
        bottom_margin (CanvasController.height (canvasController s))).

(** [_tooltip()] *)
Definition _tooltip (s : BasePlot) : result BasePlot :=
  let props := _initialProps s in
  if truthy (props !! "tooltip") && is_false (field (props !! "tooltip") "visible")
  then
    c ← _setConfig G2Config.Ktooltip (VBool false) (_config s);
    Ok (set_config c s)
  else
    c ← _setConfig G2Config.Ktooltip
          (VObj (obj1 "crosshairs" (get (Some (VObj props)) "tooltip.crosshairs")))
          (_config s);
    c ← _setConfig G2Config.Ktooltip
          (VObj (obj1 "shared" (get (Some (VObj props)) "tooltip.shared"))) c;
    let s := set_config c s in
    if truthy (props !! "tooltip") && truthy (field (props !! "tooltip") "style")
    then
      let th := theme s in
      Ok (set_theme
            (Theme.set_tooltip
               (deepMix_opt (Theme.tooltip th) (field (props !! "tooltip") "style"))
               th) s)
    else Ok s.

(** [_legend()] *)
Definition _legend (s : BasePlot) : result BasePlot :=
  let props := _initialProps s in
  if truthy (props !! "legend") && is_false (field (props !! "legend") "visible")
  then
    c ← _setConfig G2Config.Klegends (VBool false) (_config s);
    Ok (set_config c s)
  else
    c ← _setConfig G2Config.Klegends
          (VObj (obj1 "position" (get (Some (VObj props)) "legend.position")))
          (_config s);
    c ← _setConfig G2Config.Klegends
          (VObj (obj1 "formatter" (get (Some (VObj props)) "legend.formatter"))) c;
    c ← _setConfig G2Config.Klegends
          (VObj (obj1 "offsetX" (get (Some (VObj props)) "legend.offsetX"))) c;
    c ← _setConfig G2Config.Klegends
          (VObj (obj1 "offsetY" (get (Some (VObj props)) "legend.offsetY"))) c;
    let flipOption := get (Some (VObj props)) "legend.flipPage" in
    c ← _setConfig G2Config.Klegends (VObj (obj1 "flipPage" flipOption)) c;
    Ok (set_config c s).

(** The callback of [_.mapValues(this._config.scales, ...)] in [_init]. *)
Definition with_meta (props : obj) (scaleConfig : value) (field : string) : value :=
  let meta := get (props !! "meta") field in
  if truthy meta
  then VObj (mix_opt (mix_opt ∅ (Some scaleConfig)) meta)
  else scaleConfig.

(** [const scales = _.mapValues(this._config.scales, ...)] *)
Definition scales_with_meta (props : obj) (scales : value) : obj :=
  match scales with
  | VObj m => mapValues (with_meta props) m
  | _ => ∅
  end.

(** [eventmap[e.name] || k] *)
Definition event_name (k : string) (e : Fn) : string :=
  match EVENT_MAP !! fn_name e with
  | Some n => if String.eqb n "" then k else n
  | None => k
  end.

(** Modelled from the spec: [onEvent(plot, eventName, handler)] of
    [util/event] registers the handler against the drawable view and records
    the pair [(eventName, handler)] for later unbinding. *)
Definition onEvent (eventName : string) (handler : Fn) (s : BasePlot)
    : result BasePlot :=
  match plot s with
  | None => Err (TypeError "Cannot read property 'on' of undefined")
  | Some v =>
      Ok (set_eventHandlers
            (eventHandlers s ++ [{| type := eventName; handler := handler |}])
            (set_plot (Some (View.on eventName handler v)) s))
  end.

(** [_.each(events, (e, k) => ...)] of [_events] *)
Fixpoint each_event (events : list (string * value)) (s : BasePlot)
    : result BasePlot :=
  match events with
  | [] => Ok s
  | (k, VFun e) :: rest =>
      s ← onEvent (event_name k e) e s;
      each_event rest s
  | _ :: rest => each_event rest s
  end.

(** [_events()] *)
Definition _events (s : BasePlot) : result BasePlot :=
  let props := _initialProps s in
  match props !! "events" with
  | Some (VObj events) => each_event (map_to_list events) s
  | _ => Ok s
  end.

(** The object literal assigned to [this._config] at the start of [_init]
    (without its [theme] reference, see [G2Config]). *)
Definition initial_config (th : Theme.t) : G2Config.t :=
  {| G2Config.scales := VObj ∅;
     G2Config.legends := VObj (obj1 "position" (Theme.defaultLegendPosition th));
     G2Config.tooltip :=
       VObj (<["showTitle" := VBool true]>
             (<["triggerOn" := VStr "mousemove"]>
              (<["inPanel" := VBool true]>
               (<["useHtml" := VBool true]> ∅))));
     G2Config.axes := VObj (<["fields" := VObj ∅]> ∅);
     G2Config.coord := VObj (<["type" := VStr "cartesian"]> ∅);
     G2Config.elements := [];
     G2Config.annotations := VArr [];
     G2Config.interactions := VObj ∅;
     G2Config.panelRange := None |}.

(** [this.plot], which is [undefined] before the first [_init]. *)
Definition the_plot (s : BasePlot) : result View.t :=
  match plot s with
  | Some v => Ok v
  | None => Err (TypeError "Cannot read property of undefined")
  end.

(** [_init(container, canvasController)] is given in three parts, in the
    order of the source.  First part, up to [const viewMargin =
    this._getViewMargin()]: the fresh [_config], the background colour, the
    panel range, the title and the description, and the view margin. *)
Definition _init_layout (s : BasePlot) : result (BasePlot * Margin.t) :=
  let th := theme s in
  let s := set_config (initial_config th) s in
  let s :=
    if truthy (Theme.backgroundStyle th)
       && truthy (field (Theme.backgroundStyle th) "fill")
    then set_canvasController
           (CanvasController.set_backgroundColor
              (field (Theme.backgroundStyle th) "fill") (canvasController s)) s
    else s in
  range ← _getPanelRange s;
  let s := set_config (G2Config.set_panelRange range (_config s)) s in
  s ← _title range s;
  s ← _description range s;
  viewMargin ← viewMargin_of s;
  Ok (s, viewMargin).

(** Second part, from [this._setDefaultG2Config()] to
    [this._setConfig('scales', scales)]: the sections of the rendering
    configuration. *)
Definition _init_sections (s : BasePlot) : result BasePlot :=
  let props := _initialProps s in
  let c := _setDefaultG2Config props (theme s) (_config s) in
  let c := G2Config.set_section G2Config.Kcoord
             (_coord props (theme s) (G2Config.coord c)) c in
  let c := G2Config.set_section G2Config.Kscales
             (_scale props (theme s) (G2Config.scales c)) c in
  let c := G2Config.set_section G2Config.Kaxes
             (_axis props (theme s) (G2Config.axes c)) c in
  s ← _tooltip (set_config c s);
  s ← _legend s;
  let c := _config s in
  let c := G2Config.set_elements
             (_addElements props (theme s) (G2Config.elements c)) c in
  let c := G2Config.set_section G2Config.Kannotations
             (_annotation props (theme s) (G2Config.annotations c)) c in
  let c := G2Config.set_elements
             (_animation props (theme s) (G2Config.elements c)) c in
  let scales := scales_with_meta props (G2Config.scales c) in
  c ← _setConfig G2Config.Kscales (VObj scales) c;
  Ok (set_config c s).

(** Third part: [this.plot = new G2.View({ ... })], [this._interactions()]
    and [this._events()]. *)
Definition _init_view (viewMargin : Margin.t) (s : BasePlot) : result BasePlot :=
  let props := _initialProps s in
  let view :=
    {| View.width := CanvasController.width (canvasController s);
       View.height := CanvasController.height (canvasController s);
       View.padding := _getPadding s;
       View.data := props !! "data";
       View.theme := theme s;
       View.options := _config s;
       View.start_y := Margin.maxY viewMargin;
       View.listeners := [];
       View.renders := [];
       View.destroyed := false |} in
  let s := set_plot (Some view) s in
  let s := set_config
             (G2Config.set_section G2Config.Kinteractions
                (_interactions props (theme s) (G2Config.interactions (_config s)))
                (_config s)) s in
  _events s.

Definition _init (s : BasePlot) : result BasePlot :=
  '(s, viewMargin) ← _init_layout s;
  s ← _init_sections s;
  _init_view viewMargin s.

(** [_beforeInit() { }] *)
Definition _beforeInit (s : BasePlot) : BasePlot := s.

(** [_afterInit()]; [updateConfig] is the method it calls back. *)
Definition _afterInit (updateConfig : obj -> BasePlot -> result BasePlot)
    (s : BasePlot) : result BasePlot :=
  let props := _initialProps s in
  let padding := effective_padding props (theme s) in
  if is_str "auto" padding then
    v ← the_plot s;
    let v := View.render (Some false) v in
    let s := set_plot (Some v) s in
    let padding := getAutoPadding v (paddingComponents s)
                     (Theme.defaultPadding (theme s)) in
    updateConfig (<["padding" := padding_tuple padding]> ∅) s
  else Ok s.

(** [_.each(this.eventHandlers, (handler) => this.plot.off(handler.type,
    handler.handler))] *)
Definition unbind (s : BasePlot) : result BasePlot :=
  match eventHandlers s with
  | [] => Ok s
  | handlers =>
      v ← the_plot s;
      Ok (set_plot
            (Some (foldl (fun v h => View.off (type h) (handler h) v) v handlers))
            s)
  end.

(** The first lines of [updateConfig(cfg)]: an update that leaves [padding]
    out (or falsy) gets ['auto'] when the original configuration asked for
    it; the update is then merged into a copy of the working
    configuration. *)
Definition newProps (cfg : obj) (s : BasePlot) : obj :=
  let cfg :=
    if negb (truthy (cfg !! "padding"))
       && truthy (_originalProps s !! "padding")
       && is_str "auto" (_originalProps s !! "padding")
    then <["padding" := VStr "auto"]> cfg
    else cfg in
  deepMix3 (_initialProps s) cfg.

(** The body of [updateConfig(cfg)] up to and including
    [this._init(...)]: the old epoch is retired and the new one built. *)
Definition rebuild (cfg : obj) (s : BasePlot) : result BasePlot :=
  let newProps := newProps cfg s in
  s ← unbind s;
  v ← the_plot s;
  let v := View.destroy v in
  let s := set_retired (v :: retired s) (set_plot (Some v) s) in
  let s := set_title (TextDescription.destory <$> title s) s in
  let s := set_description (TextDescription.destory <$> description s) s in
  let s := set_initialProps newProps s in
  let s := set_canvasController
             (CanvasController.set_size (canvasSize newProps)
                (canvasController s)) s in
  let s := _beforeInit s in
  _init s.

(** [updateConfig(cfg)].  [fuel] bounds the nesting of [updateConfig] inside
    [_afterInit] inside [updateConfig]. *)
Fixpoint updateConfig (fuel : nat) (cfg : obj) (s : BasePlot) : result BasePlot :=
  match fuel with
  | O => Err OutOfFuel
  | S fuel =>
      s ← rebuild cfg s;
      _afterInit (updateConfig fuel) s
  end.

(** The instance on which the constructor starts the main flow.  [th] is
    the theme that the theme controller resolves; the canvas controller
    provisions an attached canvas of the size it resolves for [config].
    [_config] is [undefined] until [_init] assigns it, which is the first
    thing [_init] does. *)
Definition pristine (th : Theme.t) (config : obj) : BasePlot :=
  {| destroyed := false;
     _initialProps := config;
     _originalProps := deepMix ∅ config;
     _config := initial_config th;
     eventHandlers := [];
     paddingComponents := [];
     title := None;
     description := None;
     plot := None;
     canvasController :=
       {| CanvasController.width := (canvasSize config).1;
          CanvasController.height := (canvasSize config).2;
          CanvasController.backgroundColor := None;
          CanvasController.attached := true;
          CanvasController.destroyed := false |};
     theme := th;
     retired := [] |}.

(** The constructor. *)
Definition construct (fuel : nat) (th : Theme.t) (config : obj) : result BasePlot :=
  let s := pristine th config in
  let s := _beforeInit s in
  s ← _init s;
  _afterInit (updateConfig fuel) s.

(** [resgiterPadding(components)] *)
Definition resgiterPadding (component : value) (s : BasePlot) : BasePlot :=
  set_paddingComponents (paddingComponents s ++ [component]) s.

(** [changeData(data)] *)
Definition changeData (data : value) (s : BasePlot) : result BasePlot :=
  v ← the_plot s;
  Ok (set_plot (Some (View.changeData (Some data) v)) s).

(** [render()] *)
Definition render (s : BasePlot) : result BasePlot :=
  let data := _initialProps s !! "data" in
  if negb (isEmpty data) then
    v ← the_plot s;
    Ok (set_plot (Some (View.render None v)) s)
  else Ok s.

(** [repaint()] *)
Definition repaint (s : BasePlot) : result BasePlot :=
  v ← the_plot s;
  Ok s.

(** [destroy()] *)
Definition destroy (s : BasePlot) : result BasePlot :=
  let s := set_canvasController (CanvasController.destory (canvasController s)) s in
  s ← unbind s;
  let s := set_title (TextDescription.destory <$> title s) s in
  let s := set_description (TextDescription.destory <$> description s) s in
  canvas ← CanvasController.removeFromParent (canvasController s);
  let s := set_canvasController canvas s in
  v ← the_plot s;
  let s := set_plot (Some (View.destroy v)) s in
  Ok (set_destroyed true s).

End Methods.


(** The value of [padding] in the working configuration. *)
Definition final_padding (s : BasePlot) : option value :=
  _initialProps s !! "padding".

(** A working configuration without style overrides for the title, the
    description and the tooltip: the three places where [_init] writes into
    the theme. *)
Definition unstyled (props : obj) : Prop :=
  field (props !! "title") "style" = None /\
  field (props !! "description") "style" = None /\
  field (props !! "tooltip") "style" = None.

(** ** Reachable instances *)

Section Reachability.
Context {collaborators : Collaborators} {variant : Variant}.

(** The instances that the public operations produce. *)
Inductive reachable : BasePlot -> Prop :=
| reachable_construct fuel th config s :
    construct fuel th config = Ok s -> reachable s
| reachable_updateConfig fuel cfg s s' :
    reachable s -> updateConfig fuel cfg s = Ok s' -> reachable s'
| reachable_render s s' :
    reachable s -> render s = Ok s' -> reachable s'
| reachable_changeData data s s' :
    reachable s -> changeData data s = Ok s' -> reachable s'
| reachable_repaint s s' :
    reachable s -> repaint s = Ok s' -> reachable s'
| reachable_resgiterPadding component s :
    reachable s -> reachable (resgiterPadding component s)
| reachable_destroy s s' :
    reachable s -> destroy s = Ok s' -> reachable s'.

End Reachability.

(** ** Invariants of the event bindings *)

(** Every listener of the live view has its own record in [eventHandlers]. *)
Definition bindings_recorded (s : BasePlot) : Prop :=
  forall v, plot s = Some v -> View.listeners v ⊆+ binding <$> eventHandlers s.

(** No view that was retired kept a listener. *)
Definition retired_unbound (s : BasePlot) : Prop :=
  Forall (fun v => View.listeners v = []) (retired s).

(** The bindings that [_events] creates for a working configuration. *)
Section Bindings.
Context {collaborators : Collaborators}.

Fixpoint bindings_of (events : list (string * value)) : list (string * Fn) :=
  match events with
  | [] => []
  | (k, VFun e) :: rest => (event_name k e, e) :: bindings_of rest
  | _ :: rest => bindings_of rest
  end.

Definition epoch_bindings (props : obj) : list (string * Fn) :=
  match props !! "events" with
  | Some (VObj events) => bindings_of (map_to_list events)
  | _ => []
  end.

End Bindings.

(** ** The bottom edge of the chrome, in the words of the specification *)


(** ** Example instances *)

(** The instance a construction returns. *)
Definition instance_of (r : result BasePlot) (otherwise : BasePlot) : BasePlot :=
  match r with Ok s => s | Err _ => otherwise end.

Module Demo.

Definition theme : Theme.t :=
  {| Theme.defaultLegendPosition := Some (VStr "bottom-center");
     Theme.backgroundStyle := Some (VObj (<["fill" := VStr "white"]> ∅));
     Theme.title :=
       <["top_margin" := VNum 10]> (<["alignWithAxis" := VBool false]> ∅);
     Theme.description :=
       <["top_margin" := VNum 4]> (<["bottom_margin" := VNum 8]> ∅);
     Theme.tooltip := ∅;
     Theme.padding := Some (VStr "auto");
     Theme.defaultPadding := Some (padding_tuple (20, 20, 48, 48)%Q) |}.

(** A measurement that reserves room on the left for a legend placed there,
    a text block twenty pixels high, and a canvas of 400 by 300 pixels. *)
#[export] Instance collaborators : Collaborators :=
  {| EVENT_MAP := <["onPlotClick" := "click"]> ∅;
     getAutoPadding v components defaultPadding :=
       if is_str "left-center"
            (field (Some (G2Config.legends (View.options v))) "position")
       then (20, 20, 48, 120)%Q
       else (20, 20, 48, 48)%Q;
     getBBox d :=
       BBox.new (TextDescription.leftMargin d) (TextDescription.topMargin d)
         (TextDescription.wrapperWidth d) 20;
     canvasSize _ := (400, 300)%Q |}.

(** A variant whose extension points contribute nothing. *)
#[export] Instance plain : Variant :=
  {| _setDefaultG2Config _ _ c := c;
     _scale _ _ v := v;
     _axis _ _ v := v;
     _coord _ _ v := v;
     _annotation _ _ v := v;
     _addElements _ _ l := l;
     _animation _ _ l := l;
     _interactions _ _ v := v |}.

Definition data : value := VArr [VObj (<["x" := VNum 1]> (<["y" := VNum 2]> ∅))].

Definition onPlotClick : Fn := {| fn_name := "onPlotClick"; fn_id := 1 |}.
Definition onHover : Fn := {| fn_name := "hover"; fn_id := 2 |}.

Definition events : value :=
  VObj (<["onPlotClick" := VFun onPlotClick]>
        (<["mouseenter" := VFun onHover]> (<["label" := VStr "x"]> ∅))).

(** [{ data, padding: 'auto', events }] *)
Definition auto_config : obj :=
  <["data" := data]> (<["padding" := VStr "auto"]> (<["events" := events]> ∅)).

(** [{ data, padding: [10, 10, 10, 10], title: { text: 'T' } }] *)
Definition fixed_config : obj :=
  <["data" := data]>
  (<["padding" := padding_tuple (10, 10, 10, 10)%Q]>
   (<["title" := VObj (<["text" := VStr "T"]> ∅)]> ∅)).

(** [{ data }]: the padding is left to the theme. *)
Definition bare_config : obj := <["data" := data]> ∅.

(** [{ data: [] }] with a concrete padding. *)
Definition empty_config : obj :=
  <["data" := VArr []]> (<["padding" := padding_tuple (10, 10, 10, 10)%Q]> ∅).

(** [{ legend: { position: 'left-center' } }] *)
Definition legend_left : obj :=
  <["legend" := VObj (<["position" := VStr "left-center"]> ∅)]> ∅.

(** [{ data, description: { text: 'D' } }] with a concrete padding and no
    title. *)
Definition description_only : obj :=
  <["data" := data]>
  (<["padding" := padding_tuple (10, 10, 10, 10)%Q]>
   (<["description" := VObj (<["text" := VStr "D"]> ∅)]> ∅)).

(** [{ data, tooltip: { visible: false, style: { opacity: 1 } } }] *)
Definition tooltip_section : obj :=
  <["visible" := VBool false]> (<["style" := VObj (<["opacity" := VNum 1]> ∅)]> ∅).
Definition tooltip_off : obj :=
  <["data" := data]>
  (<["padding" := padding_tuple (10, 10, 10, 10)%Q]>
   (<["tooltip" := VObj tooltip_section]> ∅)).

(** [{ padding: [10, 10, 10, 10], tooltip: { style: { opacity: 1 } } }] and
    the update [{ tooltip: { visible: false } }]. *)
Definition styled_tooltip : obj :=
  <["padding" := padding_tuple (10, 10, 10, 10)%Q]>
  (<["tooltip" := VObj (<["style" := VObj (<["opacity" := VNum 1]> ∅)]> ∅)]> ∅).
Definition hide_tooltip : obj :=
  <["tooltip" := VObj (<["visible" := VBool false]> ∅)]> ∅.

(** Scales and metadata for the field [sepal.length] of the iris data. *)
Definition sepal_scale : value := VObj (<["type" := VStr "linear"]> ∅).
Definition sepal_meta : value := VObj (<["alias" := VStr "Sepal length"]> ∅).
Definition iris_scales : obj := <["sepal.length" := sepal_scale]> ∅.
Definition iris_props : obj :=
  <["meta" := VObj (<["sepal.length" := sepal_meta]> ∅)]> ∅.

Definition iris_config : obj :=
  <["padding" := padding_tuple (10, 10, 10, 10)%Q]> iris_props.

(** A variant whose [_scale] contributes the scale of [sepal.length]. *)
Definition iris_variant : Variant :=
  {| _setDefaultG2Config _ _ c := c;
     _scale _ _ _ := VObj iris_scales;
     _axis _ _ v := v;
     _coord _ _ v := v;
     _annotation _ _ v := v;
     _addElements _ _ l := l;
     _animation _ _ l := l;
     _interactions _ _ v := v |}.

(** Constructed instances. *)
Definition build (config : obj) : result BasePlot := construct 1 theme config.

Definition auto_instance : BasePlot :=
  instance_of (build auto_config) (pristine theme auto_config).
Definition fixed_instance : BasePlot :=
  instance_of (build fixed_config) (pristine theme fixed_config).
Definition empty_instance : BasePlot :=
  instance_of (build empty_config) (pristine theme empty_config).
Definition tooltip_off_instance : BasePlot :=
  instance_of (build tooltip_off) (pristine theme tooltip_off).

(** Boxes of a title and of a description that reach below a canvas 300
    pixels high. *)
Definition title_box : BBox.t := BBox.new 10 10 380 40.
Definition description_box : BBox.t := BBox.new 10 54 380 260.

End Demo.

(** ** Projections used in the statements *)

(** The fields that no step of [_init] writes. *)
Definition stable (s : BasePlot) :=
  (destroyed s, _initialProps s, _originalProps s, paddingComponents s, retired s).

(** The fields that only the event binder writes. *)
Definition bound (s : BasePlot) := (eventHandlers s, plot s).

(** What [_init] and [_afterInit] read. *)
Definition inputs (s : BasePlot) :=
  (_initialProps s, theme s, CanvasController.width (canvasController s),
   CanvasController.height (canvasController s), paddingComponents s).

(** The assembled state of an epoch before its view exists: working
    configuration, theme, canvas size, assembled configuration and chrome. *)
Definition assembled (s : BasePlot) :=
  (inputs s, _config s, title s, description s).

(** The live epoch: the assembled state and the view. *)
Definition epoch (s : BasePlot) := (assembled s, plot s).

(** The record [{ type, handler }] of a binding. *)
Definition record_of (b : string * Fn) : HandlerRecord :=
  {| type := b.1; handler := b.2 |}.

(** ** Notions used in the further properties *)

(** What [new G2.View({ ... })] in [_init] makes of the instance [s] it is
    called on: the size of the canvas, the configured data, the theme, a
    concrete padding, and a vertical start above the lower edge. *)
Definition epoch_view (s : BasePlot) (v : View.t) : Prop :=
  View.width v = CanvasController.width (canvasController s) /\
  View.height v = CanvasController.height (canvasController s) /\
  View.data v = _initialProps s !! "data" /\
  View.theme v = theme s /\
  View.padding v = _getPadding s /\
  is_str "auto" (View.padding v) = false /\
  ((0 < View.height v)%Q -> num_lt (View.start_y v) (View.height v)).

(** The top-level merge of [_.deepMix({}, props, cfg)] at one key, in the
    words of its three cases: an absent or [undefined] entry keeps what the
    working configuration has, a plain object is merged into the object the
    working configuration has under that key (or into a new one), and any
    other value replaces it. *)
Definition merged_entry (d c : option value) : option value :=
  match c with
  | None => d
  | Some (VObj m) =>
      Some (VObj (deepMix_at 4 (match d with Some (VObj dm) => dm | _ => ∅ end) m))
  | Some v => Some v
  end.

(** The options that [_legend] copies from [props.legend], and those that
    [_tooltip] copies from [props.tooltip]. *)
Definition legend_options : list string :=
  ["position"; "formatter"; "offsetX"; "offsetY"; "flipPage"].
Definition tooltip_options : list string := ["crosshairs"; "shared"].

(** A section [m] after the options [names] of [props[block]] have been
    merged into it one by one: an option that is defined overwrites the
    entry of the section, an [undefined] one leaves it alone. *)
Definition with_options (block : string) (names : list string) (props m : obj)
    (k : string) : option value :=
  if bool_decide (k ∈ names)
  then match get (Some (VObj props)) (block +:+ "." +:+ k) with
       | Some v => Some v
       | None => m !! k
       end
  else m !! k.

Section VariantScales.
Context {variant : Variant}.

(** The scales section as the variant leaves it: what [_scale] makes of the
    section that [_setDefaultG2Config] prepared. *)
Definition variant_scales (s : BasePlot) : value :=
  _scale (_initialProps s) (theme s)
    (G2Config.scales
       (_setDefaultG2Config (_initialProps s) (theme s) (_config s))).

End VariantScales.

(** One theme has at least the entries of another: the same scalar fields,
    and every key of its title, description and tooltip blocks. *)
Definition theme_extends (th th' : Theme.t) : Prop :=
  Theme.defaultLegendPosition th' = Theme.defaultLegendPosition th /\
  Theme.backgroundStyle th' = Theme.backgroundStyle th /\
  Theme.padding th' = Theme.padding th /\
  Theme.defaultPadding th' = Theme.defaultPadding th /\
  (forall k, is_Some (Theme.title th !! k) -> is_Some (Theme.title th' !! k)) /\
  (forall k, is_Some (Theme.description th !! k) ->
             is_Some (Theme.description th' !! k)) /\
  (forall k, is_Some (Theme.tooltip th !! k) -> is_Some (Theme.tooltip th' !! k)).

(** ** Further example instances *)

Module Cases.

(** The update [{ padding: [5, 5, 5, 5] }]. *)
Definition explicit_padding : obj :=
  <["padding" := padding_tuple (5, 5, 5, 5)%Q]> ∅.

(** [{ data, padding: [10, 10, 10, 10], legend: { visible: false } }] *)
Definition legend_hidden : obj := <["visible" := VBool false]> ∅.
Definition legend_off : obj :=
  <["data" := Demo.data]>
  (<["padding" := padding_tuple (10, 10, 10, 10)%Q]>
   (<["legend" := VObj legend_hidden]> ∅)).

(** [{ data, legend: { position: 'left-center' } }] *)
Definition left_legend : obj :=
  <["data" := Demo.data]>
  (<["legend" := VObj (<["position" := VStr "left-center"]> ∅)]> ∅).

(** [{ data, padding: [10, 10, 10, 10], title: { text: 'T' },
       description: { text: 'D' } }] *)
Definition titled : obj :=
  <["data" := Demo.data]>
  (<["padding" := padding_tuple (10, 10, 10, 10)%Q]>
   (<["title" := VObj (<["text" := VStr "T"]> ∅)]>
    (<["description" := VObj (<["text" := VStr "D"]> ∅)]> ∅))).

(** The update [{ title: { style: { fill: 'red' } } }]. *)
Definition red_title : obj :=
  <["title" := VObj (<["style" := VObj (<["fill" := VStr "red"]> ∅)]> ∅)]> ∅.

(** A variant whose [_scale] contributes a scale for the field [petal], and
    a configuration with metadata for that field. *)
Definition petal_scale : obj := <["type" := VStr "linear"]> ∅.
Definition petal_meta : obj := <["alias" := VStr "Petal"]> ∅.
Definition petal_scales : obj := <["petal" := VObj petal_scale]> ∅.
Definition petal_config : obj :=
  <["padding" := padding_tuple (10, 10, 10, 10)%Q]>
  (<["meta" := VObj (<["petal" := VObj petal_meta]> ∅)]> ∅).
Definition petal_variant : Variant :=
  {| _setDefaultG2Config _ _ c := c;
     _scale _ _ _ := VObj petal_scales;
     _axis _ _ v := v;
     _coord _ _ v := v;
     _annotation _ _ v := v;
     _addElements _ _ l := l;
     _animation _ _ l := l;
     _interactions _ _ v := v |}.


(** A view without listeners on a canvas of 400 by 300 pixels. *)
Definition blank_view : View.t :=
  {| View.width := 400; View.height := 300;
     View.padding := Some (padding_tuple (0, 0, 0, 0)%Q);
     View.data := None; View.theme := Demo.theme;
     View.options := initial_config Demo.theme;
     View.start_y := Fin 0; View.listeners := []; View.renders := [];
     View.destroyed := false |}.

(** The instance before the first [_init]. *)
Definition fresh (config : obj) : BasePlot :=
  pristine (collaborators := Demo.collaborators) Demo.theme config.

(** Instances after an operation. *)
Definition update (cfg : obj) (s : BasePlot) : result BasePlot :=
  updateConfig (collaborators := Demo.collaborators) (variant := Demo.plain)
    2 cfg s.

Definition auto_relegend : BasePlot :=
  instance_of (update Demo.legend_left Demo.auto_instance) Demo.auto_instance.
Definition auto_repadded : BasePlot :=
  instance_of (update explicit_padding Demo.auto_instance) Demo.auto_instance.
Definition fixed_relegend : BasePlot :=
  instance_of (update Demo.legend_left Demo.fixed_instance) Demo.fixed_instance.
Definition fixed_restyled : BasePlot :=
  instance_of (update red_title Demo.fixed_instance) Demo.fixed_instance.
Definition fixed_emptied : BasePlot :=
  instance_of (changeData (VArr []) Demo.fixed_instance) Demo.fixed_instance.
Definition empty_filled : BasePlot :=
  instance_of (changeData Demo.data Demo.empty_instance) Demo.empty_instance.
Definition legend_off_instance : BasePlot :=
  instance_of (_init (collaborators := Demo.collaborators)
                 (variant := Demo.plain) (fresh legend_off))
    (fresh legend_off).
Definition petal_sections : BasePlot :=
  instance_of (_init_sections (variant := petal_variant) (fresh petal_config))
    (fresh petal_config).
Definition titled_layout : BasePlot * Margin.t :=
  match _init_layout (collaborators := Demo.collaborators) (fresh titled) with
  | Ok p => p
  | Err _ => (fresh titled, Margin.zero)
  end.

End Cases.

(** * Properties *)

(** ** The outcome monad *)

Lemma bind_Ok {A B} (m : result A) (k : A -> result B) b :
  m ≫= k = Ok b -> exists a, m = Ok a /\ k a = Ok b.
Proof. destruct m; simpl; [eauto|discriminate]. Qed.


Lemma fmap_bind {A B C} (f : B -> C) (m : result A) (k : A -> result B) :
  f <$> (m ≫= k) = m ≫= (fun a => f <$> k a).
Proof. by destruct m. Qed.

(** Two computations that agree under [f], continued by steps that agree
    under [g] on results that agree under [f]. *)
Lemma bind_agree {A B C D} (f : A -> C) (g : B -> D)
    (m1 m2 : result A) (k1 k2 : A -> result B) :
  f <$> m1 = f <$> m2 ->
  (forall a1 a2, f a1 = f a2 -> g <$> k1 a1 = g <$> k2 a2) ->
  g <$> (m1 ≫= k1) = g <$> (m2 ≫= k2).
Proof.
  intros Hm Hk. destruct m1 as [a1|e1], m2 as [a2|e2]; simpl in *;
    try discriminate; [|congruence].
  apply Hk. congruence.
Qed.

Ltac bind_inv H :=
  let a := fresh "x" in
  let Ha := fresh "E" in
  let H' := fresh "K" in
  apply bind_Ok in H; destruct H as (a & Ha & H'); rename H' into H.

Ltac bind_in H a Ha :=
  let H' := fresh "K" in
  apply bind_Ok in H; destruct H as (a & Ha & H'); rename H' into H.

(** ** Facts about the helpers of [@antv/util] *)

Module JSFacts.

Lemma lookup_deepMix_at n (d s : obj) k :
  deepMix_at n d s !! k =
  deepMix_entry (match n with O => None | S n' => Some (deepMix_at n') end)
    (d !! k) (s !! k).
Proof.
  destruct n; simpl; rewrite lookup_merge;
    destruct (d !! k), (s !! k); reflexivity.
Qed.

(** Merging into the empty object copies the source. *)
Lemma deepMix_at_empty_l n (s : obj) : deepMix_at n ∅ s = s.
Proof.
  revert s. induction n as [|n IH]; intros s; apply map_eq; intros k;
    rewrite lookup_deepMix_at, lookup_empty;
    destruct (s !! k) as [[]|]; simpl; try reflexivity.
  by rewrite IH.
Qed.


Lemma deepMix_empty_l (s : obj) : deepMix ∅ s = s.
Proof. apply deepMix_at_empty_l. Qed.

Lemma deepMix3_eq (a b : obj) : deepMix3 a b = deepMix a b.
Proof. unfold deepMix3. by rewrite deepMix_empty_l. Qed.


Lemma lookup_deepMix3 (a b : obj) k :
  deepMix3 a b !! k = deepMix_entry (Some (deepMix_at 4)) (a !! k) (b !! k).
Proof. rewrite deepMix3_eq. unfold deepMix. apply lookup_deepMix_at. Qed.

(** An update that only sets [padding] to a tuple or to ['auto']. *)
Lemma deepMix3_padding (a : obj) (v : value) :
  (forall m, v <> VObj m) ->
  deepMix3 a (<["padding" := v]> ∅) = <["padding" := v]> a.
Proof.
  intros Hv. apply map_eq; intros k. rewrite lookup_deepMix3.
  destruct (decide (k = "padding")) as [->|Hne].
  - rewrite !lookup_insert_eq. destruct v; simpl; try reflexivity.
    by destruct (Hv m).
  - rewrite !lookup_insert_ne, lookup_empty by congruence.
    by destruct (a !! k).
Qed.


(** A field name without a dot is a path of one key. *)
Lemma split_dot_undotted f : undotted f -> split_dot f = [f].
Proof.
  induction f as [|c f IH]; intros Hf; simpl; [reflexivity|].
  destruct (Ascii.eqb_spec c ".") as [->|Hc].
  - exfalso. by apply (Hf "."%char); [left|].
  - rewrite IH; [reflexivity|]. intros c' Hc'. apply Hf. by right.
Qed.

(** [_.get] with a field name without a dot is a plain property read. *)
Lemma get_undotted o f :
  undotted f -> get o f = if truthy o then field o f else None.
Proof.
  intros Hf. unfold get. rewrite split_dot_undotted by done.
  simpl. by destruct (truthy o).
Qed.

(** A property of a shallow merge. *)
Lemma lookup_mix (d s : obj) f :
  f <> "constructor" ->
  mix d s !! f = match s !! f with Some v => Some v | None => d !! f end.
Proof.
  intros Hf. unfold mix, mixable. rewrite lookup_union.
  destruct (s !! f) as [v|] eqn:Hs.
  - assert (Hm : filter (fun kv : string * value => kv.1 <> "constructor") s !! f = Some v)
      by (by apply map_lookup_filter_Some).
    rewrite Hm. by destruct (d !! f).
  - assert (Hm : filter (fun kv : string * value => kv.1 <> "constructor") s !! f = None).
    { apply map_lookup_filter_None. by left. }
    rewrite Hm. by destruct (d !! f).
Qed.

End JSFacts.

(** ** What each step of [_init] leaves alone *)

Section Frames.
Context {collaborators : Collaborators} {variant : Variant}.

Lemma _title_frame r s s' :
  _title r s = Ok s' ->
  stable s' = stable s /\ bound s' = bound s /\ _config s' = _config s /\
  canvasController s' = canvasController s /\
  Theme.tooltip (theme s') = Theme.tooltip (theme s) /\
  Theme.padding (theme s') = Theme.padding (theme s).
Proof.
  unfold _title. intros H1. case_match; [bind_inv H1|]; simplify_eq;
    destruct s; repeat split.
Qed.

Lemma _description_frame r s s' :
  _description r s = Ok s' ->
  stable s' = stable s /\ bound s' = bound s /\ _config s' = _config s /\
  canvasController s' = canvasController s /\
  Theme.tooltip (theme s') = Theme.tooltip (theme s) /\
  Theme.padding (theme s') = Theme.padding (theme s).
Proof.
  unfold _description. intros H1. case_match; [do 2 bind_inv H1|]; simplify_eq;
    destruct s; repeat split.
Qed.

Lemma _setConfig_frame key config c c' :
  _setConfig key config c = Ok c' ->
  (key <> G2Config.Ktooltip -> G2Config.tooltip c' = G2Config.tooltip c) /\
  G2Config.panelRange c' = G2Config.panelRange c.
Proof.
  intros H1. unfold _setConfig in H1.
  destruct key; repeat case_match; try bind_inv H1; simplify_eq; split;
    (reflexivity || congruence).
Qed.

Lemma _tooltip_frame s s' :
  _tooltip s = Ok s' ->
  stable s' = stable s /\ bound s' = bound s /\
  canvasController s' = canvasController s /\
  title s' = title s /\ description s' = description s /\
  Theme.padding (theme s') = Theme.padding (theme s).
Proof.
  unfold _tooltip. intros H1.
  repeat case_match; repeat bind_inv H1; simplify_eq; destruct s; repeat split.
Qed.

Lemma _legend_frame s s' :
  _legend s = Ok s' ->
  stable s' = stable s /\ bound s' = bound s /\
  canvasController s' = canvasController s /\
  title s' = title s /\ description s' = description s /\
  theme s' = theme s /\
  G2Config.tooltip (_config s') = G2Config.tooltip (_config s).
Proof.
  unfold _legend. intros H1.
  repeat case_match; repeat bind_inv H1; simplify_eq;
    repeat match goal with
           | E : _setConfig _ _ _ = Ok _ |- _ =>
               apply _setConfig_frame in E; destruct E as [E _];
               specialize (E ltac:(discriminate))
           end;
    destruct s; simpl in *; repeat split; congruence.
Qed.

Lemma binding_record_of (l : list (string * Fn)) :
  binding <$> (record_of <$> l) = l.
Proof.
  induction l as [|[t h] l IH]; [reflexivity|]. simpl. f_equal. exact IH.
Qed.

(** On an instance with a view the event binder cannot fail: it appends the
    bindings of the declared handlers to the listeners of the view, and
    their records to [eventHandlers]. *)
Lemma each_event_bound l s v :
  plot s = Some v ->
  each_event l s =
  Ok (set_eventHandlers (eventHandlers s ++ (record_of <$> bindings_of l))
        (set_plot (Some (View.set_listeners (View.listeners v ++ bindings_of l) v)) s)).
Proof.
  revert s v. induction l as [|[k e] l IH]; intros s v Hv.
  - simpl. rewrite !app_nil_r. destruct s, v; simpl in *; by subst.
  - destruct e; simpl; try (by apply IH).
    unfold onEvent. rewrite Hv. simpl.
    erewrite IH by reflexivity. f_equal.
    destruct s, v; simpl. by rewrite <- !app_assoc.
Qed.

Lemma _events_bound s v :
  plot s = Some v ->
  _events s =
  Ok (set_eventHandlers
        (eventHandlers s ++ (record_of <$> epoch_bindings (_initialProps s)))
        (set_plot (Some (View.set_listeners
                           (View.listeners v ++ epoch_bindings (_initialProps s)) v)) s)).
Proof.
  intros Hv. unfold _events, epoch_bindings.
  destruct (_initialProps s !! "events") as [[]|];
    try (by apply each_event_bound);
    rewrite !app_nil_r; destruct s, v; simpl in *; by subst.
Qed.

Lemma _init_layout_frame s s' m :
  _init_layout s = Ok (s', m) ->
  stable s' = stable s /\ bound s' = bound s /\
  Theme.tooltip (theme s') = Theme.tooltip (theme s) /\
  Theme.padding (theme s') = Theme.padding (theme s) /\
  (CanvasController.attached (canvasController s') =
     CanvasController.attached (canvasController s)) /\
  (CanvasController.destroyed (canvasController s') =
     CanvasController.destroyed (canvasController s)) /\
  (CanvasController.width (canvasController s') =
     CanvasController.width (canvasController s)) /\
  (CanvasController.height (canvasController s') =
     CanvasController.height (canvasController s)).
Proof.
  unfold _init_layout. intros H1. do 4 bind_inv H1. simplify_eq.
  apply _title_frame in E0 as (S1 & B1 & _ & C1 & T1 & P1).
  apply _description_frame in E1 as (S2 & B2 & _ & C2 & T2 & P2).
  rewrite S2, S1, B2, B1, T2, T1, P2, P1, C2, C1.
  clear. destruct s as [? ? ? ? ? ? ? ? ? [] ? ?]; simpl.
  destruct (truthy _ && truthy _); simpl; repeat split.
Qed.

Lemma _init_sections_frame s s' :
  _init_sections s = Ok s' ->
  stable s' = stable s /\ bound s' = bound s /\
  canvasController s' = canvasController s /\
  title s' = title s /\ description s' = description s /\
  Theme.padding (theme s') = Theme.padding (theme s).
Proof.
  unfold _init_sections. intros H1. do 3 bind_inv H1. simplify_eq.
  apply _tooltip_frame in E as (S1 & B1 & C1 & T1 & D1 & P1).
  apply _legend_frame in E0 as (S2 & B2 & C2 & T2 & D2 & Th2 & _).
  unfold stable, bound in *. destruct x0, x, s; simpl in *. simplify_eq.
  repeat split. assumption.
Qed.

(** What a successful [_init] leaves behind: a fresh view that carries
    exactly the bindings of this epoch, each with its record. *)
Lemma _init_Ok s s' :
  _init s = Ok s' ->
  stable s' = stable s /\
  (eventHandlers s' =
     eventHandlers s ++ (record_of <$> epoch_bindings (_initialProps s))) /\
  (exists v, plot s' = Some v /\
     View.listeners v = epoch_bindings (_initialProps s) /\
     View.destroyed v = false /\ View.renders v = [] /\
     View.padding v = _getPadding s') /\
  (CanvasController.attached (canvasController s') =
     CanvasController.attached (canvasController s)) /\
  (CanvasController.width (canvasController s') =
     CanvasController.width (canvasController s)) /\
  (CanvasController.height (canvasController s') =
     CanvasController.height (canvasController s)) /\
  Theme.padding (theme s') = Theme.padding (theme s).
Proof.
  unfold _init. intros H1. bind_inv H1. destruct x as [s1 m]. bind_inv H1.
  apply _init_layout_frame in E as (S1 & B1 & _ & P1 & A1 & _ & W1 & H1').
  apply _init_sections_frame in E0 as (S2 & B2 & C2 & _ & _ & P2).
  unfold _init_view in H1. erewrite _events_bound in H1 by reflexivity.
  simplify_eq.
  unfold stable, bound in *. destruct x, s1, s; simpl in *. simplify_eq.
  repeat split; try assumption; try congruence. eexists; repeat split.
Qed.

End Frames.

(** ** Unbinding *)

Section Unbinding.

Lemma remove_first_perm (b : string * Fn) l :
  b ∈ l -> l ≡ₚ b :: View.remove_first b l.
Proof.
  induction l as [|y l IH]; intros Hb; [by apply elem_of_nil in Hb|].
  simpl. destruct (decide (b = y)) as [->|Hne]; [reflexivity|].
  apply elem_of_cons in Hb as [?|Hb]; [congruence|].
  rewrite (IH Hb) at 1. apply Permutation_swap.
Qed.

Lemma remove_first_absent (b : string * Fn) l :
  b ∉ l -> View.remove_first b l = l.
Proof.
  induction l as [|y l IH]; intros Hb; [reflexivity|]. simpl.
  apply not_elem_of_cons in Hb as [Hne Hb].
  destruct (decide (b = y)); [congruence|]. by rewrite IH.
Qed.

Lemma remove_first_submseteq (b : string * Fn) l bs :
  l ⊆+ b :: bs -> View.remove_first b l ⊆+ bs.
Proof.
  intros Hl. destruct (decide (b ∈ l)) as [Hin|Hout].
  - rewrite (remove_first_perm b l Hin) in Hl.
    by apply (submseteq_app_inv_l _ _ [b]).
  - rewrite remove_first_absent by done.
    apply submseteq_cons_r in Hl as [Hl|(l' & Hl' & _)]; [done|].
    exfalso. apply Hout. rewrite Hl'. by left.
Qed.

(** Passing every record to [off] empties a listener list all of whose
    entries are recorded. *)
Lemma off_all (hs : list HandlerRecord) l :
  l ⊆+ binding <$> hs ->
  foldl (fun l h => View.remove_first (binding h) l) l hs = [].
Proof.
  revert l. induction hs as [|h hs IH]; intros l Hl; simpl.
  - by apply submseteq_nil_r.
  - apply IH. by apply remove_first_submseteq.
Qed.

Lemma off_all_listeners (hs : list HandlerRecord) v :
  View.listeners (foldl (fun v h => View.off (type h) (handler h) v) v hs) =
  foldl (fun l h => View.remove_first (binding h) l) (View.listeners v) hs.
Proof.
  revert v. induction hs as [|h hs IH]; intros v; [reflexivity|].
  simpl. rewrite IH. reflexivity.
Qed.

Lemma unbind_Ok s s' :
  unbind s = Ok s' ->
  bindings_recorded s ->
  (forall v, plot s' = Some v -> View.listeners v = []) /\
  (plot s = None <-> plot s' = None) /\
  s' = set_plot (plot s') s.
Proof.
  unfold unbind. intros H1 Hrec. destruct (eventHandlers s) as [|h hs] eqn:Hhs.
  - simplify_eq. split; [|split; [done|by destruct s']].
    intros v Hv. specialize (Hrec v Hv). rewrite Hhs in Hrec.
    by apply submseteq_nil_r.
  - unfold the_plot in H1.
    destruct (plot s) as [v0|] eqn:Hv0; simpl in H1; [|discriminate].
    injection H1 as <-.
    split; [|split; [by destruct s|by destruct s]].
    intros v Hv. specialize (Hrec v0 Hv0). rewrite Hhs in Hrec.
    destruct s; simpl in *. simplify_eq.
    pose proof (off_all_listeners (h :: hs) v0) as Hl. simpl in Hl. rewrite Hl.
    by apply (off_all (h :: hs)).
Qed.

End Unbinding.

(** ** Rebuilding an epoch *)

Section Lifecycle.
Context {collaborators : Collaborators} {variant : Variant}.

(** The update that [_afterInit] issues after measuring. *)
Lemma newProps_measured p s :
  newProps (<["padding" := padding_tuple p]> ∅) s =
  <["padding" := padding_tuple p]> (_initialProps s).
Proof.
  unfold newProps. rewrite lookup_insert_eq.
  destruct p as [[[t r] b] l]. simpl.
  apply JSFacts.deepMix3_padding. discriminate.
Qed.

Lemma effective_padding_tuple p (props : obj) th :
  props !! "padding" = Some (padding_tuple p) ->
  effective_padding props th = Some (padding_tuple p).
Proof.
  intros Hp. unfold effective_padding. rewrite Hp.
  by destruct p as [[[t r] b] l].
Qed.

Lemma is_auto_tuple p : is_str "auto" (Some (padding_tuple p)) = false.
Proof. by destruct p as [[[t r] b] l]. Qed.

Lemma afterInit_settled k s :
  is_str "auto" (effective_padding (_initialProps s) (theme s)) = false ->
  _afterInit k s = Ok s.
Proof. intros Hp. unfold _afterInit. by rewrite Hp. Qed.

Lemma afterInit_auto k s :
  is_str "auto" (effective_padding (_initialProps s) (theme s)) = true ->
  _afterInit k s =
  v ← the_plot s;
  k (<["padding" :=
        padding_tuple (getAutoPadding (View.render (Some false) v) (paddingComponents s)
                         (Theme.defaultPadding (theme s)))]> ∅)
    (set_plot (Some (View.render (Some false) v)) s).
Proof.
  intros Hp. unfold _afterInit. rewrite Hp.
  destruct (the_plot s); reflexivity.
Qed.

(** The anatomy of a successful [rebuild]. *)
Lemma rebuild_Ok cfg s s' :
  rebuild cfg s = Ok s' ->
  exists s1 v1,
    unbind s = Ok s1 /\ plot s1 = Some v1 /\
    retired s' = View.destroy v1 :: retired s /\
    _initialProps s' = newProps cfg s /\
    _originalProps s' = _originalProps s /\
    paddingComponents s' = paddingComponents s /\
    destroyed s' = destroyed s /\
    (eventHandlers s' =
       eventHandlers s ++ (record_of <$> epoch_bindings (newProps cfg s))) /\
    (exists v, plot s' = Some v /\
       View.listeners v = epoch_bindings (newProps cfg s) /\
       View.destroyed v = false /\ View.renders v = [] /\
       View.padding v = _getPadding s') /\
    (CanvasController.attached (canvasController s') =
       CanvasController.attached (canvasController s)) /\
    Theme.padding (theme s') = Theme.padding (theme s).
Proof.
  unfold rebuild. intros H1. bind_inv H1. bind_inv H1.
  unfold the_plot in E0. destruct (plot x) as [v1|] eqn:Hv1; simplify_eq.
  apply _init_Ok in H1 as (St & Ev & Hv & At & _ & _ & Pd).
  exists x, x0. split; [done|]. split; [done|].
  assert (Hx : x = set_plot (plot x) s).
  { unfold unbind in E. destruct (eventHandlers s); [by simplify_eq; destruct x|].
    bind_inv E. simplify_eq. by destruct s. }
  unfold stable, _beforeInit in St. simpl in *.
  rewrite Hx in St, Ev, At, Pd. destruct s; simpl in *. simplify_eq.
  repeat split; try done.
Qed.

(** Only the nested call can run out of fuel: no step of an epoch does. *)
Lemma proper_Ok {A} (a : A) : proper (Ok a).
Proof. discriminate. Qed.

Lemma proper_bind {A B} (m : result A) (k : A -> result B) :
  proper m -> (forall a, proper (k a)) -> proper (m ≫= k).
Proof.
  unfold proper. destruct m; simpl; [auto|].
  intros Hm _ He. apply Hm. congruence.
Qed.

Ltac proper_steps :=
  repeat first
    [ apply proper_Ok
    | discriminate
    | assumption
    | apply proper_bind; [|intros]
    | progress (unfold proper)
    | case_match ].

Lemma proper_member v k : proper (member v k).
Proof. unfold member. proper_steps. Qed.

Lemma proper_num_prop m k : proper (num_prop m k).
Proof. unfold num_prop. proper_steps. Qed.

Lemma proper_padding_at p i : proper (padding_at p i).
Proof. unfold padding_at. proper_steps. Qed.

Lemma proper_setConfig key config c : proper (_setConfig key config c).
Proof.
  unfold _setConfig.
  assert (Ha : forall d src, proper (assign d src))
    by (intros; unfold assign; proper_steps).
  destruct key; try apply proper_Ok;
    (destruct (is_false (Some config)); [apply proper_Ok|]);
    (apply proper_bind; [apply Ha|intros; apply proper_Ok]).
Qed.

Lemma proper_getPanelRange s : proper (_getPanelRange s).
Proof.
  unfold _getPanelRange.
  repeat (apply proper_bind; [apply proper_padding_at|intros]).
  apply proper_Ok.
Qed.

Lemma proper_title r s : proper (_title r s).
Proof.
  unfold _title. case_match; [|apply proper_Ok].
  apply proper_bind; [apply proper_num_prop|intros; apply proper_Ok].
Qed.

Lemma proper_description r s : proper (_description r s).
Proof.
  unfold _description. case_match; [|apply proper_Ok].
  apply proper_bind; [apply proper_member|intros].
  apply proper_bind; [apply proper_num_prop|intros; apply proper_Ok].
Qed.

Lemma proper_viewMargin_of s : proper (viewMargin_of s).
Proof.
  unfold viewMargin_of. apply proper_bind; [|intros; apply proper_Ok].
  case_match; [apply proper_num_prop|apply proper_Ok].
Qed.

Lemma proper_tooltip s : proper (_tooltip s).
Proof.
  unfold _tooltip. case_match.
  - apply proper_bind; [apply proper_setConfig|intros; apply proper_Ok].
  - repeat (apply proper_bind; [apply proper_setConfig|intros]).
    case_match; apply proper_Ok.
Qed.

Lemma proper_legend s : proper (_legend s).
Proof.
  unfold _legend. case_match;
    repeat (apply proper_bind; [apply proper_setConfig|intros]);
    apply proper_Ok.
Qed.

Lemma proper_init s : proper (_init s).
Proof.
  unfold _init. apply proper_bind.
  - unfold _init_layout.
    apply proper_bind; [apply proper_getPanelRange|intros].
    apply proper_bind; [apply proper_title|intros].
    apply proper_bind; [apply proper_description|intros].
    apply proper_bind; [apply proper_viewMargin_of|intros; apply proper_Ok].
  - intros [s1 m]. apply proper_bind.
    + unfold _init_sections.
      apply proper_bind; [apply proper_tooltip|intros].
      apply proper_bind; [apply proper_legend|intros].
      apply proper_bind; [apply proper_setConfig|intros; apply proper_Ok].
    + intros s2. unfold _init_view.
      erewrite _events_bound by reflexivity. apply proper_Ok.
Qed.

Lemma proper_rebuild cfg s : proper (rebuild cfg s).
Proof.
  unfold rebuild. apply proper_bind.
  - unfold unbind. case_match; [apply proper_Ok|].
    apply proper_bind; [unfold the_plot; case_match; discriminate|].
    intros; apply proper_Ok.
  - intros s1. apply proper_bind;
      [unfold the_plot; case_match; discriminate|].
    intros; apply proper_init.
Qed.

(** A measured padding settles the layout: the epoch rebuilt with it is
    not measured again, whatever fuel is left. *)
Lemma updateConfig_measured n p s :
  updateConfig (S n) (<["padding" := padding_tuple p]> ∅) s =
  rebuild (<["padding" := padding_tuple p]> ∅) s.
Proof.
  simpl. destruct (rebuild _ s) as [s'|e] eqn:Hr; [|reflexivity]. simpl.
  apply afterInit_settled.
  apply rebuild_Ok in Hr as (s1 & v1 & _ & _ & _ & Hp & _).
  rewrite newProps_measured in Hp.
  erewrite effective_padding_tuple; [apply is_auto_tuple|].
  rewrite Hp. apply lookup_insert_eq.
Qed.

Lemma afterInit_fuel n s :
  _afterInit (updateConfig (S n)) s = _afterInit (updateConfig 1) s.
Proof.
  unfold _afterInit. case_match; [|reflexivity].
  destruct (the_plot s); [|reflexivity]. cbn [mbind result_bind].
  rewrite !updateConfig_measured. reflexivity.
Qed.

Lemma construct_fuel n th config :
  construct (S n) th config = construct 1 th config.
Proof.
  unfold construct. destruct (_init _); [|reflexivity]. apply afterInit_fuel.
Qed.

Lemma updateConfig_fuel n cfg s :
  updateConfig (S (S n)) cfg s = updateConfig 2 cfg s.
Proof.
  simpl. destruct (rebuild cfg s); [|reflexivity]. apply afterInit_fuel.
Qed.

End Lifecycle.

(** ** Instances that agree on what an epoch is built from

    [_init] reads the working configuration, the theme and the canvas size
    and nothing else; two instances that agree on these build the same
    epoch, or fail with the same exception. *)

Section Agreement.
Context {collaborators : Collaborators} {variant : Variant}.

(** Name the fields of two instances and identify those on which they are
    known to agree. *)
Ltac open_instances s1 s2 H :=
  destruct s1 as [? ? ? ? ? ? ? ? ? [] ? ?], s2 as [? ? ? ? ? ? ? ? ? [] ? ?];
  unfold epoch, assembled, inputs in H; simpl in H; simplify_eq.

Lemma _getPanelRange_agree s1 s2 :
  inputs s1 = inputs s2 -> _getPanelRange s1 = _getPanelRange s2.
Proof. intros Hin. open_instances s1 s2 Hin. reflexivity. Qed.

Lemma _title_agree r s1 s2 :
  (inputs s1, _config s1) = (inputs s2, _config s2) ->
  (fun s => (inputs s, _config s, title s)) <$> _title r s1 =
  (fun s => (inputs s, _config s, title s)) <$> _title r s2.
Proof.
  intros Hin. open_instances s1 s2 Hin. unfold _title. simpl.
  destruct (truthy _); [|reflexivity].
  destruct (num_prop _ _); reflexivity.
Qed.

Lemma _description_agree r s1 s2 :
  (inputs s1, _config s1, title s1) = (inputs s2, _config s2, title s2) ->
  assembled <$> _description r s1 = assembled <$> _description r s2.
Proof.
  intros Hin. open_instances s1 s2 Hin. unfold _description. simpl.
  destruct (truthy _); [|reflexivity].
  destruct (member _ _); [|reflexivity]. simpl.
  destruct (num_prop _ _); reflexivity.
Qed.

Lemma viewMargin_of_agree s1 s2 :
  assembled s1 = assembled s2 -> viewMargin_of s1 = viewMargin_of s2.
Proof. intros Hin. open_instances s1 s2 Hin. reflexivity. Qed.

Lemma _init_layout_agree s1 s2 :
  inputs s1 = inputs s2 ->
  (fun sm => (assembled sm.1, sm.2)) <$> _init_layout s1 =
  (fun sm => (assembled sm.1, sm.2)) <$> _init_layout s2.
Proof.
  intros Hin. unfold _init_layout.
  eapply (bind_agree id).
  { f_equal. apply _getPanelRange_agree.
    open_instances s1 s2 Hin. simpl. by destruct (truthy _ && truthy _). }
  intros r r' Hr. unfold id in Hr. subst r'.
  eapply bind_agree.
  { apply _title_agree. open_instances s1 s2 Hin. simpl.
    by destruct (truthy _ && truthy _). }
  intros a1 a2 Ha. eapply bind_agree.
  { apply _description_agree. exact Ha. }
  clear a1 a2 Ha. intros a1 a2 Ha.
  rewrite (viewMargin_of_agree a1 a2 Ha).
  destruct (viewMargin_of a2); simpl; [|reflexivity]. by rewrite Ha.
Qed.

Ltac same_outcome :=
  simpl; unfold mbind, result_bind, fmap, result_fmap; simpl;
  repeat case_match; simplify_eq; try reflexivity.

Lemma _tooltip_agree s1 s2 :
  assembled s1 = assembled s2 ->
  assembled <$> _tooltip s1 = assembled <$> _tooltip s2.
Proof.
  intros Hin. open_instances s1 s2 Hin. unfold _tooltip. same_outcome.
Qed.

Lemma _legend_agree s1 s2 :
  assembled s1 = assembled s2 ->
  assembled <$> _legend s1 = assembled <$> _legend s2.
Proof.
  intros Hin. open_instances s1 s2 Hin. unfold _legend. same_outcome.
Qed.

Lemma _init_sections_agree s1 s2 :
  assembled s1 = assembled s2 ->
  assembled <$> _init_sections s1 = assembled <$> _init_sections s2.
Proof.
  intros Hin. unfold _init_sections.
  eapply bind_agree.
  { apply _tooltip_agree. open_instances s1 s2 Hin. reflexivity. }
  intros a1 a2 Ha. eapply bind_agree; [by apply _legend_agree|].
  clear a1 a2 Ha. intros a1 a2 Ha.
  assert (Hp : _initialProps s1 = _initialProps s2)
    by (open_instances s1 s2 Hin; reflexivity).
  rewrite Hp. open_instances a1 a2 Ha. same_outcome.
Qed.

Lemma _init_view_agree m s1 s2 :
  assembled s1 = assembled s2 ->
  epoch <$> _init_view m s1 = epoch <$> _init_view m s2.
Proof.
  intros Hin. unfold _init_view.
  erewrite !_events_bound by reflexivity.
  open_instances s1 s2 Hin. reflexivity.
Qed.

Lemma _init_agree s1 s2 :
  inputs s1 = inputs s2 -> epoch <$> _init s1 = epoch <$> _init s2.
Proof.
  intros Hin. unfold _init.
  eapply bind_agree; [by apply _init_layout_agree|].
  intros [a1 m1] [a2 m2] Ha. simpl in Ha.
  assert (Ha' : assembled a1 = assembled a2) by congruence.
  assert (m1 = m2) as -> by congruence.
  eapply bind_agree; [by apply _init_sections_agree|].
  intros b1 b2 Hb. by apply _init_view_agree.
Qed.


Lemma unbind_total s v :
  plot s = Some v -> exists v', unbind s = Ok (set_plot (Some v') s).
Proof.
  intros Hv. unfold unbind, the_plot. rewrite Hv.
  destruct (eventHandlers s) eqn:Hh; [|eauto].
  exists v. destruct s; simpl in *; by subst.
Qed.

Lemma unbind_no_plot s :
  plot s = None ->
  unbind s ≫= the_plot = Err (TypeError "Cannot read property of undefined").
Proof.
  intros Hv. unfold unbind, the_plot. rewrite Hv.
  destruct (eventHandlers s); simpl; by rewrite ?Hv.
Qed.

Lemma rebuild_agree cfg s1 s2 :
  inputs s1 = inputs s2 ->
  (plot s1 = None <-> plot s2 = None) ->
  newProps cfg s1 = newProps cfg s2 ->
  epoch <$> rebuild cfg s1 = epoch <$> rebuild cfg s2.
Proof.
  intros Hin Hp Hn. unfold rebuild. rewrite Hn.
  destruct (plot s1) as [v1|] eqn:Hv1.
  - destruct (plot s2) as [v2|] eqn:Hv2; [|by destruct Hp as [_ Hp]; discriminate Hp].
    destruct (unbind_total s1 v1 Hv1) as [v1' ->].
    destruct (unbind_total s2 v2 Hv2) as [v2' ->].
    simpl. apply _init_agree.
    open_instances s1 s2 Hin. reflexivity.
  - assert (Hv2 : plot s2 = None) by by apply Hp.
    pose proof (unbind_no_plot s1 Hv1) as E1.
    pose proof (unbind_no_plot s2 Hv2) as E2.
    destruct (unbind s1) as [x1|]; destruct (unbind s2) as [x2|];
      simpl in *; try rewrite E1; try rewrite E2; simpl; congruence.
Qed.

Lemma afterInit_agree n s1 s2 :
  epoch s1 = epoch s2 ->
  epoch <$> _afterInit (updateConfig n) s1 =
  epoch <$> _afterInit (updateConfig n) s2.
Proof.
  intros He. open_instances s1 s2 He. unfold _afterInit, the_plot. simpl.
  destruct (is_str _ _); [|reflexivity].
  match goal with |- context [match ?p with Some _ => _ | None => _ end] =>
    destruct p as [v|] end; [|reflexivity].
  simpl. destruct n as [|n]; [reflexivity|].
  rewrite !updateConfig_measured. apply rebuild_agree; [reflexivity|done|].
  rewrite !newProps_measured. reflexivity.
Qed.

Lemma updateConfig_agree n cfg s1 s2 :
  inputs s1 = inputs s2 ->
  (plot s1 = None <-> plot s2 = None) ->
  newProps cfg s1 = newProps cfg s2 ->
  epoch <$> updateConfig n cfg s1 = epoch <$> updateConfig n cfg s2.
Proof.
  intros Hin Hp Hn. destruct n as [|n]; [reflexivity|]. simpl.
  eapply bind_agree; [by apply rebuild_agree|].
  intros a1 a2 Ha. by apply afterInit_agree.
Qed.


End Agreement.

(** ** The bindings of an epoch *)

Section Invariants.
Context {collaborators : Collaborators} {variant : Variant}.

Lemma rebuild_invariants cfg s s' :
  rebuild cfg s = Ok s' ->
  bindings_recorded s -> retired_unbound s ->
  bindings_recorded s' /\ retired_unbound s' /\
  exists v, plot s' = Some v /\ View.listeners v = epoch_bindings (_initialProps s').
Proof.
  intros Hr Hrec Hret.
  apply rebuild_Ok in Hr
    as (s1 & v1 & Hu & Hv1 & Hret' & Hp & _ & _ & _ & Hev & (v & Hv & Hl & _) & _).
  apply unbind_Ok in Hu as (Hoff & _); [|done].
  split; [|split].
  - intros v' Hv'. rewrite Hv in Hv'. injection Hv' as <-.
    rewrite Hl, Hev, fmap_app, binding_record_of.
    apply submseteq_inserts_l. done.
  - unfold retired_unbound. rewrite Hret'. constructor; [|done].
    simpl. by apply Hoff.
  - exists v. by rewrite Hp.
Qed.

Lemma render_invariants b s v :
  plot s = Some v ->
  bindings_recorded s -> retired_unbound s ->
  bindings_recorded (set_plot (Some (View.render b v)) s) /\
  retired_unbound (set_plot (Some (View.render b v)) s).
Proof.
  intros Hv Hrec Hret. split.
  - unfold bindings_recorded in *. intros v' Hv'.
    destruct s; simpl in *. simplify_eq. simpl. by apply Hrec.
  - by destruct s.
Qed.

Lemma afterInit_invariants n s s' :
  _afterInit (updateConfig n) s = Ok s' ->
  bindings_recorded s -> retired_unbound s ->
  (exists v, plot s = Some v /\ View.listeners v = epoch_bindings (_initialProps s)) ->
  bindings_recorded s' /\ retired_unbound s' /\
  exists v, plot s' = Some v /\ View.listeners v = epoch_bindings (_initialProps s').
Proof.
  intros Ha Hrec Hret Hv. unfold _afterInit in Ha.
  destruct (is_str _ _); [|by simplify_eq].
  bind_inv Ha. unfold the_plot in E. destruct (plot s) as [v0|] eqn:Hv0; simplify_eq.
  destruct n as [|n]; [discriminate|]. rewrite updateConfig_measured in Ha.
  destruct (render_invariants (Some false) s x Hv0 Hrec Hret) as [Hrec' Hret'].
  by apply (rebuild_invariants _ _ _ Ha).
Qed.

Lemma updateConfig_invariants n cfg s s' :
  updateConfig n cfg s = Ok s' ->
  bindings_recorded s -> retired_unbound s ->
  bindings_recorded s' /\ retired_unbound s' /\
  exists v, plot s' = Some v /\ View.listeners v = epoch_bindings (_initialProps s').
Proof.
  intros Hu Hrec Hret. destruct n as [|n]; [discriminate|]. simpl in Hu.
  bind_inv Hu.
  destruct (rebuild_invariants _ _ _ E Hrec Hret) as (Hrec1 & Hret1 & Hv1).
  by apply (afterInit_invariants _ _ _ Hu).
Qed.

Lemma stable_eq s s' :
  stable s' = stable s ->
  destroyed s' = destroyed s /\ _initialProps s' = _initialProps s /\
  _originalProps s' = _originalProps s /\
  paddingComponents s' = paddingComponents s /\ retired s' = retired s.
Proof. unfold stable. intros [= -> -> -> -> ->]. repeat split. Qed.

Lemma pristine_init_invariants th config s :
  _init (pristine th config) = Ok s ->
  bindings_recorded s /\ retired_unbound s /\
  exists v, plot s = Some v /\ View.listeners v = epoch_bindings (_initialProps s).
Proof.
  intros Hi. apply _init_Ok in Hi as (St & Hev & (v & Hv & Hl & _) & _).
  apply stable_eq in St as (_ & Hp & _ & _ & Hr).
  split; [|split].
  - intros v' Hv'. rewrite Hv in Hv'. injection Hv' as <-.
    rewrite Hl, Hev. simpl. by rewrite binding_record_of.
  - unfold retired_unbound. rewrite Hr. constructor.
  - exists v. by rewrite Hp.
Qed.

Lemma construct_invariants n th config s :
  construct n th config = Ok s ->
  bindings_recorded s /\ retired_unbound s /\
  exists v, plot s = Some v /\ View.listeners v = epoch_bindings (_initialProps s).
Proof.
  unfold construct. intros Hc. bind_inv Hc.
  destruct (pristine_init_invariants _ _ _ E) as (Hrec & Hret & Hv).
  by apply (afterInit_invariants _ _ _ Hc).
Qed.

(** Every reachable instance satisfies both invariants. *)
Lemma reachable_invariants s :
  reachable s -> bindings_recorded s /\ retired_unbound s.
Proof.
  induction 1 as [fuel th config s Hc | fuel cfg s s' _ [Hb Hr] Hu
                 | s s' _ [Hb Hr] Hu | data s s' _ [Hb Hr] Hu
                 | s s' _ [Hb Hr] Hu | component s _ [Hb Hr]
                 | s s' _ [Hb Hr] Hu].
  - destruct (construct_invariants _ _ _ _ Hc) as (? & ? & _). by split.
  - destruct (updateConfig_invariants _ _ _ _ Hu Hb Hr) as (? & ? & _). by split.
  - unfold render in Hu. destruct (negb _); [|by simplify_eq].
    bind_inv Hu. unfold the_plot in E.
    destruct (plot s) as [v|] eqn:Hv; simplify_eq.
    by apply render_invariants.
  - unfold changeData in Hu. bind_inv Hu. unfold the_plot in E.
    destruct (plot s) as [v|] eqn:Hv; simplify_eq. split.
    + unfold bindings_recorded in *. intros v' Hv'.
      destruct s; simpl in *. simplify_eq. simpl. by apply Hb.
    + by destruct s.
  - unfold repaint in Hu. bind_inv Hu. by simplify_eq.
  - split.
    + unfold bindings_recorded in *. intros v Hv. destruct s; simpl in *.
      by apply Hb.
    + by destruct s.
  - unfold destroy in Hu. do 3 bind_inv Hu. simplify_eq.
    destruct (unbind_Ok _ _ E) as (Hoff & _ & Hx).
    { intros v Hv. by apply Hb. }
    unfold the_plot in E1. simpl in E1.
    destruct (plot x) as [v|] eqn:Hv; simplify_eq. split.
    + intros v' Hv'. simpl in Hv'. injection Hv' as <-. simpl.
      erewrite Hoff by reflexivity. apply submseteq_nil_l.
    + by destruct s.
Qed.


End Invariants.

(** ** Construction and update *)

Section Construction.
Context {collaborators : Collaborators} {variant : Variant}.

Lemma proper_afterInit n s : proper (_afterInit (updateConfig (S n)) s).
Proof.
  unfold _afterInit. case_match; [|apply proper_Ok].
  apply proper_bind; [unfold the_plot; case_match; discriminate|].
  intros v. rewrite updateConfig_measured. apply proper_rebuild.
Qed.

Lemma proper_construct n th config : proper (construct (S n) th config).
Proof.
  unfold construct. apply proper_bind; [apply proper_init|].
  intros s. apply proper_afterInit.
Qed.

Lemma proper_updateConfig n cfg s : proper (updateConfig (S (S n)) cfg s).
Proof.
  simpl. apply proper_bind; [apply proper_rebuild|].
  intros s'. apply proper_afterInit.
Qed.

(** The first epoch of a construction. *)
Lemma first_epoch th config s1 :
  _init (pristine th config) = Ok s1 ->
  _initialProps s1 = config /\ _originalProps s1 = config /\
  paddingComponents s1 = [] /\ retired s1 = [] /\ destroyed s1 = false /\
  effective_padding (_initialProps s1) (theme s1) = effective_padding config th /\
  exists v1, plot s1 = Some v1 /\ View.padding v1 = _getPadding s1.
Proof.
  intros Hi.
  apply _init_Ok in Hi as (St & _ & (v & Hv & _ & _ & _ & Hp) & _ & _ & _ & Pd).
  apply stable_eq in St as (Hd & Hpr & Ho & Hc & Hr). simpl in *.
  rewrite JSFacts.deepMix_empty_l in Ho.
  repeat split; try assumption.
  - unfold effective_padding. by rewrite Hpr, Pd.
  - by exists v.
Qed.

(** A construction whose effective padding is ['auto'] is the first epoch,
    one measuring render, and one rebuild with the measured padding. *)
Lemma construct_auto n th config s1 :
  is_str "auto" (effective_padding config th) = true ->
  _init (pristine th config) = Ok s1 ->
  exists v1, plot s1 = Some v1 /\
    View.padding v1 = Some (padding_tuple (0, 0, 0, 0)%Q) /\
    construct (S n) th config =
    rebuild
      (<["padding" :=
           padding_tuple (getAutoPadding (View.render (Some false) v1)
                            (paddingComponents s1)
                            (Theme.defaultPadding (theme s1)))]> ∅)
      (set_plot (Some (View.render (Some false) v1)) s1).
Proof.
  intros Ha Hi.
  destruct (first_epoch _ _ _ Hi) as (Hp & _ & _ & _ & _ & He & v1 & Hv1 & Hpad).
  exists v1. split; [done|]. split.
  - rewrite Hpad. unfold _getPadding. by rewrite He, Ha.
  - unfold construct, _beforeInit. rewrite Hi. simpl.
    rewrite afterInit_auto by (by rewrite He).
    unfold the_plot. rewrite Hv1. simpl. apply updateConfig_measured.
Qed.

Lemma construct_settled n th config :
  is_str "auto" (effective_padding config th) = false ->
  construct n th config = _init (pristine th config).
Proof.
  intros Ha. unfold construct, _beforeInit.
  destruct (_init _) as [s1|] eqn:Hi; [|reflexivity]. simpl.
  apply afterInit_settled.
  destruct (first_epoch _ _ _ Hi) as (_ & _ & _ & _ & _ & He & _). by rewrite He.
Qed.

(** What every constructed instance satisfies. *)
Lemma construct_Ok n th config s :
  construct (S n) th config = Ok s ->
  _originalProps s = config /\ paddingComponents s = [] /\
  destroyed s = false /\ (exists v, plot s = Some v) /\
  if is_str "auto" (effective_padding config th)
  then (exists p, _initialProps s = <["padding" := padding_tuple p]> config) /\
       length (retired s) = 1
  else _initialProps s = config /\ retired s = [].
Proof.
  intros Hc. destruct (is_str _ _) eqn:Ha.
  - unfold construct, _beforeInit in Hc. pose proof Hc as Hc'.
    bind_inv Hc'. clear Hc'.
    destruct (construct_auto n _ _ _ Ha E) as (v1 & Hv1 & _ & Heq).
    unfold construct, _beforeInit in Heq. rewrite Heq in Hc.
    destruct (first_epoch _ _ _ E) as (Hp & Ho & Hpc & Hr & Hd & _).
    apply rebuild_Ok in Hc
      as (? & ? & _ & _ & Hr' & Hp' & Ho' & Hc' & Hd' & _ & (v & Hv & _) & _).
    rewrite newProps_measured in Hp'.
    destruct x; simpl in *. subst.
    repeat split; eauto. by rewrite Hr'.
  - rewrite construct_settled in Hc by done.
    destruct (first_epoch _ _ _ Hc) as (Hp & Ho & Hpc & Hr & Hd & _ & v & Hv & _).
    repeat split; eauto.
Qed.

Lemma theme_set_title th : Theme.set_title (Theme.title th) th = th.
Proof. by destruct th. Qed.
Lemma theme_set_description th :
  Theme.set_description (Theme.description th) th = th.
Proof. by destruct th. Qed.

Lemma _title_unstyled r s s' :
  field (_initialProps s !! "title") "style" = None ->
  _title r s = Ok s' -> theme s' = theme s.
Proof.
  intros Hs Ht. unfold _title in Ht. simpl in Ht.
  destruct (truthy _); [|by simplify_eq; destruct s].
  bind_in Ht q Hq. injection Ht as <-. simpl. rewrite Hs. simpl.
  rewrite theme_set_title. by destruct s.
Qed.

Lemma _description_unstyled r s s' :
  field (_initialProps s !! "description") "style" = None ->
  _description r s = Ok s' -> theme s' = theme s.
Proof.
  intros Hs Hd. unfold _description in Hd. simpl in Hd.
  destruct (truthy _); [|by simplify_eq; destruct s].
  bind_in Hd a Ha. bind_in Hd q Hq. injection Hd as <-. simpl. rewrite Hs. simpl.
  rewrite theme_set_description. by destruct s.
Qed.

Lemma _tooltip_unstyled s s' :
  field (_initialProps s !! "tooltip") "style" = None ->
  _tooltip s = Ok s' -> theme s' = theme s.
Proof.
  intros Hs Ht. unfold _tooltip in Ht. rewrite Hs in Ht.
  rewrite andb_false_r in Ht.
  destruct (truthy _ && is_false _).
  - bind_in Ht c Hc. injection Ht as <-. by destruct s.
  - bind_in Ht c Hc. bind_in Ht c' Hc'. injection Ht as <-. by destruct s.
Qed.

(** [_init] on an unstyled configuration leaves the theme as it is. *)
Lemma _init_unstyled s s' :
  unstyled (_initialProps s) -> _init s = Ok s' -> theme s' = theme s.
Proof.
  intros (Ht & Hd & Htt) Hi. unfold _init in Hi.
  bind_in Hi sm Hl. destruct sm as [s1 m]. bind_in Hi s2 Hs.
  assert (H1 : theme s1 = theme s /\ _initialProps s1 = _initialProps s).
  { pose proof (_init_layout_frame _ _ _ Hl) as (St & _).
    apply stable_eq in St as (_ & Hp & _). split; [|exact Hp].
    unfold _init_layout in Hl.
    bind_in Hl r Hr. bind_in Hl a Ha. bind_in Hl b Hb. bind_in Hl vm Hvm.
    injection Hl as <- <-.
    pose proof (_title_frame _ _ _ Ha) as (Sa & _).
    apply stable_eq in Sa as (_ & Hpa & _).
    apply _description_unstyled in Hb.
    2: { rewrite Hpa. simpl.
         by replace (_initialProps _) with (_initialProps s)
           by (by destruct (truthy _ && truthy _)). }
    apply _title_unstyled in Ha.
    2: { simpl. by replace (_initialProps _) with (_initialProps s)
           by (by destruct (truthy _ && truthy _)). }
    rewrite Hb, Ha. simpl. by destruct (truthy _ && truthy _). }
  destruct H1 as [Hth1 Hp1].
  assert (H2 : theme s2 = theme s1).
  { unfold _init_sections in Hs.
    bind_in Hs a Ha. bind_in Hs b Hb. bind_in Hs c Hc. injection Hs as <-.
    simpl. apply _legend_frame in Hb as (_ & _ & _ & _ & _ & -> & _).
    apply _tooltip_unstyled in Ha; [by rewrite Ha|].
    simpl. by rewrite Hp1. }
  unfold _init_view in Hi. erewrite _events_bound in Hi by reflexivity.
  injection Hi as <-. simpl. by rewrite H2.
Qed.

Lemma unstyled_measured p (props : obj) :
  unstyled props -> unstyled (<["padding" := padding_tuple p]> props).
Proof.
  unfold unstyled. by rewrite !lookup_insert_ne by discriminate.
Qed.

Lemma rebuild_unstyled cfg s s' :
  unstyled (newProps cfg s) -> rebuild cfg s = Ok s' -> theme s' = theme s.
Proof.
  intros Hu Hr. unfold rebuild in Hr. bind_in Hr s1 Hs1. bind_in Hr v1 Hv1.
  apply _init_unstyled in Hr; [|exact Hu]. rewrite Hr. simpl.
  unfold unbind in Hs1. destruct (eventHandlers s); [by simplify_eq|].
  bind_in Hs1 v Hv. injection Hs1 as <-. by destruct s.
Qed.

(** A construction from an unstyled configuration leaves the theme as the
    theme controller supplied it. *)
Lemma construct_unstyled n th config s :
  unstyled config -> construct (S n) th config = Ok s -> theme s = th.
Proof.
  intros Hu Hc. destruct (is_str "auto" (effective_padding config th)) eqn:Ha.
  - pose proof Hc as Hc'. unfold construct, _beforeInit in Hc'.
    bind_in Hc' s1 Hs1. clear Hc'.
    destruct (construct_auto n _ _ _ Ha Hs1) as (v1 & Hv1 & _ & Heq).
    rewrite Heq in Hc.
    pose proof (_init_unstyled (pristine th config) s1 Hu Hs1) as Hth.
    destruct (first_epoch _ _ _ Hs1) as (Hp & _).
    apply rebuild_unstyled in Hc.
    + rewrite Hc. simpl. exact Hth.
    + rewrite newProps_measured. simpl. rewrite Hp.
      by apply unstyled_measured.
  - rewrite construct_settled in Hc by done.
    exact (_init_unstyled (pristine th config) s Hu Hc).
Qed.

(** C10.  A construction whose effective padding is ['auto'] needs no more
    fuel than one nested [updateConfig] and never runs out of it: it is the
    first epoch, built on the neutral padding, one measuring render, and
    one rebuild with the measured tuple; the instance it returns has retired
    exactly one view and its working configuration carries a concrete
    padding, so that [_afterInit] does not measure again. *)
Theorem C10_auto_padding_one_reinit (th : Theme.t) (config : obj) (fuel : nat) :
  is_str "auto" (effective_padding config th) = true ->
  construct (S fuel) th config = construct 1 th config /\
  proper (construct (S fuel) th config) /\
  (forall s1, _init (pristine th config) = Ok s1 ->
     exists v1, plot s1 = Some v1 /\
       View.padding v1 = Some (padding_tuple (0, 0, 0, 0)%Q) /\
       construct (S fuel) th config =
       rebuild
         (<["padding" :=
              padding_tuple (getAutoPadding (View.render (Some false) v1)
                               (paddingComponents s1)
                               (Theme.defaultPadding (theme s1)))]> ∅)
         (set_plot (Some (View.render (Some false) v1)) s1)) /\
  (forall s, construct (S fuel) th config = Ok s ->
     length (retired s) = 1 /\
     (exists p, final_padding s = Some (padding_tuple p)) /\
     is_str "auto" (effective_padding (_initialProps s) (theme s)) = false).
Proof.
  intros Ha. split; [apply construct_fuel|]. split; [apply proper_construct|].
  split; [intros s1 Hi; by apply construct_auto|].
  intros s Hc. apply construct_Ok in Hc as (_ & _ & _ & _ & Hs).
  rewrite Ha in Hs. destruct Hs as [[p Hp] Hr].
  split; [done|].
  assert (Hf : final_padding s = Some (padding_tuple p))
    by (unfold final_padding; rewrite Hp; apply lookup_insert_eq).
  split; [by exists p|].
  erewrite effective_padding_tuple by exact Hf. apply is_auto_tuple.
Qed.









(** C7, amended.  [destroy] sets the [destroyed] flag, and no mutating
    operation reads it: [render] and [changeData] do on a destroyed instance
    what they do on a live one, [updateConfig] builds the same epoch or
    raises the same exception and leaves the flag as it is, and [render] on
    a destroyed instance without data returns normally without any
    effect. *)
Theorem C7_no_lifecycle_guard (s : BasePlot) :
  (forall s', destroy s = Ok s' -> destroyed s' = true) /\
  (forall b,
     render (set_destroyed b s) = set_destroyed b <$> render s /\
     (forall d, changeData d (set_destroyed b s) = set_destroyed b <$> changeData d s) /\
     (forall n cfg,
        epoch <$> updateConfig n cfg (set_destroyed b s) =
        epoch <$> updateConfig n cfg s) /\
     (forall n cfg s', updateConfig n cfg (set_destroyed b s) = Ok s' ->
        destroyed s' = b)) /\
  (isEmpty (_initialProps s !! "data") = true ->
   render (set_destroyed true s) = Ok (set_destroyed true s)).
Proof.
  split; [|split].
  - intros s' Hd. unfold destroy in Hd. do 3 bind_inv Hd. by simplify_eq.
  - intros b. split; [|split; [|split]].
    + unfold render, the_plot. destruct s as [? ? ? ? ? ? ? ? pl ? ? ?]; simpl.
      destruct (negb _); [|reflexivity]. by destruct pl.
    + intros d. unfold changeData, the_plot.
      destruct s as [? ? ? ? ? ? ? ? pl ? ? ?]; simpl. by destruct pl.
    + intros n cfg. apply updateConfig_agree; by destruct s.
    + intros n cfg s' Hu. destruct n as [|n]; [discriminate|]. simpl in Hu.
      bind_inv Hu.
      apply rebuild_Ok in E as (_ & _ & _ & _ & _ & _ & _ & _ & Hd & _).
      unfold _afterInit in Hu. destruct (is_str _ _); [|by simplify_eq; destruct s].
      bind_inv Hu. destruct n as [|n]; [discriminate|].
      rewrite updateConfig_measured in Hu.
      apply rebuild_Ok in Hu as (_ & _ & _ & _ & _ & _ & _ & _ & Hd' & _).
      rewrite Hd'. destruct x; simpl in *. by destruct s.
  - intros He. unfold render. destruct s; simpl in *. by rewrite He.
Qed.

End Construction.

(** ** Assembly of the sections *)

Section Assembly.
Context {collaborators : Collaborators} {variant : Variant}.

Lemma _tooltip_off s (t : obj) :
  _initialProps s !! "tooltip" = Some (VObj t) ->
  t !! "visible" = Some (VBool false) ->
  _tooltip s =
  Ok (set_config (G2Config.set_section G2Config.Ktooltip (VBool false) (_config s)) s).
Proof.
  intros Ht Hv. unfold _tooltip. rewrite Ht. simpl. rewrite Hv. reflexivity.
Qed.

Lemma _init_sections_tooltip_off s s' (t : obj) :
  _initialProps s !! "tooltip" = Some (VObj t) ->
  t !! "visible" = Some (VBool false) ->
  _init_sections s = Ok s' ->
  G2Config.tooltip (_config s') = VBool false /\
  Theme.tooltip (theme s') = Theme.tooltip (theme s).
Proof.
  intros Ht Hv Hi. unfold _init_sections in Hi. do 3 bind_inv Hi.
  rewrite (_tooltip_off _ t) in E by (by destruct s). simplify_eq.
  apply _legend_frame in E0 as (_ & _ & _ & _ & _ & Hth & Htt).
  apply _setConfig_frame in E1 as [Hts _]. specialize (Hts ltac:(discriminate)).
  simpl in *. rewrite Hts. simpl. rewrite Htt, Hth. by destruct s.
Qed.

(** C4.  With [tooltip.visible === false], [_tooltip] sets the tooltip
    section to [false] and changes nothing else, whatever [tooltip.style]
    holds; after a whole [_init] the section is still [false] and the
    tooltip block of the theme is what it was before. *)
Theorem C4_tooltip_switch_off (s : BasePlot) (t : obj) :
  _initialProps s !! "tooltip" = Some (VObj t) ->
  t !! "visible" = Some (VBool false) ->
  _tooltip s =
    Ok (set_config
          (G2Config.set_section G2Config.Ktooltip (VBool false) (_config s)) s) /\
  (forall s', _init s = Ok s' ->
     G2Config.tooltip (_config s') = VBool false /\
     Theme.tooltip (theme s') = Theme.tooltip (theme s)).
Proof.
  intros Ht Hv. split; [by apply (_tooltip_off s t)|].
  intros s' Hi. unfold _init in Hi. bind_inv Hi. destruct x as [s1 m].
  bind_inv Hi.
  apply _init_layout_frame in E as (St & _ & Tt & _).
  assert (Hp : _initialProps s1 = _initialProps s)
    by (unfold stable in St; congruence).
  apply (_init_sections_tooltip_off _ _ t) in E0 as [Hc Hth];
    [|by rewrite Hp|done].
  unfold _init_view in Hi. erewrite _events_bound in Hi by reflexivity.
  simplify_eq. simpl. split; [exact Hc|]. by rewrite Hth.
Qed.

(** C9.  A construction with a description and without a title does not
    return an instance: it raises an exception, and once the panel range is
    computed that exception is the [TypeError] of reading [alignWithAxis]
    from the absent title; with a title object configured, [_description]
    raises no [TypeError]. *)
Theorem C9_description_requires_title (th : Theme.t) (config : obj) (fuel : nat) :
  truthy (config !! "description") = true ->
  config !! "title" = None ->
  (exists e, construct fuel th config = Err e /\ e <> OutOfFuel) /\
  (is_Ok (_getPanelRange (pristine th config)) ->
   construct fuel th config =
   Err (TypeError "Cannot read property 'alignWithAxis' of undefined")) /\
  (forall r s (t : obj) what,
     _initialProps s !! "title" = Some (VObj t) ->
     _description r s <> Err (TypeError what)).
Proof.
  intros Hd Ht.
  assert (Hl : forall r,
    _getPanelRange (pristine th config) = Ok r ->
    _init (pristine th config) =
    Err (TypeError "Cannot read property 'alignWithAxis' of undefined")).
  { intros r Hr. unfold _init, _init_layout.
    erewrite _getPanelRange_agree; [rewrite Hr|].
    2: { simpl. by destruct (truthy _ && truthy _). }
    simpl. unfold _title. simpl.
    replace (_initialProps _) with config by (by destruct (truthy _ && truthy _)).
    rewrite Ht. simpl. unfold _description. simpl.
    replace (_initialProps _) with config by (by destruct (truthy _ && truthy _)).
    rewrite Hd, Ht. reflexivity. }
  assert (He : forall e,
    _getPanelRange (pristine th config) = Err e ->
    _init (pristine th config) = Err e).
  { intros e Hr. unfold _init, _init_layout.
    erewrite _getPanelRange_agree; [rewrite Hr|]; [reflexivity|].
    simpl. by destruct (truthy _ && truthy _). }
  split; [|split].
  - unfold construct, _beforeInit.
    destruct (_getPanelRange (pristine th config)) as [r|e] eqn:Hr.
    + rewrite (Hl r eq_refl). simpl. eexists; split; [reflexivity|]. intros [=].
    + rewrite (He e eq_refl). simpl. exists e. split; [reflexivity|].
      intros ->. by apply (proper_getPanelRange (pristine th config)).
  - intros [r Hr]. unfold construct, _beforeInit. by rewrite (Hl r Hr).
  - intros r s t what Htitle. unfold _description, num_prop.
    destruct (truthy _); [|discriminate]. simpl. rewrite Htitle. simpl.
    repeat case_match; simpl; intros [=].
Qed.

(** Metadata of a field whose name has no dot is found under that name,
    and merged over the scale of the variant; without it the scale is left
    as it is. *)
Lemma with_meta_undotted (props sc m : obj) f :
  undotted f ->
  field (props !! "meta") f = Some (VObj m) ->
  with_meta props (VObj sc) f = VObj (assign3 sc m).
Proof.
  intros Hf Hm. unfold with_meta. rewrite JSFacts.get_undotted by done.
  destruct (props !! "meta") as [[]|]; try discriminate.
  simpl in *. rewrite Hm. reflexivity.
Qed.

Lemma with_meta_absent (props : obj) sc f :
  undotted f ->
  truthy (field (props !! "meta") f) = false ->
  with_meta props sc f = sc.
Proof.
  intros Hf Hm. unfold with_meta. rewrite JSFacts.get_undotted by done.
  destruct (truthy (props !! "meta")); [by rewrite Hm|reflexivity].
Qed.

Lemma lookup_scales_with_meta (props scales : obj) f :
  scales_with_meta props (VObj scales) !! f =
  (fun sc => with_meta props sc f) <$> scales !! f.
Proof.
  unfold scales_with_meta, mapValues. rewrite map_lookup_imap.
  by destruct (scales !! f).
Qed.

(** The scale that [_init] assembles for a field: the scale of the variant
    passed through [with_meta]. *)
Lemma assembled_scale (props scales : obj) c c' f sc :
  G2Config.scales c = VObj scales ->
  _setConfig G2Config.Kscales
    (VObj (scales_with_meta props (G2Config.scales c))) c = Ok c' ->
  f <> "constructor" ->
  scales !! f = Some sc ->
  field (Some (G2Config.scales c')) f = Some (with_meta props sc f).
Proof.
  intros Hc Hs Hf Hsc.
  assert (Hc' : G2Config.scales c' =
                VObj (mix scales (scales_with_meta props (VObj scales)))).
  { unfold _setConfig in Hs. simpl in Hs. rewrite Hc in Hs. simpl in Hs.
    by injection Hs as <-. }
  rewrite Hc'. unfold field. rewrite JSFacts.lookup_mix by done.
  by rewrite lookup_scales_with_meta, Hsc.
Qed.

End Assembly.

(** ** Layout *)

Section Layout.

(** C5.  With a concrete padding tuple [[top, right, bottom, left]] in the
    working configuration, [_getPadding] returns that tuple and the panel
    range is the box at [(left, top)] of width [canvasWidth - left - right]
    and height [canvasHeight - top - bottom], neither of them negative when
    the canvas is at least as large as the padding sums; with an effective
    padding of ['auto'], [_getPadding] returns [[0, 0, 0, 0]] and the panel
    range is the whole canvas. *)
Theorem C5_panel_range (s : BasePlot) (t r b l : Q) :
  _initialProps s !! "padding" = Some (padding_tuple (t, r, b, l)) ->
  let w := CanvasController.width (canvasController s) in
  let h := CanvasController.height (canvasController s) in
  _getPadding s = Some (padding_tuple (t, r, b, l)) /\
  (exists range, _getPanelRange s = Ok range /\
     BBox.minX range = l /\ BBox.minY range = t /\
     BBox.width range = (w - l - r)%Q /\
     BBox.height range = (h - t - b)%Q /\
     ((l + r <= w)%Q -> (0 <= BBox.width range)%Q) /\
     ((t + b <= h)%Q -> (0 <= BBox.height range)%Q)) /\
  (forall s',
     is_str "auto" (effective_padding (_initialProps s') (theme s')) = true ->
     _getPadding s' = Some (padding_tuple (0, 0, 0, 0)%Q) /\
     _getPanelRange s' =
     Ok (BBox.new 0 0
           (CanvasController.width (canvasController s') - 0 - 0)%Q
           (CanvasController.height (canvasController s') - 0 - 0)%Q)).
Proof.
  intros Hp w h.
  assert (Hpad : _getPadding s = Some (padding_tuple (t, r, b, l))).
  { unfold _getPadding, effective_padding. rewrite Hp. reflexivity. }
  split; [exact Hpad|]. split.
  - unfold _getPanelRange. rewrite Hpad. simpl.
    eexists; split; [reflexivity|]. simpl. fold w h.
    repeat split; try reflexivity; intros; lra.
  - intros s' Ha.
    assert (Hpad' : _getPadding s' = Some (padding_tuple (0, 0, 0, 0)%Q))
      by (unfold _getPadding; by rewrite Ha).
    split; [exact Hpad'|]. unfold _getPanelRange. rewrite Hpad'. reflexivity.
Qed.


End Layout.

(** * Further properties of the class *)

(** ** The view of an epoch *)

Section Epochs.
Context {collaborators : Collaborators} {variant : Variant}.

Lemma _getViewMargin_below (t d : option BBox.t) (bm h : Q) :
  (0 < h)%Q -> num_lt (Margin.maxY (_getViewMargin t d bm h)) h.
Proof.
  intros Hpos.
  assert (Hclamp : (h - clamp_epsilon < h)%Q) by (unfold clamp_epsilon; lra).
  assert (Hbelow : forall y, Qle_bool h y = false -> (y < h)%Q).
  { intros y Hy. apply Qnot_le_lt. intros Hle.
    apply Qle_bool_iff in Hle. congruence. }
  destruct t as [t|], d as [d|]; unfold _getViewMargin; simpl;
    try match goal with
        | |- context [Qle_bool h ?y] =>
            destruct (Qle_bool h y) eqn:Hy; simpl; auto
        end.
  exact Hpos.
Qed.

Lemma _getPadding_concrete s : is_str "auto" (_getPadding s) = false.
Proof.
  unfold _getPadding. destruct (is_str "auto" (effective_padding _ _)) eqn:E;
    [reflexivity|exact E].
Qed.

Lemma _init_built s s' :
  _init s = Ok s' ->
  exists v, plot s' = Some v /\ epoch_view s' v /\
    CanvasController.height (canvasController s') =
    CanvasController.height (canvasController s).
Proof.
  intros Hi. unfold _init in Hi.
  bind_in Hi sm Hl. destruct sm as [s1 m]. bind_in Hi s2 Hs.
  assert (Hm : (0 < CanvasController.height (canvasController s1))%Q ->
               num_lt (Margin.maxY m) (CanvasController.height (canvasController s1))).
  { unfold _init_layout in Hl.
    bind_in Hl r Hr. bind_in Hl a Ha. bind_in Hl b Hb. bind_in Hl vm Hvm.
    injection Hl as <- <-. unfold viewMargin_of in Hvm.
    bind_in Hvm q Hq. injection Hvm as <-. apply _getViewMargin_below. }
  pose proof (_init_layout_frame _ _ _ Hl) as (_ & _ & _ & _ & _ & _ & _ & Hh).
  pose proof (_init_sections_frame _ _ Hs) as (_ & _ & Hc & _).
  unfold _init_view in Hi. erewrite _events_bound in Hi by reflexivity.
  injection Hi as <-. eexists. split; [reflexivity|]. split.
  - unfold epoch_view. simpl. rewrite Hc.
    repeat split; try reflexivity.
    + apply _getPadding_concrete.
    + exact Hm.
  - simpl. by rewrite Hc.
Qed.


(** X16.  The epoch that [_init] builds is determined by the working
    configuration, the theme, the size of the canvas and the padding
    participants: what the instance held before in [_config], [title],
    [description], [plot] and [eventHandlers] has no influence, neither on
    the assembled epoch nor on the exception where [_init] fails. *)
Theorem X16_epoch_determined_by_inputs (s1 s2 : BasePlot) :
  inputs s1 = inputs s2 -> epoch <$> _init s1 = epoch <$> _init s2.
Proof. apply _init_agree. Qed.

Lemma afterInit_fresh n s s' :
  _afterInit (updateConfig n) s = Ok s' ->
  (exists v, plot s = Some v /\ View.renders v = [] /\ View.destroyed v = false) ->
  exists v, plot s' = Some v /\ View.renders v = [] /\ View.destroyed v = false.
Proof.
  intros Ha Hv. unfold _afterInit in Ha.
  destruct (is_str _ _); [|by simplify_eq].
  bind_in Ha v0 Hv0. destruct n as [|n]; [discriminate|].
  rewrite updateConfig_measured in Ha.
  apply rebuild_Ok in Ha
    as (_ & _ & _ & _ & _ & _ & _ & _ & _ & _ & (v & Hp & _ & Hd & Hr & _) & _).
  by exists v.
Qed.

(** X2.  The view of an instance that the constructor or [updateConfig]
    returns has received no call to [render] and is not destroyed: the
    measuring [render(false)] of an auto-padding pass goes to the provisional
    view, and drawing the chart is left to a later [render()]. *)
Theorem X2_epochs_start_unrendered (fuel : nat) (th : Theme.t) (config cfg : obj)
    (s s' : BasePlot) :
  construct fuel th config = Ok s' \/ updateConfig fuel cfg s = Ok s' ->
  exists v, plot s' = Some v /\ View.renders v = [] /\ View.destroyed v = false.
Proof.
  intros [Hc|Hu].
  - unfold construct, _beforeInit in Hc. bind_in Hc s1 Hi.
    apply (afterInit_fresh _ _ _ Hc).
    apply _init_Ok in Hi as (_ & _ & (v & Hv & _ & Hd & Hr & _) & _).
    by exists v.
  - destruct fuel as [|n]; [discriminate|]. simpl in Hu. bind_in Hu s1 Hr.
    apply (afterInit_fresh _ _ _ Hu).
    apply rebuild_Ok in Hr
      as (_ & _ & _ & _ & _ & _ & _ & _ & _ & _ & (v & Hp & _ & Hd & Hr & _) & _).
    by exists v.
Qed.

(** Unbinding leaves the render history, the padding and the data of a
    view as they are. *)
Lemma off_all_view (hs : list HandlerRecord) v :
  let v' := foldl (fun v h => View.off (type h) (handler h) v) v hs in
  View.renders v' = View.renders v /\ View.padding v' = View.padding v /\
  View.data v' = View.data v.
Proof.
  revert v. induction hs as [|h hs IH]; intros v; [done|].
  simpl. destruct (IH (View.off (type h) (handler h) v)) as (-> & -> & ->).
  done.
Qed.

Lemma unbind_view s s1 v1 :
  unbind s = Ok s1 -> plot s1 = Some v1 ->
  exists v, plot s = Some v /\ View.renders v1 = View.renders v /\
    View.padding v1 = View.padding v /\ View.data v1 = View.data v.
Proof.
  unfold unbind. intros Hu Hv1. destruct (eventHandlers s) as [|h hs].
  - simplify_eq. exists v1. repeat split; assumption || reflexivity.
  - bind_in Hu v Hv. injection Hu as <-. simpl in Hv1. injection Hv1 as <-.
    unfold the_plot in Hv. destruct (plot s) as [v'|]; simplify_eq.
    exists v. split; [done|]. apply (off_all_view (h :: hs)).
Qed.

Lemma rebuild_retired cfg s s' :
  rebuild cfg s = Ok s' ->
  exists old v, plot s = Some old /\ retired s' = v :: retired s /\
    View.destroyed v = true /\ View.renders v = View.renders old.
Proof.
  intros Hr. apply rebuild_Ok in Hr as (s1 & v1 & Hu & Hv1 & Hret & _).
  destruct (unbind_view _ _ _ Hu Hv1) as (old & Ho & Hren & _).
  exists old, (View.destroy v1). by repeat split.
Qed.

(** X3.  A successful [updateConfig] destroys every view it replaces: the
    view the instance had, with its render history as it was, and, when the
    effective padding of the merged configuration is ['auto'], also the
    provisional view, which has received exactly the one measuring
    [render(false)]. *)
Theorem X3_update_retires_views (fuel : nat) (cfg : obj) (s s' : BasePlot) :
  updateConfig fuel cfg s = Ok s' ->
  exists old vs,
    plot s = Some old /\
    retired s' = vs ++ retired s /\
    Forall (fun v => View.destroyed v = true) vs /\
    View.renders <$> vs =
      if is_str "auto" (effective_padding (newProps cfg s) (theme s))
      then [[Some false]; View.renders old]
      else [View.renders old].
Proof.
  intros Hu. destruct fuel as [|n]; [discriminate|]. simpl in Hu.
  bind_in Hu s1 Hr.
  pose proof (rebuild_Ok _ _ _ Hr)
    as (_ & _ & _ & _ & _ & Hp & _ & _ & _ & _ & (v1 & Hv1 & _ & _ & Hren1 & _) & _ & Pd).
  destruct (rebuild_retired _ _ _ Hr) as (old & v & Ho & Hret & Hd & Hren).
  assert (He : effective_padding (_initialProps s1) (theme s1) =
               effective_padding (newProps cfg s) (theme s))
    by (unfold effective_padding; by rewrite Hp, Pd).
  exists old. unfold _afterInit in Hu. rewrite He in Hu.
  destruct (is_str "auto" _).
  - bind_in Hu v0 Hv0. unfold the_plot in Hv0. rewrite Hv1 in Hv0.
    injection Hv0 as <-.
    destruct n as [|n]; [discriminate|]. rewrite updateConfig_measured in Hu.
    destruct (rebuild_retired _ _ _ Hu) as (old' & v' & Ho' & Hret' & Hd' & Hren').
    simpl in Ho'. injection Ho' as <-. simpl in Hret'.
    exists [v'; v]. split; [done|]. split; [by rewrite Hret', Hret|].
    split; [by repeat constructor|].
    simpl. rewrite Hren', Hren. simpl. by rewrite Hren1.
  - injection Hu as <-. exists [v]. split; [done|]. split; [done|].
    split; [by repeat constructor|]. simpl. by rewrite Hren.
Qed.

End Epochs.

(** ** Updates of the working configuration *)

Section Updates.
Context {collaborators : Collaborators} {variant : Variant}.

Lemma lookup_newProps cfg s k :
  k <> "padding" ->
  newProps cfg s !! k = merged_entry (_initialProps s !! k) (cfg !! k).
Proof.
  intros Hk. unfold newProps. rewrite JSFacts.lookup_deepMix3.
  assert (Hc : (if negb (truthy (cfg !! "padding"))
                   && truthy (_originalProps s !! "padding")
                   && is_str "auto" (_originalProps s !! "padding")
                then <["padding" := VStr "auto"]> cfg else cfg) !! k = cfg !! k).
  { destruct (_ && _); [by rewrite lookup_insert_ne|done]. }
  rewrite Hc. unfold merged_entry, deepMix_entry.
  by destruct (cfg !! k) as [[]|].
Qed.

Lemma newProps_keeps_keys cfg s k :
  is_Some (_initialProps s !! k) -> is_Some (newProps cfg s !! k).
Proof.
  intros [d Hd]. unfold newProps. rewrite JSFacts.lookup_deepMix3, Hd.
  match goal with |- context [?m !! k] =>
    destruct (m !! k) as [[]|]; simpl; eauto end.
Qed.

Lemma epoch_bindings_padding p (props : obj) :
  epoch_bindings (<["padding" := p]> props) = epoch_bindings props.
Proof. unfold epoch_bindings. by rewrite lookup_insert_ne. Qed.

(** The anatomy of a successful update. *)
Lemma updateConfig_Ok n cfg s s' :
  updateConfig n cfg s = Ok s' ->
  _originalProps s' = _originalProps s /\
  paddingComponents s' = paddingComponents s /\
  (exists v, plot s' = Some v /\ epoch_view s' v) /\
  if is_str "auto" (effective_padding (newProps cfg s) (theme s))
  then (exists p, _initialProps s' = <["padding" := padding_tuple p]> (newProps cfg s)) /\
       eventHandlers s' =
       eventHandlers s ++ (record_of <$> epoch_bindings (newProps cfg s))
                       ++ (record_of <$> epoch_bindings (newProps cfg s))
  else _initialProps s' = newProps cfg s /\
       eventHandlers s' =
       eventHandlers s ++ (record_of <$> epoch_bindings (newProps cfg s)).
Proof.
  intros Hu. destruct n as [|n]; [discriminate|]. simpl in Hu.
  bind_in Hu s1 Hr.
  pose proof (rebuild_Ok _ _ _ Hr)
    as (_ & _ & _ & _ & _ & Hp & Ho & Hc & _ & He & (v1 & Hv1 & _) & _ & Pd).
  assert (Hb1 : exists v, plot s1 = Some v /\ epoch_view s1 v).
  { unfold rebuild in Hr. bind_in Hr a Ha. bind_in Hr b Hb.
    apply _init_built in Hr as (v & Hv & Hev & _). by exists v. }
  assert (Heff : effective_padding (_initialProps s1) (theme s1) =
                 effective_padding (newProps cfg s) (theme s))
    by (unfold effective_padding; by rewrite Hp, Pd).
  unfold _afterInit in Hu. rewrite Heff in Hu.
  destruct (is_str "auto" _).
  - bind_in Hu v0 Hv0. destruct n as [|n]; [discriminate|].
    rewrite updateConfig_measured in Hu.
    pose proof (rebuild_Ok _ _ _ Hu)
      as (_ & _ & _ & _ & _ & Hp' & Ho' & Hc' & _ & He' & _).
    rewrite newProps_measured in Hp', He'. simpl in *.
    rewrite epoch_bindings_padding in He'.
    split; [by rewrite Ho'|]. split; [by rewrite Hc'|]. split.
    { unfold rebuild in Hu. bind_in Hu a Ha. bind_in Hu b Hb.
      apply _init_built in Hu as (v & Hv & Hev & _). by exists v. }
    split.
    + eexists. rewrite Hp', Hp. reflexivity.
    + rewrite He', He, Hp. by rewrite <- app_assoc.
  - injection Hu as <-. by repeat split.
Qed.

(** X4.  [updateConfig] never changes the snapshot of the original
    configuration, so an original [padding: 'auto'] is recalled by every
    later update that leaves [padding] out or gives a falsy one, also after
    an update that had set a concrete padding: the configuration merged for
    such an update has [padding: 'auto'] again, and its effective padding is
    ['auto'] whatever the theme says. *)
Theorem X4_original_padding_is_permanent (fuel : nat) (cfg : obj) (s s' : BasePlot) :
  updateConfig fuel cfg s = Ok s' ->
  _originalProps s !! "padding" = Some (VStr "auto") ->
  _originalProps s' = _originalProps s /\
  forall cfg2, truthy (cfg2 !! "padding") = false ->
    newProps cfg2 s' !! "padding" = Some (VStr "auto") /\
    forall th, is_str "auto" (effective_padding (newProps cfg2 s') th) = true.
Proof.
  intros Hu Ho. apply updateConfig_Ok in Hu as (Ho' & _).
  split; [exact Ho'|]. intros cfg2 Hc.
  assert (Hn : newProps cfg2 s' !! "padding" = Some (VStr "auto")).
  { unfold newProps. rewrite Ho', Ho, Hc. simpl.
    rewrite JSFacts.lookup_deepMix3, lookup_insert_eq. reflexivity. }
  split; [exact Hn|]. intros th. unfold effective_padding. by rewrite Hn.
Qed.

(** X5.  A successful [updateConfig(cfg)] never drops a key of the working
    configuration, and under every key other than [padding] the new working
    configuration holds the merge of the old entry with that of [cfg]: the
    old entry where [cfg] has none, the merged object where [cfg] has a plain
    object, and the value of [cfg] (an array as a whole) otherwise. *)
Theorem X5_update_merges_keys (fuel : nat) (cfg : obj) (s s' : BasePlot) :
  updateConfig fuel cfg s = Ok s' ->
  (forall k, is_Some (_initialProps s !! k) -> is_Some (_initialProps s' !! k)) /\
  (forall k, k <> "padding" ->
     _initialProps s' !! k = merged_entry (_initialProps s !! k) (cfg !! k)).
Proof.
  intros Hu. apply updateConfig_Ok in Hu as (_ & _ & _ & Hs).
  destruct (is_str "auto" _).
  - destruct Hs as [[p Hp] _]. split.
    + intros k Hk. rewrite Hp.
      destruct (decide (k = "padding")) as [->|Hne].
      * rewrite lookup_insert_eq. eauto.
      * rewrite lookup_insert_ne by done. by apply newProps_keeps_keys.
    + intros k Hk. rewrite Hp, lookup_insert_ne by done.
      by apply lookup_newProps.
  - destruct Hs as [Hp _]. rewrite Hp. split.
    + intros k Hk. by apply newProps_keeps_keys.
    + intros k Hk. by apply lookup_newProps.
Qed.

(** X6.  [changeData(data)] hands the data to the view and leaves the
    working configuration alone, so the data does not survive an update: any
    [updateConfig] on the instance builds the epoch it builds without the
    [changeData], and the new view holds the [data] of the working
    configuration. *)
Theorem X6_changeData_is_transient (d : value) (s s1 : BasePlot) :
  changeData d s = Ok s1 ->
  _initialProps s1 = _initialProps s /\
  View.data <$> plot s1 = Some (Some d) /\
  (forall n cfg, epoch <$> updateConfig n cfg s1 = epoch <$> updateConfig n cfg s) /\
  (forall n cfg s', updateConfig n cfg s1 = Ok s' ->
     View.data <$> plot s' = Some (_initialProps s' !! "data")).
Proof.
  intros Hc. unfold changeData in Hc. bind_in Hc v Hv. injection Hc as <-.
  unfold the_plot in Hv. destruct (plot s) as [v0|] eqn:Hv0; simplify_eq.
  split; [by destruct s|]. split; [reflexivity|]. split.
  - intros n cfg. apply updateConfig_agree.
    + by destruct s.
    + simpl. rewrite Hv0. split; discriminate.
    + by destruct s.
  - intros n cfg s' Hu.
    apply updateConfig_Ok in Hu as (_ & _ & (v' & Hv' & Hev) & _).
    rewrite Hv'. simpl. by destruct Hev as (_ & _ & -> & _).
Qed.

(** X7.  [render()] decides by the [data] of the working configuration,
    not by the data the view holds: after [changeData(data)] on an instance
    configured without data it still returns without a call to the view, and
    on an instance configured with data it passes one [render()] to the
    view, whatever [data] was. *)
Theorem X7_render_reads_configured_data (d : value) (s s1 : BasePlot) :
  changeData d s = Ok s1 ->
  render s1 =
  if isEmpty (_initialProps s !! "data") then Ok s1
  else Ok (set_plot (View.render None <$> plot s1) s1).
Proof.
  intros Hc. unfold changeData in Hc. bind_in Hc v Hv. injection Hc as <-.
  unfold render, the_plot.
  destruct s as [? props ? ? ? ? ? ? pl ? ? ?]; simpl.
  by destruct (isEmpty _).
Qed.

(** X13.  The records in [eventHandlers] are never removed: a successful
    [updateConfig] appends the records of the handlers declared in the new
    working configuration, once for each epoch it builds (twice when the
    effective padding is ['auto']), after all the records that were there,
    and [destroy] leaves the list as it is. *)
Theorem X13_handler_records_accumulate (fuel : nat) (cfg : obj) (s s' : BasePlot) :
  updateConfig fuel cfg s = Ok s' ->
  let bs := record_of <$> epoch_bindings (_initialProps s') in
  eventHandlers s' =
    eventHandlers s ++
    (if is_str "auto" (effective_padding (newProps cfg s) (theme s))
     then bs ++ bs else bs) /\
  forall s'', destroy s' = Ok s'' -> eventHandlers s'' = eventHandlers s'.
Proof.
  intros Hu bs. subst bs. split.
  - apply updateConfig_Ok in Hu as (_ & _ & _ & Hs).
    destruct (is_str "auto" _).
    + destruct Hs as [[p Hp] He]. by rewrite Hp, epoch_bindings_padding.
    + destruct Hs as [Hp He]. by rewrite Hp.
  - intros s'' Hd. unfold destroy in Hd.
    bind_in Hd a Ha. bind_in Hd c Hc. bind_in Hd v Hv. injection Hd as <-.
    simpl. unfold unbind in Ha. simpl in Ha.
    destruct (eventHandlers s') as [|h hs] eqn:E.
    + injection Ha as <-. done.
    + bind_in Ha v' Hv'. injection Ha as <-. done.
Qed.

(** X20.  [updateConfig] needs no more than one nested call of itself and
    never exhausts that bound: with room for two levels its outcome is that
    of any larger bound, and where the effective padding of the merged
    configuration is not ['auto'] it is the outcome of one rebuild. *)
Theorem X20_update_needs_two_levels (n : nat) (cfg : obj) (s : BasePlot) :
  updateConfig (S (S n)) cfg s = updateConfig 2 cfg s /\
  proper (updateConfig (S (S n)) cfg s) /\
  (is_str "auto" (effective_padding (newProps cfg s) (theme s)) = false ->
   updateConfig (S n) cfg s = rebuild cfg s).
Proof.
  split; [apply updateConfig_fuel|]. split; [apply proper_updateConfig|].
  intros Ha. simpl. destruct (rebuild cfg s) as [s1|e] eqn:Hr; [|reflexivity].
  simpl. apply afterInit_settled.
  apply rebuild_Ok in Hr as (_ & _ & _ & _ & _ & Hp & _ & _ & _ & _ & _ & _ & Pd).
  unfold effective_padding in *. by rewrite Hp, Pd.
Qed.

(** X21.  A construction whose effective padding is concrete is a single
    [_init], whatever bound on nested updates it is given: the instance it
    returns has the configuration as its working configuration and as its
    original snapshot, has retired no view, and holds exactly the records of
    the handlers that the configuration declares. *)
Theorem X21_concrete_padding_single_epoch (fuel : nat) (th : Theme.t) (config : obj) :
  is_str "auto" (effective_padding config th) = false ->
  construct fuel th config = _init (pristine th config) /\
  forall s, construct fuel th config = Ok s ->
    _initialProps s = config /\ _originalProps s = config /\ retired s = [] /\
    eventHandlers s = record_of <$> epoch_bindings config.
Proof.
  intros Ha. split; [by apply construct_settled|].
  intros s Hc. rewrite construct_settled in Hc by done.
  destruct (first_epoch _ _ _ Hc) as (Hp & Ho & _ & Hr & _).
  apply _init_Ok in Hc as (_ & He & _).
  by repeat split.
Qed.

End Updates.

(** ** Merging into the sections *)

Section SectionMerges.
Context {collaborators : Collaborators} {variant : Variant}.

Lemma mixable_obj1 k v : k <> "constructor" -> mixable (obj1 k v) = obj1 k v.
Proof.
  intros Hk. unfold mixable, obj1. destruct v as [x|].
  - apply map_filter_singleton_True. exact Hk.
  - apply map_filter_empty.
Qed.

Lemma lookup_mix_obj1 (d : obj) k v f :
  k <> "constructor" ->
  mix d (obj1 k v) !! f =
  if decide (f = k) then match v with Some x => Some x | None => d !! f end
  else d !! f.
Proof.
  intros Hk. unfold mix. rewrite mixable_obj1 by done.
  rewrite lookup_union. unfold obj1. destruct v as [x|].
  - destruct (decide (f = k)) as [->|Hne].
    + rewrite lookup_singleton_eq. by destruct (d !! k).
    + rewrite lookup_singleton_ne by done. by destruct (d !! f).
  - rewrite lookup_empty. destruct (decide (f = k)); by destruct (d !! f).
Qed.

(** [_setConfig] for a key other than ['element']. *)
Lemma _setConfig_section key config c :
  key <> G2Config.Kelement ->
  _setConfig key config c =
  if is_false (Some config) then Ok (G2Config.set_section key (VBool false) c)
  else v ← assign (G2Config.section key c)
             (match config with VObj m => m | _ => ∅ end);
       Ok (G2Config.set_section key v c).
Proof. by destruct key. Qed.

(** Merging an object into a section that is an object. *)
Lemma _setConfig_merge key (o m : obj) c :
  key <> G2Config.Kelement ->
  G2Config.section key c = VObj m ->
  _setConfig key (VObj o) c = Ok (G2Config.set_section key (VObj (mix m o)) c).
Proof.
  intros Hk Hm. rewrite _setConfig_section by done. simpl. by rewrite Hm.
Qed.

Lemma section_set_section key v c :
  key <> G2Config.Kelement ->
  G2Config.section key (G2Config.set_section key v c) = v.
Proof. by destruct key. Qed.

Lemma set_section_twice key v w c :
  G2Config.set_section key w (G2Config.set_section key v c) =
  G2Config.set_section key w c.
Proof. by destruct key. Qed.

Lemma section_set_other key key' v c :
  key <> key' ->
  G2Config.section key' (G2Config.set_section key v c) = G2Config.section key' c.
Proof. by destruct key, key'. Qed.

(** [_setConfig] writes one section only (or the element list). *)
Lemma _setConfig_other key key' config c c' :
  _setConfig key config c = Ok c' -> key <> key' -> key' <> G2Config.Kelement ->
  G2Config.section key' c' = G2Config.section key' c.
Proof.
  intros Hs Hk Hk'.
  assert (Hd : key = G2Config.Kelement \/ key <> G2Config.Kelement)
    by (destruct key; (by left) || (by right)).
  destruct Hd as [->|Hne].
  - injection Hs as <-. by destruct key'.
  - rewrite _setConfig_section in Hs by done.
    destruct (is_false _); [|bind_in Hs v Hv]; injection Hs as <-;
      by apply section_set_other.
Qed.

(** X11.  [_setConfig(key, false)] switches a section off for the rest of
    the epoch: it always succeeds and leaves [false] in the section; on a
    section that holds [false] no later [_setConfig] succeeds with anything
    but [false] in it, and one that has a defined property to merge raises a
    [TypeError], the property being written on a primitive. *)
Theorem X11_switched_off_section_stays_off (key : G2Config.key) (c : G2Config.t) :
  key <> G2Config.Kelement ->
  (exists c1, _setConfig key (VBool false) c = Ok c1 /\
     G2Config.section key c1 = VBool false) /\
  (forall config c', G2Config.section key c = VBool false ->
     _setConfig key config c = Ok c' -> G2Config.section key c' = VBool false) /\
  (forall (o : obj) k v, G2Config.section key c = VBool false ->
     o !! k = Some v -> k <> "constructor" ->
     _setConfig key (VObj o) c =
     Err (TypeError "Cannot create property on a primitive")).
Proof.
  intros Hk. split; [|split].
  - eexists. split; [by rewrite _setConfig_section|].
    by apply section_set_section.
  - intros config c' Hoff Hs. rewrite _setConfig_section, Hoff in Hs by done.
    destruct (is_false (Some config)).
    + injection Hs as <-. by apply section_set_section.
    + unfold assign in Hs. destruct (decide _); [|discriminate].
      injection Hs as <-. by apply section_set_section.
  - intros o k v Hoff Ho Hc.
    assert (Hne : mixable o <> ∅).
    { intros He. assert (Hl : mixable o !! k = Some v)
        by (by apply map_lookup_filter_Some).
      rewrite He, lookup_empty in Hl. discriminate. }
    rewrite _setConfig_section, Hoff by done. simpl.
    unfold assign. by destruct (decide _).
Qed.

Lemma _legend_off s (l : obj) :
  _initialProps s !! "legend" = Some (VObj l) ->
  l !! "visible" = Some (VBool false) ->
  _legend s =
  Ok (set_config (G2Config.set_section G2Config.Klegends (VBool false) (_config s)) s).
Proof.
  intros Hl Hv. unfold _legend. rewrite Hl. simpl. rewrite Hv. reflexivity.
Qed.

(** X8.  With [legend.visible === false], [_legend] sets the legends
    section to [false] and changes nothing else, and after a whole [_init]
    the section is still [false]: no option of the legend is merged. *)
Theorem X8_legend_switch_off (s : BasePlot) (l : obj) :
  _initialProps s !! "legend" = Some (VObj l) ->
  l !! "visible" = Some (VBool false) ->
  _legend s =
    Ok (set_config
          (G2Config.set_section G2Config.Klegends (VBool false) (_config s)) s) /\
  (forall s', _init s = Ok s' -> G2Config.legends (_config s') = VBool false).
Proof.
  intros Hl Hv. split; [by apply (_legend_off s l)|].
  intros s' Hi. unfold _init in Hi. bind_in Hi sm Hlay. destruct sm as [s1 m].
  bind_in Hi s2 Hsec.
  apply _init_layout_frame in Hlay as (St & _).
  assert (Hp : _initialProps s1 = _initialProps s)
    by (unfold stable in St; congruence).
  assert (Hleg : G2Config.legends (_config s2) = VBool false).
  { unfold _init_sections in Hsec.
    bind_in Hsec a Ha. bind_in Hsec b Hb. bind_in Hsec c Hc. injection Hsec as <-.
    apply _tooltip_frame in Ha as (Sa & _).
    assert (Hpa : _initialProps a = _initialProps s).
    { unfold stable in Sa. simpl in Sa. congruence. }
    rewrite (_legend_off a l) in Hb by (rewrite ?Hpa; done). injection Hb as <-.
    apply (_setConfig_other _ G2Config.Klegends) in Hc; [|done|done].
    simpl in *. by rewrite Hc. }
  unfold _init_view in Hi. erewrite _events_bound in Hi by reflexivity.
  injection Hi as <-. simpl. exact Hleg.
Qed.

(** The entries of a section after the merges of [_legend] or [_tooltip]. *)
Ltac options_by_key k :=
  repeat (destruct (decide (k = _)) as [->|?];
          [rewrite bool_decide_eq_true_2 by (repeat constructor);
           cbv [String.append]; repeat (case_match; try done)|]);
  rewrite bool_decide_eq_false_2; [done|];
  rewrite !not_elem_of_cons; repeat split; try done; apply not_elem_of_nil.

(** X9.  Unless the legend is switched off, [_legend] succeeds on a legends
    section that is an object and merges the five options [position],
    [formatter], [offsetX], [offsetY] and [flipPage] of [props.legend] into
    it: an option that is defined replaces the entry of the section, an
    option left out keeps it (so the legend position of the theme stays the
    default), and no other entry changes. *)
Theorem X9_legend_options (s : BasePlot) (m : obj) :
  G2Config.legends (_config s) = VObj m ->
  truthy (_initialProps s !! "legend")
    && is_false (field (_initialProps s !! "legend") "visible") = false ->
  exists m',
    _legend s =
      Ok (set_config
            (G2Config.set_section G2Config.Klegends (VObj m') (_config s)) s) /\
    forall k, m' !! k = with_options "legend" legend_options (_initialProps s) m k.
Proof.
  intros Hm Hoff. unfold _legend. rewrite Hoff.
  rewrite (_setConfig_merge G2Config.Klegends _ m) by done.
  cbn [mbind result_bind].
  do 4 (erewrite (_setConfig_merge G2Config.Klegends)
          by (done || apply section_set_section; done);
        cbn [mbind result_bind]; rewrite set_section_twice).
  eexists. split; [reflexivity|].
  intros k. rewrite !lookup_mix_obj1 by done.
  unfold with_options, legend_options. options_by_key k.
Qed.

(** X10.  Unless the tooltip is switched off, [_tooltip] succeeds on a
    tooltip section that is an object and merges the options [crosshairs]
    and [shared] of [props.tooltip] into it where they are defined, every
    other entry (the defaults [showTitle], [triggerOn], [inPanel] and
    [useHtml] among them) staying as it is; the tooltip block of the theme
    loses no key, and every entry of [props.tooltip.style] that is not a
    plain object is written into it. *)
Theorem X10_tooltip_options (s : BasePlot) (m : obj) :
  G2Config.tooltip (_config s) = VObj m ->
  truthy (_initialProps s !! "tooltip")
    && is_false (field (_initialProps s !! "tooltip") "visible") = false ->
  exists m' s',
    _tooltip s = Ok s' /\
    G2Config.tooltip (_config s') = VObj m' /\
    (forall k, m' !! k = with_options "tooltip" tooltip_options (_initialProps s) m k) /\
    (forall k, is_Some (Theme.tooltip (theme s) !! k) ->
               is_Some (Theme.tooltip (theme s') !! k)) /\
    (forall k v, field (field (_initialProps s !! "tooltip") "style") k = Some v ->
                 (forall o, v <> VObj o) ->
                 Theme.tooltip (theme s') !! k = Some v).
Proof.
  intros Hm Hoff. unfold _tooltip. rewrite Hoff.
  rewrite (_setConfig_merge G2Config.Ktooltip _ m) by done.
  cbn [mbind result_bind].
  erewrite (_setConfig_merge G2Config.Ktooltip)
    by (done || apply section_set_section; done).
  cbn [mbind result_bind]. rewrite set_section_twice.
  assert (Hk : forall k,
    mix (mix m (obj1 "crosshairs"
                  (get (Some (VObj (_initialProps s))) "tooltip.crosshairs")))
        (obj1 "shared" (get (Some (VObj (_initialProps s))) "tooltip.shared")) !! k
    = with_options "tooltip" tooltip_options (_initialProps s) m k).
  { intros k. rewrite !lookup_mix_obj1 by done.
    unfold with_options, tooltip_options. options_by_key k. }
  destruct (truthy (_initialProps s !! "tooltip")
            && truthy (field (_initialProps s !! "tooltip") "style")) eqn:Hst.
  - eexists _, _. split; [reflexivity|]. simpl. split; [reflexivity|].
    split; [exact Hk|].
    destruct (field (_initialProps s !! "tooltip") "style") as [[| | | | | |st]|] eqn:Hs;
      simpl; try (split; [done|intros k v [=]]).
    split.
    + intros k [d Hd]. unfold deepMix. rewrite JSFacts.lookup_deepMix_at, Hd.
      destruct (st !! k) as [[]|]; simpl; eauto.
    + intros k v Hv Ho. unfold deepMix. rewrite JSFacts.lookup_deepMix_at, Hv.
      destruct v; simpl; try done. by destruct (Ho m0).
  - eexists _, _. split; [reflexivity|]. simpl. split; [reflexivity|].
    split; [exact Hk|]. split; [done|].
    intros k v Hv Ho. exfalso.
    destruct (_initialProps s !! "tooltip") as [[| | | | | |t]|]; try discriminate.
    simpl in *. destruct (t !! "style") as [[| | | | | |st]|]; discriminate.
Qed.

Lemma _tooltip_scales s s' :
  _tooltip s = Ok s' -> G2Config.scales (_config s') = G2Config.scales (_config s).
Proof.
  unfold _tooltip. intros H1.
  repeat case_match; repeat bind_inv H1; simplify_eq; simpl;
    repeat match goal with
           | E : _setConfig _ _ _ = Ok _ |- _ =>
               apply (_setConfig_other _ G2Config.Kscales) in E; [|done|done]
           end; simpl in *; congruence.
Qed.

Lemma _legend_scales s s' :
  _legend s = Ok s' -> G2Config.scales (_config s') = G2Config.scales (_config s).
Proof.
  unfold _legend. intros H1.
  repeat case_match; repeat bind_inv H1; simplify_eq; simpl;
    repeat match goal with
           | E : _setConfig _ _ _ = Ok _ |- _ =>
               apply (_setConfig_other _ G2Config.Kscales) in E; [|done|done]
           end; simpl in *; congruence.
Qed.

(** X17.  For a field whose name has no dot (and is not ['constructor']),
    the scale that the sections of [_init] assemble is the scale of the
    variant where [props.meta] has no entry for the field, and otherwise that
    scale overridden key by key by the entry: a key of the entry wins, a key
    the entry lacks keeps the value of the variant. *)
Theorem X17_meta_overrides_variant_scale (s s' : BasePlot) (scales : obj)
    (f : string) (sc : value) :
  _init_sections s = Ok s' ->
  variant_scales s = VObj scales ->
  scales !! f = Some sc ->
  undotted f -> f <> "constructor" ->
  exists r,
    field (Some (G2Config.scales (_config s'))) f = Some r /\
    (truthy (field (_initialProps s !! "meta") f) = false -> r = sc) /\
    (forall so mt, sc = VObj so ->
       field (_initialProps s !! "meta") f = Some (VObj mt) ->
       exists ro, r = VObj ro /\
         forall k, k <> "constructor" ->
           ro !! k = match mt !! k with Some v => Some v | None => so !! k end).
Proof.
  intros Hi Hvs Hsc Hf Hc. unfold _init_sections in Hi.
  bind_in Hi a Ha. bind_in Hi b Hb. bind_in Hi c Hcfg. injection Hi as <-.
  apply _tooltip_scales in Ha. apply _legend_scales in Hb.
  simpl in Ha. rewrite <- Hb in Ha. clear Hb.
  change (_scale _ _ _) with (variant_scales s) in Ha. rewrite Hvs in Ha.
  simpl in Hcfg. rewrite Ha in Hcfg.
  unfold assign in Hcfg. cbn [mbind result_bind] in Hcfg.
  injection Hcfg as <-. cbn [set_config _config G2Config.scales field].
  rewrite JSFacts.lookup_mix by done.
  change (mapValues (with_meta (_initialProps s)) scales)
    with (scales_with_meta (_initialProps s) (VObj scales)).
  rewrite lookup_scales_with_meta, Hsc. simpl.
  eexists. split; [reflexivity|]. split.
  - intros Hm. by apply with_meta_absent.
  - intros so mt -> Hm. rewrite (with_meta_undotted _ so mt) by done.
    eexists. split; [reflexivity|]. intros k Hk.
    unfold assign3. rewrite !JSFacts.lookup_mix by done.
    rewrite lookup_empty. by destruct (mt !! k), (so !! k).
Qed.

End SectionMerges.

(** ** The event binder *)

Section Binder.
Context {collaborators : Collaborators} {variant : Variant}.

Lemma elem_of_bindings_of (l : list (string * value)) t h :
  (t, h) ∈ bindings_of l <-> exists k, (k, VFun h) ∈ l /\ t = event_name k h.
Proof.
  induction l as [|[k e] l IH]; simpl.
  - split; [by intros ?%elem_of_nil|]. intros (k & Hk%elem_of_nil & _). done.
  - assert (Hskip : (forall f, e <> VFun f) ->
      ((t, h) ∈ bindings_of l <->
       exists k0, (k0, VFun h) ∈ (k, e) :: l /\ t = event_name k0 h)).
    { intros He. rewrite IH. split; intros (k0 & Hk0 & Ht); exists k0.
      - split; [by apply list_elem_of_further|done].
      - split; [|exact Ht]. apply elem_of_cons in Hk0 as [Heq|Hin]; [|exact Hin].
        injection Heq as -> <-. by destruct (He h). }
    destruct e; try (apply Hskip; discriminate).
    rewrite elem_of_cons, IH. split.
    + intros [Heq|(k0 & Hk0 & Ht)].
      * injection Heq as -> ->. exists k.
        split; [apply list_elem_of_here|reflexivity].
      * exists k0. split; [by apply list_elem_of_further|exact Ht].
    + intros (k0 & Hk0 & Ht). apply elem_of_cons in Hk0 as [Heq|Hk0].
      * injection Heq as -> ->. left. by rewrite Ht.
      * right. by exists k0.
Qed.

(** X12.  On an instance with a view, [_events] cannot fail; it registers
    on the view, and records in [eventHandlers], exactly the function-valued
    entries of [props.events], each under the event that [EVENT_MAP] gives
    for the name of the function, or under its own key where the map has
    none; entries that are not functions are passed over, and without an
    [events] object nothing is bound. *)
Theorem X12_events_bind_functions (s : BasePlot) (v : View.t) :
  plot s = Some v ->
  exists bs,
    _events s =
      Ok (set_eventHandlers (eventHandlers s ++ (record_of <$> bs))
            (set_plot (Some (View.set_listeners (View.listeners v ++ bs) v)) s)) /\
    forall t h,
      (t, h) ∈ bs <->
      exists (events : obj) k,
        _initialProps s !! "events" = Some (VObj events) /\
        events !! k = Some (VFun h) /\ t = event_name k h.
Proof.
  intros Hv. exists (epoch_bindings (_initialProps s)).
  split; [by apply _events_bound|].
  intros t h. unfold epoch_bindings.
  destruct (_initialProps s !! "events") as [[| | | | | |events]|] eqn:He;
    try (split; [by intros ?%elem_of_nil|by intros (? & ? & [=] & _)]).
  rewrite elem_of_bindings_of. split.
  - intros (k & Hk%elem_of_map_to_list & Ht). by exists events, k.
  - intros (ev & k & [= <-] & Hk & Ht). exists k. split; [|done].
    by apply elem_of_map_to_list.
Qed.

End Binder.

(** ** Title and description *)

Section Chrome.
Context {collaborators : Collaborators} {variant : Variant}.

Lemma num_prop_Ok (m : obj) k q : num_prop m k = Ok q -> m !! k = Some (VNum q).
Proof.
  unfold num_prop. destruct (m !! k) as [[]|]; try discriminate.
  by intros [= ->].
Qed.

Lemma member_truthy v k : truthy v = true -> member v k = Ok (field v k).
Proof. by destruct v as [[]|]. Qed.

(** X14.  With a concrete padding [[top, right, bottom, left]], a title and
    a description, the first part of [_init] creates both blocks at the left
    edge of the panel and as wide as the panel; the title at the top margin
    of the theme's title block, the description below the measured box of
    the title by the top margin of the theme's description block; both take
    [alignWithAxis] from [props.title], the default of the theme never being
    used. *)
Theorem X14_chrome_layout (s s' : BasePlot) (m : Margin.t) (t r b l : Q) :
  _initialProps s !! "padding" = Some (padding_tuple (t, r, b, l)) ->
  truthy (_initialProps s !! "title") = true ->
  truthy (_initialProps s !! "description") = true ->
  _init_layout s = Ok (s', m) ->
  let w := CanvasController.width (canvasController s) in
  let align := field (_initialProps s !! "title") "alignWithAxis" in
  exists T D tm dm,
    Theme.title (theme s) !! "top_margin" = Some (VNum tm) /\
    Theme.description (theme s) !! "top_margin" = Some (VNum dm) /\
    title s' = Some T /\ description s' = Some D /\
    TextDescription.leftMargin T = l /\
    TextDescription.wrapperWidth T = (w - l - r)%Q /\
    TextDescription.topMargin T = tm /\
    TextDescription.alignWithAxis T = align /\
    TextDescription.leftMargin D = l /\
    TextDescription.wrapperWidth D = (w - l - r)%Q /\
    TextDescription.topMargin D =
      (BBox.minY (getBBox T) + BBox.height (getBBox T) + dm)%Q /\
    TextDescription.alignWithAxis D = align.
Proof.
  intros Hp Ht Hd Hl w align. subst w align. unfold _init_layout in Hl.
  bind_in Hl rg Hr. bind_in Hl a Ha. bind_in Hl d Hdd. bind_in Hl vm Hvm.
  injection Hl as <- <-.
  assert (Hrg : rg = BBox.new l t
                  (CanvasController.width (canvasController s) - l - r)%Q
                  (CanvasController.height (canvasController s) - t - b)%Q).
  { unfold _getPanelRange, _getPadding, effective_padding in Hr. simpl in Hr.
    replace (_initialProps _) with (_initialProps s) in Hr
      by (by destruct (truthy _ && truthy _)).
    rewrite Hp in Hr. simpl in Hr.
    destruct (truthy _ && truthy _); simpl in Hr; by injection Hr as <-. }
  unfold _title in Ha. simpl in Ha.
  replace (_initialProps _) with (_initialProps s) in Ha
    by (by destruct (truthy _ && truthy _)).
  replace (theme _) with (theme s) in Ha
    by (by destruct (truthy _ && truthy _)).
  rewrite Ht in Ha. bind_in Ha tm Htm. injection Ha as <-.
  unfold _description in Hdd. simpl in Hdd.
  replace (_initialProps _) with (_initialProps s) in Hdd
    by (by destruct (truthy _ && truthy _)).
  rewrite Hd in Hdd. rewrite member_truthy in Hdd by done.
  cbn [mbind result_bind] in Hdd. bind_in Hdd dm Hdm. injection Hdd as <-.
  simpl in Hdm. apply num_prop_Ok in Htm, Hdm.
  eexists _, _, tm, dm. split; [exact Htm|]. split; [exact Hdm|].
  split; [reflexivity|]. split; [reflexivity|]. rewrite Hrg. simpl.
  repeat split; reflexivity.
Qed.

End Chrome.

Lemma Qmin_cases a b : Qmin a b = a \/ Qmin a b = b.
Proof. unfold Qmin, GenericMinMax.gmin. destruct (a ?= b)%Q; auto. Qed.

Lemma Qmax_cases a b : Qmax a b = a \/ Qmax a b = b.
Proof. unfold Qmax, GenericMinMax.gmax. destruct (a ?= b)%Q; auto. Qed.

(** X15.  Whenever a title or a description exists, the view margin
    encloses each of their boxes on the left, on the right and at the top,
    and each of these three bounds is the bound of one of the boxes: they are
    never clamped, whatever the height of the canvas and the bottom margin
    are. *)
Theorem X15_view_margin_encloses_chrome (titleBox descriptionBox : option BBox.t)
    (bottom_margin canvasHeight : Q) (box : BBox.t) :
  let boxes := option_list titleBox ++ option_list descriptionBox in
  box ∈ boxes ->
  let m := _getViewMargin titleBox descriptionBox bottom_margin canvasHeight in
  exists x0 x1 y0,
    Margin.minX m = Fin x0 /\ Margin.maxX m = Fin x1 /\ Margin.minY m = Fin y0 /\
    (x0 <= BBox.minX box)%Q /\ (BBox.maxX box <= x1)%Q /\ (y0 <= BBox.minY box)%Q /\
    x0 ∈ BBox.minX <$> boxes /\ x1 ∈ BBox.maxX <$> boxes /\
    y0 ∈ BBox.minY <$> boxes.
Proof.
  intros boxes Hin m. subst boxes m.
  destruct titleBox as [t|], descriptionBox as [d|]; simpl in *.
  - assert (Hm : exists y,
      _getViewMargin (Some t) (Some d) bottom_margin canvasHeight =
      {| Margin.minX := Fin (Qmin (BBox.minX d) (BBox.minX t));
         Margin.maxX := Fin (Qmax (BBox.maxX d) (BBox.maxX t));
         Margin.minY := Fin (Qmin (BBox.minY d) (BBox.minY t));
         Margin.maxY := y |}).
    { unfold _getViewMargin. simpl. destruct (Qle_bool _ _); eauto. }
    destruct Hm as [y ->]. simpl.
    eexists _, _, _. split; [reflexivity|]. split; [reflexivity|].
    split; [reflexivity|].
    assert (Hb : box = t \/ box = d).
    { apply elem_of_cons in Hin as [->|Hin]; [by left|].
      apply elem_of_cons in Hin as [->|Hin]; [by right|].
      by apply elem_of_nil in Hin. }
    split; [|split; [|split; [|split; [|split]]]].
    + destruct Hb as [-> | ->]; [apply Q.le_min_r|apply Q.le_min_l].
    + destruct Hb as [-> | ->]; [apply Q.le_max_r|apply Q.le_max_l].
    + destruct Hb as [-> | ->]; [apply Q.le_min_r|apply Q.le_min_l].
    + destruct (Qmin_cases (BBox.minX d) (BBox.minX t)) as [-> | ->];
        [apply list_elem_of_further|]; apply list_elem_of_here.
    + destruct (Qmax_cases (BBox.maxX d) (BBox.maxX t)) as [-> | ->];
        [apply list_elem_of_further|]; apply list_elem_of_here.
    + destruct (Qmin_cases (BBox.minY d) (BBox.minY t)) as [-> | ->];
        [apply list_elem_of_further|]; apply list_elem_of_here.
  - assert (Hm : exists y,
      _getViewMargin (Some t) None bottom_margin canvasHeight =
      {| Margin.minX := Fin (BBox.minX t); Margin.maxX := Fin (BBox.maxX t);
         Margin.minY := Fin (BBox.minY t); Margin.maxY := y |}).
    { unfold _getViewMargin. simpl. destruct (Qle_bool _ _); eauto. }
    destruct Hm as [y ->]. simpl.
    apply elem_of_cons in Hin as [->|Hin]; [|by apply elem_of_nil in Hin].
    eexists _, _, _. repeat split; try reflexivity; try apply Qle_refl;
      apply list_elem_of_here.
  - assert (Hm : exists y,
      _getViewMargin None (Some d) bottom_margin canvasHeight =
      {| Margin.minX := Fin (BBox.minX d); Margin.maxX := Fin (BBox.maxX d);
         Margin.minY := Fin (BBox.minY d); Margin.maxY := y |}).
    { unfold _getViewMargin. simpl. destruct (Qle_bool _ _); eauto. }
    destruct Hm as [y ->]. simpl.
    apply elem_of_cons in Hin as [->|Hin]; [|by apply elem_of_nil in Hin].
    eexists _, _, _. repeat split; try reflexivity; try apply Qle_refl;
      apply list_elem_of_here.
  - by apply elem_of_nil in Hin.
Qed.

(** ** What the class writes into the theme, and what it measures *)

Section ThemeWrites.
Context {collaborators : Collaborators} {variant : Variant}.

Lemma theme_extends_refl th : theme_extends th th.
Proof. by repeat split. Qed.

Lemma theme_extends_trans th1 th2 th3 :
  theme_extends th1 th2 -> theme_extends th2 th3 -> theme_extends th1 th3.
Proof.
  intros (A1 & A2 & A3 & A4 & A5 & A6 & A7) (B1 & B2 & B3 & B4 & B5 & B6 & B7).
  repeat split; try congruence; auto.
Qed.

Lemma mix_opt_keeps (d : obj) src k :
  is_Some (d !! k) -> is_Some (mix_opt d src !! k).
Proof.
  intros [x Hx]. destruct src as [[]|]; simpl; eauto.
  unfold mix. rewrite lookup_union, Hx.
  destruct (mixable m !! k); simpl; eauto.
Qed.

Lemma mix_opt_writes (d st : obj) k v :
  st !! k = Some v -> k <> "constructor" ->
  mix_opt d (Some (VObj st)) !! k = Some v.
Proof. intros Hs Hk. simpl. by rewrite JSFacts.lookup_mix, Hs. Qed.

Lemma deepMix_opt_keeps (d : obj) src k :
  is_Some (d !! k) -> is_Some (deepMix_opt d src !! k).
Proof.
  intros [x Hx]. destruct src as [[]|]; simpl; eauto.
  unfold deepMix. rewrite JSFacts.lookup_deepMix_at, Hx.
  destruct (m !! k) as [[]|]; simpl; eauto.
Qed.

(** What [_title] writes into the theme. *)
Lemma _title_theme r s s' :
  _title r s = Ok s' ->
  theme_extends (theme s) (theme s') /\
  Theme.description (theme s') = Theme.description (theme s) /\
  forall k v, field (field (_initialProps s !! "title") "style") k = Some v ->
    k <> "constructor" -> Theme.title (theme s') !! k = Some v.
Proof.
  unfold _title. intros Ht. simpl in Ht.
  destruct (truthy (_initialProps s !! "title")) eqn:E.
  - bind_in Ht q Hq. injection Ht as <-. simpl. split; [|split; [done|]].
    + repeat split; try done. simpl. intros k. apply mix_opt_keeps.
    + intros k v Hs Hk.
      destruct (field (_initialProps s !! "title") "style") as [[| | | | | |st]|];
        try discriminate. by apply mix_opt_writes.
  - injection Ht as <-. simpl. split; [apply theme_extends_refl|].
    split; [done|]. intros k v Hs.
    destruct (_initialProps s !! "title") as [[| | | | | |t]|]; discriminate.
Qed.

Lemma _description_theme r s s' :
  _description r s = Ok s' ->
  theme_extends (theme s) (theme s') /\
  Theme.title (theme s') = Theme.title (theme s) /\
  forall k v, field (field (_initialProps s !! "description") "style") k = Some v ->
    k <> "constructor" -> Theme.description (theme s') !! k = Some v.
Proof.
  unfold _description. intros Hd. simpl in Hd.
  destruct (truthy (_initialProps s !! "description")) eqn:E.
  - bind_in Hd a Ha. bind_in Hd q Hq. injection Hd as <-. simpl.
    split; [|split; [done|]].
    + repeat split; try done. simpl. intros k. apply mix_opt_keeps.
    + intros k v Hs Hk.
      destruct (field (_initialProps s !! "description") "style")
        as [[| | | | | |st]|]; try discriminate. by apply mix_opt_writes.
  - injection Hd as <-. simpl. split; [apply theme_extends_refl|].
    split; [done|]. intros k v Hs.
    destruct (_initialProps s !! "description") as [[| | | | | |t]|]; discriminate.
Qed.

Lemma _tooltip_theme s s' :
  _tooltip s = Ok s' ->
  theme_extends (theme s) (theme s') /\
  Theme.title (theme s') = Theme.title (theme s) /\
  Theme.description (theme s') = Theme.description (theme s).
Proof.
  unfold _tooltip. intros Ht.
  destruct (truthy _ && is_false _).
  - bind_in Ht c Hc. injection Ht as <-. simpl.
    split; [apply theme_extends_refl|done].
  - bind_in Ht c Hc. bind_in Ht c' Hc'.
    destruct (truthy _ && truthy _); injection Ht as <-; simpl.
    + split; [|done]. repeat split; try done. simpl. intros k.
      apply deepMix_opt_keeps.
    + split; [apply theme_extends_refl|done].
Qed.

(** What a whole [_init] writes into the theme. *)
Lemma _init_theme s s' :
  _init s = Ok s' ->
  theme_extends (theme s) (theme s') /\
  (forall k v, field (field (_initialProps s' !! "title") "style") k = Some v ->
     k <> "constructor" -> Theme.title (theme s') !! k = Some v) /\
  (forall k v, field (field (_initialProps s' !! "description") "style") k = Some v ->
     k <> "constructor" -> Theme.description (theme s') !! k = Some v).
Proof.
  intros Hi. pose proof (_init_Ok _ _ Hi) as (St & _).
  apply stable_eq in St as (_ & Hp & _). rewrite Hp. clear Hp.
  unfold _init in Hi. bind_in Hi sm Hl. destruct sm as [s1 m]. bind_in Hi s2 Hs.
  unfold _init_layout in Hl.
  bind_in Hl rg Hr. bind_in Hl a Ha. bind_in Hl b Hb. bind_in Hl vm Hvm.
  injection Hl as <- <-.
  pose proof (_title_frame _ _ _ Ha) as (Sa & _).
  apply stable_eq in Sa as (_ & Hpa & _).
  apply _title_theme in Ha as (Ea & Da & Wa).
  apply _description_theme in Hb as (Eb & Tb & Wb).
  rewrite Hpa in Wb.
  assert (H0 : forall x : BasePlot,
    (if truthy (Theme.backgroundStyle (theme s))
        && truthy (field (Theme.backgroundStyle (theme s)) "fill")
     then set_canvasController
            (CanvasController.set_backgroundColor
               (field (Theme.backgroundStyle (theme s)) "fill")
               (canvasController (set_config (initial_config (theme s)) s)))
            (set_config (initial_config (theme s)) s)
     else set_config (initial_config (theme s)) s) = x ->
    theme x = theme s /\ _initialProps x = _initialProps s).
  { intros x <-. by destruct (truthy _ && truthy _). }
  simpl in Ea, Wa, Wb.
  match type of Ea with theme_extends (theme ?x) _ =>
    destruct (H0 x eq_refl) as [Hth0 Hp0] end.
  rewrite Hth0 in Ea. rewrite Hp0 in Wa, Wb. clear H0 Hth0 Hp0.
  unfold _init_sections in Hs.
  bind_in Hs c Hc. bind_in Hs d Hd. bind_in Hs e He. injection Hs as <-.
  apply _tooltip_theme in Hc as (Ec & Tc & Dc). simpl in Ec, Tc, Dc.
  apply _legend_frame in Hd as (_ & _ & _ & _ & _ & Hthd & _).
  unfold _init_view in Hi. erewrite _events_bound in Hi by reflexivity.
  injection Hi as <-. simpl. rewrite Hthd.
  split; [|split].
  - eapply theme_extends_trans; [exact Ea|].
    eapply theme_extends_trans; [exact Eb|exact Ec].
  - intros k v Hk Hne. rewrite Tc, Tb. by apply Wa.
  - intros k v Hk Hne. rewrite Dc. by apply Wb.
Qed.

Lemma unbind_theme s s1 : unbind s = Ok s1 -> theme s1 = theme s.
Proof.
  unfold unbind. destruct (eventHandlers s); [by intros [= <-]|].
  intros Hu. bind_in Hu v Hv. injection Hu as <-. by destruct s.
Qed.

Lemma rebuild_theme cfg s s' :
  rebuild cfg s = Ok s' ->
  theme_extends (theme s) (theme s') /\
  (forall k v, field (field (_initialProps s' !! "title") "style") k = Some v ->
     k <> "constructor" -> Theme.title (theme s') !! k = Some v) /\
  (forall k v, field (field (_initialProps s' !! "description") "style") k = Some v ->
     k <> "constructor" -> Theme.description (theme s') !! k = Some v).
Proof.
  unfold rebuild. intros Hr. bind_in Hr s1 Hu. bind_in Hr v Hv.
  apply unbind_theme in Hu.
  apply _init_theme in Hr as (He & Ht & Hd). simpl in He.
  rewrite Hu in He. split; [exact He|]. split; [exact Ht|exact Hd].
Qed.

(** X18.  The class writes into the theme in place and never takes
    anything back: across a successful [updateConfig] the scalar fields of
    the theme stay as they are and its title, description and tooltip blocks
    lose no key, and every entry of the [style] of the title, and of the
    description, of the new working configuration is in the corresponding
    block of the theme afterwards. *)
Theorem X18_theme_written_in_place (fuel : nat) (cfg : obj) (s s' : BasePlot) :
  updateConfig fuel cfg s = Ok s' ->
  theme_extends (theme s) (theme s') /\
  (forall k v, field (field (_initialProps s' !! "title") "style") k = Some v ->
     k <> "constructor" -> Theme.title (theme s') !! k = Some v) /\
  (forall k v, field (field (_initialProps s' !! "description") "style") k = Some v ->
     k <> "constructor" -> Theme.description (theme s') !! k = Some v).
Proof.
  intros Hu. destruct fuel as [|n]; [discriminate|]. simpl in Hu.
  bind_in Hu s1 Hr. apply rebuild_theme in Hr as (E1 & T1 & D1).
  unfold _afterInit in Hu. destruct (is_str _ _).
  - bind_in Hu v Hv. destruct n as [|n]; [discriminate|].
    rewrite updateConfig_measured in Hu.
    apply rebuild_theme in Hu as (E2 & T2 & D2). simpl in E2.
    split; [by eapply theme_extends_trans|]. split; [exact T2|exact D2].
  - injection Hu as <-. split; [exact E1|]. split; [exact T1|exact D1].
Qed.

(** *** The measurement of the padding *)


End ThemeWrites.

(** ** The example instances *)

#[local] Existing Instance Demo.collaborators.
#[local] Existing Instance Demo.plain.

Lemma auto_instance_built :
  construct 1 Demo.theme Demo.auto_config
  = Ok Demo.auto_instance.
Proof. vm_compute. reflexivity. Qed.

Lemma fixed_instance_built :
  construct 1 Demo.theme Demo.fixed_config
  = Ok Demo.fixed_instance.
Proof. vm_compute. reflexivity. Qed.

Lemma tooltip_off_instance_built :
  _init (pristine Demo.theme Demo.tooltip_off)
  = Ok Demo.tooltip_off_instance.
Proof. vm_compute. reflexivity. Qed.

(** The scenario of the specification: with [padding: [10, 10, 10, 10]] and
    a title, the panel range starts at [(10, 10)] and the title block has
    left margin 10 and the top margin of the theme. *)
Example fixed_instance_layout :
  (BBox.minX <$> G2Config.panelRange (_config Demo.fixed_instance),
   BBox.minY <$> G2Config.panelRange (_config Demo.fixed_instance),
   TextDescription.leftMargin <$> title Demo.fixed_instance,
   TextDescription.topMargin <$> title Demo.fixed_instance)
  = (Some 10%Q, Some 10%Q, Some 10%Q, Some 10%Q).
Proof. vm_compute. reflexivity. Qed.

Example auto_instance_destroyed :
  (fun s => (destroyed s, View.listeners <$> plot s, View.listeners <$> retired s,
             length (eventHandlers s)))
    <$> destroy Demo.auto_instance
  = Ok (true, Some [], [[]], 4).
Proof. vm_compute. reflexivity. Qed.

Example auto_instance_updated :
  (fun s => (View.listeners <$> plot s, View.listeners <$> retired s))
    <$> updateConfig 2 Demo.legend_left
          Demo.auto_instance
  = Ok (Some [("click", Demo.onPlotClick); ("mouseenter", Demo.onHover)],
        [[]; []; []]).
Proof. vm_compute. reflexivity. Qed.

(** A style override written into the theme outlives the epoch that wrote
    it: after [{ tooltip: { style } }] and the update
    [{ tooltip: { visible: false } }] the tooltip block of the theme still
    has the style, which a construction from the merged configuration never
    writes. *)
Example theme_override_outlives_update :
  (Theme.tooltip <$> (theme <$>
     (construct 1 Demo.theme Demo.styled_tooltip
      ≫= updateConfig 2 Demo.hide_tooltip)),
   Theme.tooltip <$> (theme <$>
     construct 1 Demo.theme
       (deepMix3 Demo.styled_tooltip Demo.hide_tooltip)))
  = (Ok (<["opacity" := VNum 1]> ∅), Ok ∅).
Proof. vm_compute. reflexivity. Qed.

(** ** Witnesses *)




(** C4 for [{ tooltip: { visible: false, style: { opacity: 1 } } }]. *)
Lemma C4_witness :
  _initialProps (pristine Demo.theme Demo.tooltip_off) !! "tooltip"
    = Some (VObj Demo.tooltip_section) /\
  Demo.tooltip_section !! "visible" = Some (VBool false) /\
  G2Config.tooltip (_config Demo.tooltip_off_instance) = VBool false /\
  Theme.tooltip (theme Demo.tooltip_off_instance) = Theme.tooltip Demo.theme.
Proof.
  assert (H1 : _initialProps (pristine Demo.theme Demo.tooltip_off) !! "tooltip"
               = Some (VObj Demo.tooltip_section)) by (vm_compute; reflexivity).
  assert (H2 : Demo.tooltip_section !! "visible" = Some (VBool false))
    by (vm_compute; reflexivity).
  exact (conj H1 (conj H2
           (proj2 (@C4_tooltip_switch_off Demo.collaborators Demo.plain
                     (pristine Demo.theme Demo.tooltip_off) Demo.tooltip_section
                     H1 H2)
              Demo.tooltip_off_instance tooltip_off_instance_built))).
Defined.

(** C5 for [padding: [10, 10, 10, 10]]. *)
Lemma C5_witness :
  _initialProps (pristine Demo.theme Demo.fixed_config) !! "padding"
    = Some (padding_tuple (10, 10, 10, 10)%Q) /\
  _getPadding (pristine Demo.theme Demo.fixed_config)
    = Some (padding_tuple (10, 10, 10, 10)%Q).
Proof.
  assert (H1 : _initialProps (pristine Demo.theme Demo.fixed_config) !! "padding"
               = Some (padding_tuple (10, 10, 10, 10)%Q))
    by (vm_compute; reflexivity).
  exact (conj H1 (proj1 (C5_panel_range (pristine Demo.theme Demo.fixed_config)
                           10 10 10 10 H1))).
Defined.

(** C7, amended, on an instance without data. *)
Lemma C7_witness :
  isEmpty (_initialProps Demo.empty_instance !! "data") = true /\
  render (set_destroyed true Demo.empty_instance)
    = Ok (set_destroyed true Demo.empty_instance).
Proof.
  assert (H1 : isEmpty (_initialProps Demo.empty_instance !! "data") = true)
    by (vm_compute; reflexivity).
  exact (conj H1 (proj2 (proj2 (@C7_no_lifecycle_guard Demo.collaborators
                                  Demo.plain Demo.empty_instance)) H1)).
Defined.


(** C9 for [{ description: { text: 'D' } }] without a title. *)
Lemma C9_witness :
  truthy (Demo.description_only !! "description") = true /\
  Demo.description_only !! "title" = None /\
  construct 1 Demo.theme Demo.description_only
    = Err (TypeError "Cannot read property 'alignWithAxis' of undefined").
Proof.
  assert (H1 : truthy (Demo.description_only !! "description") = true)
    by (vm_compute; reflexivity).
  assert (H2 : Demo.description_only !! "title" = None)
    by (vm_compute; reflexivity).
  assert (H3 : is_Ok (_getPanelRange (pristine Demo.theme Demo.description_only))).
  { exists (BBox.new 10 10 (400 - 10 - 10) (300 - 10 - 10)).
    vm_compute. reflexivity. }
  exact (conj H1 (conj H2
           (proj1 (proj2 (@C9_description_requires_title Demo.collaborators
                            Demo.plain Demo.theme Demo.description_only 1 H1 H2))
              H3))).
Defined.

(** C10 for a configuration that leaves the padding to the theme, whose
    default is ['auto']. *)
Lemma C10_witness :
  is_str "auto" (effective_padding Demo.bare_config Demo.theme) = true /\
  construct 3 Demo.theme Demo.bare_config
    = construct 1 Demo.theme Demo.bare_config /\
  proper (construct 3 Demo.theme Demo.bare_config).
Proof.
  assert (H1 : is_str "auto" (effective_padding Demo.bare_config Demo.theme)
               = true) by (vm_compute; reflexivity).
  destruct (@C10_auto_padding_one_reinit Demo.collaborators Demo.plain
              Demo.theme Demo.bare_config 2 H1) as (Hf & Hp & _).
  exact (conj H1 (conj Hf Hp)).
Defined.

(** ** Counterexamples *)

(** C7 as stated fails: on the destroyed instance without data, [render]
    returns normally and changes nothing. *)
Lemma C7_render_after_destroy_returns :
  (destroyed <$> destroy Demo.empty_instance = Ok true) /\
  (destroy Demo.empty_instance ≫= render) = destroy Demo.empty_instance /\
  is_Ok (destroy Demo.empty_instance ≫= render).
Proof.
  split; [vm_compute; reflexivity|]. split; [vm_compute; reflexivity|].
  destruct (destroy Demo.empty_instance ≫= render) as [s|e] eqn:E.
  - by exists s.
  - vm_compute in E. discriminate E.
Qed.


(** ** A field name with a dot *)

(** C6 at the field [sepal.length]: [props.meta] has an entry under that
    name and the variant contributes a scale for it, but [_.get] reads the
    name as the path [sepal] then [length] and finds nothing, so the
    assembled scale is the scale of the variant, without the [alias] that
    the override by the entry would give it. *)
Theorem C6_dotted_field_meta_ignored :
  field (Demo.iris_props !! "meta") "sepal.length" = Some Demo.sepal_meta /\
  Demo.iris_scales !! "sepal.length" = Some Demo.sepal_scale /\
  get (Demo.iris_props !! "meta") "sepal.length" = None /\
  with_meta Demo.iris_props Demo.sepal_scale "sepal.length" = Demo.sepal_scale /\
  (fun s => field (Some (G2Config.scales (_config s))) "sepal.length")
    <$> @construct Demo.collaborators Demo.iris_variant 1 Demo.theme Demo.iris_config
    = Ok (Some Demo.sepal_scale) /\
  field (Some (VObj (mix_opt (mix_opt ∅ (Some Demo.sepal_scale))
                       (Some Demo.sepal_meta)))) "alias"
    = Some (VStr "Sepal length") /\
  field (Some Demo.sepal_scale) "alias" = None.
Proof. repeat split; vm_compute; reflexivity. Qed.

(** ** The further example instances *)


Lemma auto_relegend_built :
  updateConfig 2 Demo.legend_left Demo.auto_instance = Ok Cases.auto_relegend.
Proof. vm_compute. reflexivity. Qed.

Lemma auto_repadded_built :
  updateConfig 2 Cases.explicit_padding Demo.auto_instance = Ok Cases.auto_repadded.
Proof. vm_compute. reflexivity. Qed.


Lemma fixed_relegend_built :
  updateConfig 2 Demo.legend_left Demo.fixed_instance = Ok Cases.fixed_relegend.
Proof. vm_compute. reflexivity. Qed.

Lemma fixed_restyled_built :
  updateConfig 2 Cases.red_title Demo.fixed_instance = Ok Cases.fixed_restyled.
Proof. vm_compute. reflexivity. Qed.

Lemma fixed_emptied_built :
  changeData (VArr []) Demo.fixed_instance = Ok Cases.fixed_emptied.
Proof. vm_compute. reflexivity. Qed.

Lemma empty_filled_built :
  changeData Demo.data Demo.empty_instance = Ok Cases.empty_filled.
Proof. vm_compute. reflexivity. Qed.

Lemma legend_off_instance_built :
  _init (pristine Demo.theme Cases.legend_off) = Ok Cases.legend_off_instance.
Proof. vm_compute. reflexivity. Qed.

Lemma petal_sections_built :
  _init_sections (variant := Cases.petal_variant)
    (pristine Demo.theme Cases.petal_config)
  = Ok Cases.petal_sections.
Proof. vm_compute. reflexivity. Qed.

Lemma titled_layout_built :
  _init_layout (pristine Demo.theme Cases.titled)
  = Ok (Cases.titled_layout.1, Cases.titled_layout.2).
Proof. vm_compute. reflexivity. Qed.

Lemma petal_undotted : undotted "petal".
Proof.
  intros c Hc. simpl in Hc.
  repeat (destruct Hc as [<-|Hc]; [discriminate|]). destruct Hc.
Qed.

(** After the update [{ padding: [5, 5, 5, 5] }] of an instance constructed
    with [padding: 'auto'], the empty update measures the padding again. *)
Example explicit_padding_is_temporary :
  (final_padding Cases.auto_repadded,
   final_padding <$> updateConfig 2 ∅ Cases.auto_repadded)
  = (Some (padding_tuple (5, 5, 5, 5)%Q),
     Ok (Some (padding_tuple (20, 20, 48, 48)%Q))).
Proof. vm_compute. reflexivity. Qed.

(** Data handed to [changeData] on an instance configured with [data: []]
    is not drawn by [render()]. *)
Example changed_data_not_rendered :
  (fun s => View.renders <$> plot s) <$> render Cases.empty_filled
  = Ok (Some []).
Proof. vm_compute. reflexivity. Qed.

(** ** Witnesses of the further properties *)


(** X2 on the instance constructed from [Demo.auto_config]. *)
Lemma X2_witness :
  (construct 1 Demo.theme Demo.auto_config = Ok Demo.auto_instance \/
   updateConfig 1 ∅ Demo.auto_instance = Ok Demo.auto_instance) /\
  exists v, plot Demo.auto_instance = Some v /\ View.renders v = [] /\
    View.destroyed v = false.
Proof.
  exact (conj (or_introl auto_instance_built)
           (X2_epochs_start_unrendered 1 Demo.theme Demo.auto_config ∅
              Demo.auto_instance Demo.auto_instance
              (or_introl auto_instance_built))).
Defined.

(** X3 for an update of the legend on the auto-padded instance. *)
Lemma X3_witness :
  updateConfig 2 Demo.legend_left Demo.auto_instance = Ok Cases.auto_relegend /\
  exists old vs,
    plot Demo.auto_instance = Some old /\
    retired Cases.auto_relegend = vs ++ retired Demo.auto_instance /\
    Forall (fun v => View.destroyed v = true) vs /\
    View.renders <$> vs =
      if is_str "auto"
           (effective_padding (newProps Demo.legend_left Demo.auto_instance)
              (theme Demo.auto_instance))
      then [[Some false]; View.renders old]
      else [View.renders old].
Proof.
  exact (conj auto_relegend_built
           (X3_update_retires_views _ _ _ _ auto_relegend_built)).
Defined.

(** X4 after the update [{ padding: [5, 5, 5, 5] }] of the auto-padded
    instance. *)
Lemma X4_witness :
  updateConfig 2 Cases.explicit_padding Demo.auto_instance = Ok Cases.auto_repadded /\
  _originalProps Demo.auto_instance !! "padding" = Some (VStr "auto") /\
  final_padding Cases.auto_repadded = Some (padding_tuple (5, 5, 5, 5)%Q) /\
  newProps ∅ Cases.auto_repadded !! "padding" = Some (VStr "auto").
Proof.
  assert (H2 : _originalProps Demo.auto_instance !! "padding" = Some (VStr "auto"))
    by (vm_compute; reflexivity).
  assert (H3 : final_padding Cases.auto_repadded = Some (padding_tuple (5, 5, 5, 5)%Q))
    by (vm_compute; reflexivity).
  assert (H4 : truthy ((∅ : obj) !! "padding") = false) by reflexivity.
  exact (conj auto_repadded_built (conj H2 (conj H3
           (proj1 (proj2 (X4_original_padding_is_permanent _ _ _ _
                            auto_repadded_built H2) ∅ H4))))).
Defined.

(** X5 for an update of the legend on [Demo.fixed_instance]. *)
Lemma X5_witness :
  updateConfig 2 Demo.legend_left Demo.fixed_instance = Ok Cases.fixed_relegend /\
  (forall k, is_Some (_initialProps Demo.fixed_instance !! k) ->
             is_Some (_initialProps Cases.fixed_relegend !! k)) /\
  (forall k, k <> "padding" ->
     _initialProps Cases.fixed_relegend !! k =
     merged_entry (_initialProps Demo.fixed_instance !! k) (Demo.legend_left !! k)).
Proof.
  exact (conj fixed_relegend_built
           (X5_update_merges_keys _ _ _ _ fixed_relegend_built)).
Defined.

(** X6 for [changeData([])] on [Demo.fixed_instance]. *)
Lemma X6_witness :
  changeData (VArr []) Demo.fixed_instance = Ok Cases.fixed_emptied /\
  View.data <$> plot Cases.fixed_emptied = Some (Some (VArr [])) /\
  (forall n cfg,
     epoch <$> updateConfig n cfg Cases.fixed_emptied =
     epoch <$> updateConfig n cfg Demo.fixed_instance).
Proof.
  destruct (X6_changeData_is_transient _ _ _ fixed_emptied_built)
    as (_ & Hd & Hu & _).
  exact (conj fixed_emptied_built (conj Hd Hu)).
Defined.

(** X7 for [changeData(data)] on the instance configured with [data: []]. *)
Lemma X7_witness :
  changeData Demo.data Demo.empty_instance = Ok Cases.empty_filled /\
  render Cases.empty_filled =
  if isEmpty (_initialProps Demo.empty_instance !! "data")
  then Ok Cases.empty_filled
  else Ok (set_plot (View.render None <$> plot Cases.empty_filled)
             Cases.empty_filled).
Proof.
  exact (conj empty_filled_built
           (X7_render_reads_configured_data _ _ _ empty_filled_built)).
Defined.

(** X8 for [{ legend: { visible: false } }]. *)
Lemma X8_witness :
  _initialProps (pristine Demo.theme Cases.legend_off) !! "legend"
    = Some (VObj Cases.legend_hidden) /\
  Cases.legend_hidden !! "visible" = Some (VBool false) /\
  G2Config.legends (_config Cases.legend_off_instance) = VBool false.
Proof.
  assert (H1 : _initialProps (pristine Demo.theme Cases.legend_off) !! "legend"
               = Some (VObj Cases.legend_hidden)) by (vm_compute; reflexivity).
  assert (H2 : Cases.legend_hidden !! "visible" = Some (VBool false))
    by (vm_compute; reflexivity).
  exact (conj H1 (conj H2
           (proj2 (X8_legend_switch_off (pristine Demo.theme Cases.legend_off)
                     Cases.legend_hidden H1 H2)
              Cases.legend_off_instance legend_off_instance_built))).
Defined.

(** X9 for [{ legend: { position: 'left-center' } }] on the legends section
    of the initial configuration. *)
Lemma X9_witness :
  G2Config.legends (_config (pristine Demo.theme Cases.left_legend))
    = VObj (<["position" := VStr "bottom-center"]> ∅) /\
  truthy (_initialProps (pristine Demo.theme Cases.left_legend) !! "legend")
    && is_false (field (_initialProps (pristine Demo.theme Cases.left_legend)
                          !! "legend") "visible") = false /\
  exists m',
    _legend (pristine Demo.theme Cases.left_legend) =
      Ok (set_config
            (G2Config.set_section G2Config.Klegends (VObj m')
               (_config (pristine Demo.theme Cases.left_legend)))
            (pristine Demo.theme Cases.left_legend)) /\
    m' !! "position" = Some (VStr "left-center").
Proof.
  assert (H1 : G2Config.legends (_config (pristine Demo.theme Cases.left_legend))
               = VObj (<["position" := VStr "bottom-center"]> ∅))
    by (vm_compute; reflexivity).
  assert (H2 : truthy (_initialProps (pristine Demo.theme Cases.left_legend) !! "legend")
               && is_false (field (_initialProps (pristine Demo.theme Cases.left_legend)
                                     !! "legend") "visible") = false)
    by (vm_compute; reflexivity).
  destruct (X9_legend_options (pristine Demo.theme Cases.left_legend) _ H1 H2)
    as (m' & Hl & Hk).
  assert (H3 : m' !! "position" = Some (VStr "left-center")).
  { rewrite (Hk "position"). vm_compute. reflexivity. }
  exact (conj H1 (conj H2 (ex_intro _ m' (conj Hl H3)))).
Defined.

(** X10 for [{ tooltip: { style: { opacity: 1 } } }]. *)
Lemma X10_witness :
  G2Config.tooltip (_config (pristine Demo.theme Demo.styled_tooltip))
    = G2Config.tooltip (initial_config Demo.theme) /\
  truthy (_initialProps (pristine Demo.theme Demo.styled_tooltip) !! "tooltip")
    && is_false (field (_initialProps (pristine Demo.theme Demo.styled_tooltip)
                          !! "tooltip") "visible") = false /\
  exists m' s',
    _tooltip (pristine Demo.theme Demo.styled_tooltip) = Ok s' /\
    G2Config.tooltip (_config s') = VObj m' /\
    m' !! "showTitle" = Some (VBool true) /\
    Theme.tooltip (theme s') !! "opacity" = Some (VNum 1).
Proof.
  assert (H1 : G2Config.tooltip (_config (pristine Demo.theme Demo.styled_tooltip))
               = G2Config.tooltip (initial_config Demo.theme)) by reflexivity.
  assert (H2 : truthy (_initialProps (pristine Demo.theme Demo.styled_tooltip) !! "tooltip")
               && is_false (field (_initialProps (pristine Demo.theme Demo.styled_tooltip)
                                     !! "tooltip") "visible") = false)
    by (vm_compute; reflexivity).
  destruct (X10_tooltip_options (pristine Demo.theme Demo.styled_tooltip) _ H1 H2)
    as (m' & s' & Ht & Hm & Hk & _ & Hst).
  assert (H3 : m' !! "showTitle" = Some (VBool true)).
  { rewrite (Hk "showTitle"). vm_compute. reflexivity. }
  assert (H4 : Theme.tooltip (theme s') !! "opacity" = Some (VNum 1)).
  { apply Hst; [vm_compute; reflexivity|discriminate]. }
  exact (conj H1 (conj H2 (ex_intro _ m' (ex_intro _ s'
           (conj Ht (conj Hm (conj H3 H4))))))).
Defined.

(** X11 for the legends section of the initial configuration. *)
Lemma X11_witness :
  G2Config.Klegends <> G2Config.Kelement /\
  exists c1, _setConfig G2Config.Klegends (VBool false) (initial_config Demo.theme)
             = Ok c1 /\
    G2Config.section G2Config.Klegends c1 = VBool false.
Proof.
  assert (H1 : G2Config.Klegends <> G2Config.Kelement) by discriminate.
  exact (conj H1 (proj1 (X11_switched_off_section_stays_off G2Config.Klegends
                           (initial_config Demo.theme) H1))).
Defined.

(** X12 for the events of [Demo.auto_config], bound to a blank view: the
    handler named [onPlotClick] is registered under [click]. *)
Lemma X12_witness :
  plot (set_plot (Some Cases.blank_view) (pristine Demo.theme Demo.auto_config))
    = Some Cases.blank_view /\
  exists bs,
    _events (set_plot (Some Cases.blank_view) (pristine Demo.theme Demo.auto_config)) =
      Ok (set_eventHandlers
            (eventHandlers (set_plot (Some Cases.blank_view)
                              (pristine Demo.theme Demo.auto_config))
             ++ (record_of <$> bs))
            (set_plot (Some (View.set_listeners
                               (View.listeners Cases.blank_view ++ bs)
                               Cases.blank_view))
               (set_plot (Some Cases.blank_view)
                  (pristine Demo.theme Demo.auto_config)))) /\
    ("click", Demo.onPlotClick) ∈ bs.
Proof.
  assert (H1 : plot (set_plot (Some Cases.blank_view)
                       (pristine Demo.theme Demo.auto_config))
               = Some Cases.blank_view) by reflexivity.
  destruct (X12_events_bind_functions _ _ H1) as (bs & He & Hb).
  assert (H2 : ("click", Demo.onPlotClick) ∈ bs).
  { apply Hb. eexists _, "onPlotClick".
    split; [vm_compute; reflexivity|]. split; vm_compute; reflexivity. }
  exact (conj H1 (ex_intro _ bs (conj He H2))).
Defined.

(** X13 for an update of the legend on the auto-padded instance. *)
Lemma X13_witness :
  updateConfig 2 Demo.legend_left Demo.auto_instance = Ok Cases.auto_relegend /\
  eventHandlers Cases.auto_relegend =
    eventHandlers Demo.auto_instance ++
    (if is_str "auto"
          (effective_padding (newProps Demo.legend_left Demo.auto_instance)
             (theme Demo.auto_instance))
     then (record_of <$> epoch_bindings (_initialProps Cases.auto_relegend))
          ++ (record_of <$> epoch_bindings (_initialProps Cases.auto_relegend))
     else record_of <$> epoch_bindings (_initialProps Cases.auto_relegend)).
Proof.
  exact (conj auto_relegend_built
           (proj1 (X13_handler_records_accumulate _ _ _ _ auto_relegend_built))).
Defined.

(** X14 for a title and a description with [padding: [10, 10, 10, 10]]. *)
Lemma X14_witness :
  _initialProps (pristine Demo.theme Cases.titled) !! "padding"
    = Some (padding_tuple (10, 10, 10, 10)%Q) /\
  truthy (_initialProps (pristine Demo.theme Cases.titled) !! "title") = true /\
  truthy (_initialProps (pristine Demo.theme Cases.titled) !! "description") = true /\
  _init_layout (pristine Demo.theme Cases.titled)
    = Ok (Cases.titled_layout.1, Cases.titled_layout.2) /\
  exists T D,
    title Cases.titled_layout.1 = Some T /\
    description Cases.titled_layout.1 = Some D /\
    TextDescription.leftMargin D = 10%Q /\
    exists dm, TextDescription.topMargin D =
      (BBox.minY (getBBox T) + BBox.height (getBBox T) + dm)%Q.
Proof.
  assert (H1 : _initialProps (pristine Demo.theme Cases.titled) !! "padding"
               = Some (padding_tuple (10, 10, 10, 10)%Q)) by (vm_compute; reflexivity).
  assert (H2 : truthy (_initialProps (pristine Demo.theme Cases.titled) !! "title")
               = true) by (vm_compute; reflexivity).
  assert (H3 : truthy (_initialProps (pristine Demo.theme Cases.titled) !! "description")
               = true) by (vm_compute; reflexivity).
  destruct (X14_chrome_layout _ _ _ 10 10 10 10 H1 H2 H3 titled_layout_built)
    as (T & D & tm & dm & _ & _ & HT & HD & _ & _ & _ & _ & Hl & _ & Htop & _).
  exact (conj H1 (conj H2 (conj H3 (conj titled_layout_built
           (ex_intro _ T (ex_intro _ D
              (conj HT (conj HD (conj Hl (ex_intro _ dm Htop)))))))))).
Defined.

(** X15 for the title box among the boxes of a title and a description. *)
Lemma X15_witness :
  Demo.title_box ∈ option_list (Some Demo.title_box)
                   ++ option_list (Some Demo.description_box) /\
  exists x0 x1 y0,
    Margin.minX (_getViewMargin (Some Demo.title_box) (Some Demo.description_box)
                   8 300) = Fin x0 /\
    Margin.maxX (_getViewMargin (Some Demo.title_box) (Some Demo.description_box)
                   8 300) = Fin x1 /\
    Margin.minY (_getViewMargin (Some Demo.title_box) (Some Demo.description_box)
                   8 300) = Fin y0 /\
    (x0 <= BBox.minX Demo.title_box)%Q /\ (BBox.maxX Demo.title_box <= x1)%Q /\
    (y0 <= BBox.minY Demo.title_box)%Q.
Proof.
  assert (H1 : Demo.title_box ∈ option_list (Some Demo.title_box)
                                ++ option_list (Some Demo.description_box))
    by apply list_elem_of_here.
  destruct (X15_view_margin_encloses_chrome (Some Demo.title_box)
              (Some Demo.description_box) 8 300 Demo.title_box H1)
    as (x0 & x1 & y0 & A & B & C & D & E & F & _).
  exact (conj H1 (ex_intro _ x0 (ex_intro _ x1 (ex_intro _ y0
           (conj A (conj B (conj C (conj D (conj E F))))))))).
Defined.

(** X16: the constructed instance and the instance before its first
    [_init] agree on what [_init] reads, and build the same epoch. *)
Lemma X16_witness :
  inputs (pristine Demo.theme Demo.fixed_config) = inputs Demo.fixed_instance /\
  epoch <$> _init (pristine Demo.theme Demo.fixed_config) =
  epoch <$> _init Demo.fixed_instance.
Proof.
  assert (H1 : inputs (pristine Demo.theme Demo.fixed_config)
               = inputs Demo.fixed_instance) by (vm_compute; reflexivity).
  exact (conj H1 (X16_epoch_determined_by_inputs _ _ H1)).
Defined.

(** X17 for the field [petal]: the assembled scale has the [alias] of the
    metadata and the [type] of the variant. *)
Lemma X17_witness :
  _init_sections (variant := Cases.petal_variant)
    (pristine Demo.theme Cases.petal_config)
    = Ok Cases.petal_sections /\
  variant_scales (variant := Cases.petal_variant)
    (pristine Demo.theme Cases.petal_config)
    = VObj Cases.petal_scales /\
  Cases.petal_scales !! "petal" = Some (VObj Cases.petal_scale) /\
  undotted "petal" /\ "petal" <> "constructor" /\
  exists ro,
    field (Some (G2Config.scales (_config Cases.petal_sections))) "petal"
      = Some (VObj ro) /\
    ro !! "alias" = Some (VStr "Petal") /\ ro !! "type" = Some (VStr "linear").
Proof.
  assert (H2 : variant_scales (variant := Cases.petal_variant)
                 (pristine Demo.theme Cases.petal_config)
               = VObj Cases.petal_scales) by reflexivity.
  assert (H3 : Cases.petal_scales !! "petal" = Some (VObj Cases.petal_scale))
    by (vm_compute; reflexivity).
  assert (H5 : "petal" <> "constructor") by discriminate.
  destruct (@X17_meta_overrides_variant_scale Cases.petal_variant _ _ _ _ _
              petal_sections_built H2 H3 petal_undotted H5)
    as (r & Hr & _ & Hm).
  destruct (Hm Cases.petal_scale Cases.petal_meta eq_refl) as (ro & -> & Hk).
  { vm_compute. reflexivity. }
  assert (H6 : ro !! "alias" = Some (VStr "Petal")).
  { rewrite Hk by discriminate. vm_compute. reflexivity. }
  assert (H7 : ro !! "type" = Some (VStr "linear")).
  { rewrite Hk by discriminate. vm_compute. reflexivity. }
  exact (conj petal_sections_built (conj H2 (conj H3 (conj petal_undotted
           (conj H5 (ex_intro _ ro (conj Hr (conj H6 H7)))))))).
Defined.

(** X18 for the update [{ title: { style: { fill: 'red' } } }]. *)
Lemma X18_witness :
  updateConfig 2 Cases.red_title Demo.fixed_instance = Ok Cases.fixed_restyled /\
  theme_extends (theme Demo.fixed_instance) (theme Cases.fixed_restyled) /\
  Theme.title (theme Cases.fixed_restyled) !! "fill" = Some (VStr "red").
Proof.
  destruct (X18_theme_written_in_place _ _ _ _ fixed_restyled_built)
    as (He & Ht & _).
  assert (H3 : Theme.title (theme Cases.fixed_restyled) !! "fill" = Some (VStr "red")).
  { apply Ht; [vm_compute; reflexivity|discriminate]. }
  exact (conj fixed_restyled_built (conj He H3)).
Defined.


(** X21 for [Demo.fixed_config], whose padding is [[10, 10, 10, 10]]. *)
Lemma X21_witness :
  is_str "auto" (effective_padding Demo.fixed_config Demo.theme) = false /\
  construct 0 Demo.theme Demo.fixed_config
    = _init (pristine Demo.theme Demo.fixed_config) /\
  retired Demo.fixed_instance = [].
Proof.
  assert (H1 : is_str "auto" (effective_padding Demo.fixed_config Demo.theme)
               = false) by (vm_compute; reflexivity).
  destruct (X21_concrete_padding_single_epoch 1 Demo.theme Demo.fixed_config H1)
    as (_ & Hs).
  destruct (Hs Demo.fixed_instance fixed_instance_built) as (_ & _ & Hr & _).
  exact (conj H1 (conj (proj1 (X21_concrete_padding_single_epoch 0 Demo.theme
                                 Demo.fixed_config H1)) Hr)).
Defined.
